(** * A shallow embedding of the SolidJS primitives of [src/src/index.ts]

    Each primitive ([createSubscribe], [createForm], ..., [createAnnouncements])
    allocates signals, constructs one controller of the core library,
    registers an effect that subscribes a callback to the controller and
    unsubscribes on cleanup, and returns accessors and action methods.

    The controller classes are an external dependency of the package: they
    are modelled by their interface only.  A controller has an internal state
    of an arbitrary type [CS]; the state object handed to listeners is
    [view c]; what a method call does to the controller is an arbitrary
    function [ctrl] returning the successive states the controller notifies
    and the value the call resolves to; [subscribe] adds the listener to a
    registry and returns an unsubscribe function that removes it; whether
    [subscribe] also calls the listener once with the current state is left
    open ([emit_on_subscribe]).  A controller call is run to completion
    atomically. *)

From Stdlib Require Import String List ZArith Bool Lia.
Set Warnings "-register-all".
Import ListNotations.
Local Open Scope string_scope.
Local Open Scope list_scope.

(** JavaScript values passed to and returned by controller methods. *)
Inductive JsVal : Type :=
| JUndef
| JNull
| JBool (b : bool)
| JNum (z : Z)
| JStr (s : string)
| JArr (l : list JsVal)
| JObj (fields : list (string * JsVal)).

(** A method call on the controller: [controller.meth(args...)]. *)
Record Call : Type := mkCall { meth : string; args : list JsVal }.

(** ** Types of [@jamwidgets/core] used by the primitives *)
Module Core.
(** [ControllerStatus] is the string union ["idle" | "loading" | "success" | "error"]. *)
Inductive ControllerStatus : Type := idle | loading | success | error.

Record Error : Type := mkError { err_message : string }.

Module Comment.
Record t : Type := mk { id : string; authorName : string; content : string;
                        parentId : option string }.
End Comment.

Module Announcement.
Record t : Type := mk { id : Z; content : string; announcementType : string;
                        isDismissible : bool }.
End Announcement.

Module PollWithResults.
Record t : Type := mk { id : Z; question : string;
                        options : list (string * string);
                        results : list (string * Z) }.
End PollWithResults.

Module SubscribeState.
Record t : Type := mk { status : ControllerStatus; message : option string;
                        error : option Error }.
End SubscribeState.

Module FormState.
Record t : Type := mk { status : ControllerStatus; message : option string;
                        error : option Error }.
End FormState.

Module ReactionsState.
Record t : Type := mk { counts : list (string * Z); userReactions : list string;
                        status : ControllerStatus; error : option Error }.
End ReactionsState.

Module CommentsState.
Record t : Type := mk { comments : list Comment.t; status : ControllerStatus;
                        error : option Error }.
End CommentsState.

Module WaitlistState.
Record t : Type := mk { status : ControllerStatus; message : option string;
                        position : option Z; error : option Error }.
End WaitlistState.

Module ViewCountsState.
Record t : Type := mk { views : Z; uniqueVisitors : Z; status : ControllerStatus;
                        error : option Error }.
End ViewCountsState.

Module FeedbackState.
Record t : Type := mk { status : ControllerStatus; message : option string;
                        error : option Error }.
End FeedbackState.

Module PollState.
Record t : Type := mk { poll : option PollWithResults.t; status : ControllerStatus;
                        error : option Error }.
End PollState.

Module AnnouncementsState.
Record t : Type := mk { announcements : list Announcement.t;
                        status : ControllerStatus; error : option Error }.
End AnnouncementsState.
End Core.

(** ** The reactive runtime and the controller's listener registry *)
Module Runtime.
Section Runtime.
Context {CS St Sig : Type}.

(** A subscription callback: it sees the controller (for calls such as
    [controller.getVisibleAnnouncements()]) and the notified state, and
    calls the signal setters. *)
Definition Listener : Type := CS -> St -> Sig -> Sig.

(** The statements the primitives' bodies, effects and action methods are
    made of. *)
Inductive Prog : Type :=
| PRet (v : JsVal)                          (* return v *)
| PCall (c : Call) (k : JsVal -> Prog)      (* controller.m(args), not awaited *)
| PAwait (c : Call) (k : JsVal -> Prog)     (* await controller.m(args) *)
| PSubscribe (l : Listener) (k : nat -> Prog)
                                            (* const unsubscribe = controller.subscribe(l) *)
| POnCleanup (u : nat) (k : Prog)           (* onCleanup(unsubscribe) *)
| PWrite (f : Sig -> Sig) (k : Prog).       (* a signal setter called directly *)

Record World : Type := mkWorld {
  ctl : CS;                          (* the controller's internal state *)
  subs : list (nat * Listener);      (* the controller's listener registry *)
  next_id : nat;                     (* id of the next subscription *)
  sigs : Sig;                        (* the primitive's signals *)
  cleanups : list nat;               (* unsubscribes registered by the current effect run *)
  calls : list Call;                 (* controller methods called so far *)
  notes : nat;                       (* listener invocations so far *)
  ctors : nat                        (* controller objects constructed *)
}.

Variable view : CS -> St.
Variable ctrl : Call -> CS -> list CS * JsVal.
Variable emit_on_subscribe : bool.

Fixpoint deliver (c : CS) (ls : list (nat * Listener)) (s : Sig) : Sig :=
  match ls with
  | [] => s
  | (_, l) :: ls' => deliver c ls' (l c (view c) s)
  end.

(** The controller moves to state [c] and calls every registered listener. *)
Definition notify1 (w : World) (c : CS) : World :=
  mkWorld c (subs w) (next_id w) (deliver c (subs w) (sigs w)) (cleanups w)
          (calls w) (notes w + length (subs w)) (ctors w).

Definition notify_all (w : World) (cs : list CS) : World := fold_left notify1 cs w.

Definition log_call (c : Call) (w : World) : World :=
  mkWorld (ctl w) (subs w) (next_id w) (sigs w) (cleanups w) (calls w ++ [c])
          (notes w) (ctors w).

Definition call_ctl (c : Call) (w : World) : World * JsVal :=
  let '(sts, r) := ctrl c (ctl w) in (notify_all (log_call c w) sts, r).

Definition add_sub (l : Listener) (w : World) : World :=
  mkWorld (ctl w) (subs w ++ [(next_id w, l)]) (S (next_id w)) (sigs w) (cleanups w)
          (calls w) (notes w) (ctors w).

Definition emit_to (l : Listener) (w : World) : World :=
  mkWorld (ctl w) (subs w) (next_id w) (l (ctl w) (view (ctl w)) (sigs w)) (cleanups w)
          (calls w) (S (notes w)) (ctors w).

Definition add_cleanup (u : nat) (w : World) : World :=
  mkWorld (ctl w) (subs w) (next_id w) (sigs w) (cleanups w ++ [u]) (calls w)
          (notes w) (ctors w).

Definition write (f : Sig -> Sig) (w : World) : World :=
  mkWorld (ctl w) (subs w) (next_id w) (f (sigs w)) (cleanups w) (calls w)
          (notes w) (ctors w).

Fixpoint run (w : World) (p : Prog) : World * JsVal :=
  match p with
  | PRet v => (w, v)
  | PCall c k | PAwait c k => let '(w', r) := call_ctl c w in run w' (k r)
  | PSubscribe l k =>
      let u := next_id w in
      let w1 := add_sub l w in
      run (if emit_on_subscribe then emit_to l w1 else w1) (k u)
  | POnCleanup u k => run (add_cleanup u w) k
  | PWrite f k => run (write f w) k
  end.

(** The unsubscribe function returned by [subscribe] for subscription [u]. *)
Definition unsubscribe (u : nat) (w : World) : World :=
  mkWorld (ctl w) (filter (fun p => negb (Nat.eqb (fst p) u)) (subs w)) (next_id w)
          (sigs w) (cleanups w) (calls w) (notes w) (ctors w).

Definition clear_cleanups (w : World) : World :=
  mkWorld (ctl w) (subs w) (next_id w) (sigs w) [] (calls w) (notes w) (ctors w).

(** Solid runs the cleanups of a computation, last registered first, before
    it runs the computation again and when its owner is disposed. *)
Definition run_cleanups (w : World) : World :=
  fold_left (fun w u => unsubscribe u w) (rev (cleanups w)) (clear_cleanups w).

Variable Action : Type.
Variable act : Action -> Prog.
Variable effect : Prog.

Inductive Event : Type :=
| ERun                   (* the effect runs (again): cleanups first, then its body *)
| EDispose               (* the owner is disposed: cleanups run *)
| EAct (a : Action)      (* the component calls an action method *)
| EPush (cs : list CS).  (* the controller notifies on its own (e.g. a request completes) *)

Definition step (w : World) (e : Event) : World :=
  match e with
  | ERun => fst (run (run_cleanups w) effect)
  | EDispose => run_cleanups w
  | EAct a => fst (run w (act a))
  | EPush cs => notify_all w cs
  end.

Definition exec (w : World) (es : list Event) : World := fold_left step es w.

(** The body of a primitive: the signals are allocated with their initial
    values and one controller is constructed; the effect has not run yet. *)
Definition create (c0 : CS) (init : Sig) : World := mkWorld c0 [] 0 init [] [] 0 1.
End Runtime.
Arguments ERun {CS Action}.
Arguments EDispose {CS Action}.
Arguments EAct {CS Action} a.
Arguments EPush {CS Action} cs.
End Runtime.

(** ** What the caller of an action method gets back

    [run] executes a body and does not tell an awaited controller call from
    one whose promise is dropped. [run_awaits] is the same execution, also
    recording the controller calls whose promise the body awaits, in order. *)
Module Async.
Import Runtime.
Section Async.
Context {CS St Sig : Type}.
Variable view : CS -> St.
Variable ctrl : Call -> CS -> list CS * JsVal.
Variable emit : bool.

Fixpoint run_awaits (w : @World CS St Sig) (p : @Prog CS St Sig)
  : @World CS St Sig * list Call * JsVal :=
  match p with
  | PRet v => (w, [], v)
  | PCall c k => let '(w', r) := call_ctl view ctrl c w in run_awaits w' (k r)
  | PAwait c k =>
      let '(w', r) := call_ctl view ctrl c w in
      let '(w'', aw, v) := run_awaits w' (k r) in (w'', c :: aw, v)
  | PSubscribe l k =>
      let u := next_id w in
      let w1 := add_sub l w in
      run_awaits (if emit then emit_to view l w1 else w1) (k u)
  | POnCleanup u k => run_awaits (add_cleanup u w) k
  | PWrite f k => run_awaits (write f w) k
  end.

(** An [async] arrow function returns a promise, settled with the body's
    value once the controller promises the body awaits have settled; a
    plain arrow function returns the body's value itself. *)
Inductive Returned : Type :=
| RValue (v : JsVal)
| RPromise (awaited : list Call) (v : JsVal).

(** Calling an action method whose body is [p]; [is_async] says whether it
    is declared [async]. *)
Definition call_method (is_async : bool) (w : @World CS St Sig) (p : @Prog CS St Sig)
  : @World CS St Sig * Returned :=
  let '(w', aw, v) := run_awaits w p in (w', if is_async then RPromise aw v else RValue v).
End Async.
End Async.

(** [options.autoFetch !== false] (and [options.autoRecord !== false]) on an
    optional boolean: [None] is [undefined]. *)
Definition not_false (o : option bool) : bool :=
  match o with Some false => false | _ => true end.

(** [if (b) { controller.m(args); } k] with the returned promise dropped. *)
Definition call_if {CS St Sig : Type} (b : bool) (c : Call) (k : @Runtime.Prog CS St Sig)
  : @Runtime.Prog CS St Sig :=
  if b then Runtime.PCall c (fun _ => k) else k.

(** ** createSubscribe *)
Module Subscribe.
Import Runtime.
Definition St := Core.SubscribeState.t.

Record Signals : Type := mkSignals {
  status : Core.ControllerStatus; message : option string; error : option Core.Error }.

Definition init : Signals := mkSignals Core.idle None None.
Definition setStatus v s := mkSignals v (message s) (error s).
Definition setMessage v s := mkSignals (status s) v (error s).
Definition setError v s := mkSignals (status s) (message s) v.

Definition listener {CS : Type} (_ : CS) (state : St) (s : Signals) : Signals :=
  setError (Core.SubscribeState.error state)
    (setMessage (Core.SubscribeState.message state)
      (setStatus (Core.SubscribeState.status state) s)).

Definition effect {CS : Type} : @Prog CS St Signals :=
  PSubscribe listener (fun unsubscribe => POnCleanup unsubscribe (PRet JUndef)).

Inductive Action : Type := subscribe (email : string) | reset.

Definition act {CS : Type} (a : Action) : @Prog CS St Signals :=
  match a with
  | subscribe email => PAwait (mkCall "submit" [JStr email]) (fun _ => PRet JUndef)
  | reset => PCall (mkCall "reset" []) (fun _ => PRet JUndef)
  end.

(** Whether the action method is an [async] arrow function. *)
Definition is_async (a : Action) : bool :=
  match a with
  | subscribe _ => true
  | reset => false
  end.

Definition trace {CS : Type} view ctrl emit (c0 : CS) es :=
  exec view ctrl emit Action act effect (create c0 init) es.
End Subscribe.

(** ** createForm *)
Module Form.
Import Runtime.
Definition St := Core.FormState.t.

Record Options : Type := mkOptions { formSlug : string }.

Record Signals : Type := mkSignals {
  status : Core.ControllerStatus; message : option string; error : option Core.Error }.

Definition init : Signals := mkSignals Core.idle None None.
Definition setStatus v s := mkSignals v (message s) (error s).
Definition setMessage v s := mkSignals (status s) v (error s).
Definition setError v s := mkSignals (status s) (message s) v.

Definition listener {CS : Type} (_ : CS) (state : St) (s : Signals) : Signals :=
  setError (Core.FormState.error state)
    (setMessage (Core.FormState.message state)
      (setStatus (Core.FormState.status state) s)).

Definition effect {CS : Type} : @Prog CS St Signals :=
  PSubscribe listener (fun unsubscribe => POnCleanup unsubscribe (PRet JUndef)).

Inductive Action : Type := submit (data : list (string * JsVal)) | reset.

Definition act {CS : Type} (a : Action) : @Prog CS St Signals :=
  match a with
  | submit data => PAwait (mkCall "submit" [JObj data]) (fun _ => PRet JUndef)
  | reset => PCall (mkCall "reset" []) (fun _ => PRet JUndef)
  end.

(** Whether the action method is an [async] arrow function. *)
Definition is_async (a : Action) : bool :=
  match a with
  | submit _ => true
  | reset => false
  end.

Definition trace {CS : Type} view ctrl emit (c0 : CS) es :=
  exec view ctrl emit Action act effect (create c0 init) es.
End Form.

(** ** createReactions *)
Module Reactions.
Import Runtime.
Definition St := Core.ReactionsState.t.

Record Options : Type := mkOptions { contentId : string; autoFetch : option bool }.

Record Signals : Type := mkSignals {
  counts : list (string * Z); userReactions : list string;
  status : Core.ControllerStatus; error : option Core.Error }.

Definition init : Signals := mkSignals [] [] Core.idle None.
Definition setCounts v s := mkSignals v (userReactions s) (status s) (error s).
Definition setUserReactions v s := mkSignals (counts s) v (status s) (error s).
Definition setStatus v s := mkSignals (counts s) (userReactions s) v (error s).
Definition setError v s := mkSignals (counts s) (userReactions s) (status s) v.

Definition listener {CS : Type} (_ : CS) (state : St) (s : Signals) : Signals :=
  setError (Core.ReactionsState.error state)
    (setStatus (Core.ReactionsState.status state)
      (setUserReactions (Core.ReactionsState.userReactions state)
        (setCounts (Core.ReactionsState.counts state) s))).

Definition effect {CS : Type} (options : Options) : @Prog CS St Signals :=
  PSubscribe listener (fun unsubscribe =>
    call_if (not_false (autoFetch options)) (mkCall "fetch" [])
      (POnCleanup unsubscribe (PRet JUndef))).

Inductive Action : Type :=
| addReaction (type : string) | removeReaction (type : string) | refresh.

Definition act {CS : Type} (a : Action) : @Prog CS St Signals :=
  match a with
  | addReaction type => PAwait (mkCall "add" [JStr type]) (fun _ => PRet JUndef)
  | removeReaction type => PAwait (mkCall "remove" [JStr type]) (fun _ => PRet JUndef)
  | refresh => PAwait (mkCall "fetch" []) (fun _ => PRet JUndef)
  end.

(** Whether the action method is an [async] arrow function. *)
Definition is_async (a : Action) : bool :=
  match a with
  | addReaction _ => true
  | removeReaction _ => true
  | refresh => true
  end.

Definition trace {CS : Type} view ctrl emit options (c0 : CS) es :=
  exec view ctrl emit Action act (effect options) (create c0 init) es.
End Reactions.

(** ** createComments *)
Module Comments.
Import Runtime.
Definition St := Core.CommentsState.t.

Record Options : Type := mkOptions { contentId : string; autoFetch : option bool }.

Record Signals : Type := mkSignals {
  comments : list Core.Comment.t; status : Core.ControllerStatus;
  error : option Core.Error }.

Definition init : Signals := mkSignals [] Core.idle None.
Definition setComments v s := mkSignals v (status s) (error s).
Definition setStatus v s := mkSignals (comments s) v (error s).
Definition setError v s := mkSignals (comments s) (status s) v.

Definition listener {CS : Type} (_ : CS) (state : St) (s : Signals) : Signals :=
  setError (Core.CommentsState.error state)
    (setStatus (Core.CommentsState.status state)
      (setComments (Core.CommentsState.comments state) s)).

Definition effect {CS : Type} (options : Options) : @Prog CS St Signals :=
  PSubscribe listener (fun unsubscribe =>
    call_if (not_false (autoFetch options)) (mkCall "fetch" [])
      (POnCleanup unsubscribe (PRet JUndef))).

(** [opts] is the optional [{ authorEmail?, parentId? }] object as passed
    ([JUndef] when omitted). *)
Inductive Action : Type :=
| postComment (author content : string) (opts : JsVal) | refresh.

Definition act {CS : Type} (a : Action) : @Prog CS St Signals :=
  match a with
  | postComment author content opts =>
      PAwait (mkCall "post" [JStr author; JStr content; opts]) (fun _ => PRet JUndef)
  | refresh => PAwait (mkCall "fetch" []) (fun _ => PRet JUndef)
  end.

(** Whether the action method is an [async] arrow function. *)
Definition is_async (a : Action) : bool :=
  match a with
  | postComment _ _ _ => true
  | refresh => true
  end.

Definition trace {CS : Type} view ctrl emit options (c0 : CS) es :=
  exec view ctrl emit Action act (effect options) (create c0 init) es.
End Comments.

(** ** createWaitlist *)
Module Waitlist.
Import Runtime.
Definition St := Core.WaitlistState.t.

Record Signals : Type := mkSignals {
  status : Core.ControllerStatus; message : option string; position : option Z;
  error : option Core.Error }.

Definition init : Signals := mkSignals Core.idle None None None.
Definition setStatus v s := mkSignals v (message s) (position s) (error s).
Definition setMessage v s := mkSignals (status s) v (position s) (error s).
Definition setPosition v s := mkSignals (status s) (message s) v (error s).
Definition setError v s := mkSignals (status s) (message s) (position s) v.

Definition listener {CS : Type} (_ : CS) (state : St) (s : Signals) : Signals :=
  setError (Core.WaitlistState.error state)
    (setPosition (Core.WaitlistState.position state)
      (setMessage (Core.WaitlistState.message state)
        (setStatus (Core.WaitlistState.status state) s))).

Definition effect {CS : Type} : @Prog CS St Signals :=
  PSubscribe listener (fun unsubscribe => POnCleanup unsubscribe (PRet JUndef)).

(** [opts] is the optional [{ name?, source? }] object as passed. *)
Inductive Action : Type := join (email : string) (opts : JsVal) | reset.

Definition act {CS : Type} (a : Action) : @Prog CS St Signals :=
  match a with
  | join email opts => PAwait (mkCall "join" [JStr email; opts]) (fun _ => PRet JUndef)
  | reset => PCall (mkCall "reset" []) (fun _ => PRet JUndef)
  end.

(** Whether the action method is an [async] arrow function. *)
Definition is_async (a : Action) : bool :=
  match a with
  | join _ _ => true
  | reset => false
  end.

Definition trace {CS : Type} view ctrl emit (c0 : CS) es :=
  exec view ctrl emit Action act effect (create c0 init) es.
End Waitlist.

(** ** createViews *)
Module Views.
Import Runtime.
Definition St := Core.ViewCountsState.t.

Record Options : Type := mkOptions { pageId : string; autoRecord : option bool }.

Record Signals : Type := mkSignals {
  views : Z; uniqueVisitors : Z; status : Core.ControllerStatus;
  error : option Core.Error }.

Definition init : Signals := mkSignals 0%Z 0%Z Core.idle None.
Definition setViews v s := mkSignals v (uniqueVisitors s) (status s) (error s).
Definition setUniqueVisitors v s := mkSignals (views s) v (status s) (error s).
Definition setStatus v s := mkSignals (views s) (uniqueVisitors s) v (error s).
Definition setError v s := mkSignals (views s) (uniqueVisitors s) (status s) v.

Definition listener {CS : Type} (_ : CS) (state : St) (s : Signals) : Signals :=
  setError (Core.ViewCountsState.error state)
    (setStatus (Core.ViewCountsState.status state)
      (setUniqueVisitors (Core.ViewCountsState.uniqueVisitors state)
        (setViews (Core.ViewCountsState.views state) s))).

Definition effect {CS : Type} (options : Options) : @Prog CS St Signals :=
  PSubscribe listener (fun unsubscribe =>
    call_if (not_false (autoRecord options)) (mkCall "record" [])
      (POnCleanup unsubscribe (PRet JUndef))).

Inductive Action : Type := record | refresh.

Definition act {CS : Type} (a : Action) : @Prog CS St Signals :=
  match a with
  | record => PAwait (mkCall "record" []) (fun _ => PRet JUndef)
  | refresh => PAwait (mkCall "fetch" []) (fun _ => PRet JUndef)
  end.

(** Whether the action method is an [async] arrow function. *)
Definition is_async (a : Action) : bool :=
  match a with
  | record => true
  | refresh => true
  end.

Definition trace {CS : Type} view ctrl emit options (c0 : CS) es :=
  exec view ctrl emit Action act (effect options) (create c0 init) es.
End Views.

(** ** createFeedback *)
Module Feedback.
Import Runtime.
Definition St := Core.FeedbackState.t.

Record Signals : Type := mkSignals {
  status : Core.ControllerStatus; message : option string; error : option Core.Error }.

Definition init : Signals := mkSignals Core.idle None None.
Definition setStatus v s := mkSignals v (message s) (error s).
Definition setMessage v s := mkSignals (status s) v (error s).
Definition setError v s := mkSignals (status s) (message s) v.

Definition listener {CS : Type} (_ : CS) (state : St) (s : Signals) : Signals :=
  setError (Core.FeedbackState.error state)
    (setMessage (Core.FeedbackState.message state)
      (setStatus (Core.FeedbackState.status state) s)).

Definition effect {CS : Type} : @Prog CS St Signals :=
  PSubscribe listener (fun unsubscribe => POnCleanup unsubscribe (PRet JUndef)).

(** [type] is a [FeedbackType] string; [opts] the optional
    [{ email?, pageUrl? }] object as passed. *)
Inductive Action : Type := submit (type content : string) (opts : JsVal) | reset.

Definition act {CS : Type} (a : Action) : @Prog CS St Signals :=
  match a with
  | submit type content opts =>
      PAwait (mkCall "submit" [JStr type; JStr content; opts]) (fun _ => PRet JUndef)
  | reset => PCall (mkCall "reset" []) (fun _ => PRet JUndef)
  end.

(** Whether the action method is an [async] arrow function. *)
Definition is_async (a : Action) : bool :=
  match a with
  | submit _ _ _ => true
  | reset => false
  end.

Definition trace {CS : Type} view ctrl emit (c0 : CS) es :=
  exec view ctrl emit Action act effect (create c0 init) es.
End Feedback.

(** ** createPoll *)
Module Poll.
Import Runtime.
Definition St := Core.PollState.t.

Record Options : Type := mkOptions { slug : string; autoFetch : option bool }.

Record Signals : Type := mkSignals {
  poll : option Core.PollWithResults.t; status : Core.ControllerStatus;
  error : option Core.Error }.

Definition init : Signals := mkSignals None Core.idle None.
Definition setPoll v s := mkSignals v (status s) (error s).
Definition setStatus v s := mkSignals (poll s) v (error s).
Definition setError v s := mkSignals (poll s) (status s) v.

Definition listener {CS : Type} (_ : CS) (state : St) (s : Signals) : Signals :=
  setError (Core.PollState.error state)
    (setStatus (Core.PollState.status state)
      (setPoll (Core.PollState.poll state) s)).

Definition effect {CS : Type} (options : Options) : @Prog CS St Signals :=
  PSubscribe listener (fun unsubscribe =>
    call_if (not_false (autoFetch options)) (mkCall "fetch" [])
      (POnCleanup unsubscribe (PRet JUndef))).

(** [hasVoted] is the accessor [() => controller.hasVoted()]. *)
Inductive Action : Type := vote (selectedOptions : list string) | refresh | hasVoted.

Definition act {CS : Type} (a : Action) : @Prog CS St Signals :=
  match a with
  | vote selectedOptions =>
      PAwait (mkCall "vote" [JArr (map JStr selectedOptions)]) (fun _ => PRet JUndef)
  | refresh => PAwait (mkCall "fetch" []) (fun _ => PRet JUndef)
  | hasVoted => PCall (mkCall "hasVoted" []) (fun r => PRet r)
  end.

(** Whether the action method is an [async] arrow function. *)
Definition is_async (a : Action) : bool :=
  match a with
  | vote _ => true
  | refresh => true
  | hasVoted => false
  end.

Definition trace {CS : Type} view ctrl emit options (c0 : CS) es :=
  exec view ctrl emit Action act (effect options) (create c0 init) es.
End Poll.

(** ** createAnnouncements *)
Module Announcements.
Import Runtime.
Definition St := Core.AnnouncementsState.t.

Record Options : Type := mkOptions { autoFetch : option bool }.

Record Signals : Type := mkSignals {
  announcements : list Core.Announcement.t; status : Core.ControllerStatus;
  error : option Core.Error }.

Definition init : Signals := mkSignals [] Core.idle None.
Definition setAnnouncements v s := mkSignals v (status s) (error s).
Definition setStatus v s := mkSignals (announcements s) v (error s).
Definition setError v s := mkSignals (announcements s) (status s) v.

(** The callback reads [controller.getVisibleAnnouncements()], a method of
    the controller given here as a function of the controller's state. *)
Definition listener {CS : Type} (getVisibleAnnouncements : CS -> list Core.Announcement.t)
  (controller : CS) (state : St) (s : Signals) : Signals :=
  setError (Core.AnnouncementsState.error state)
    (setStatus (Core.AnnouncementsState.status state)
      (setAnnouncements (getVisibleAnnouncements controller) s)).

Definition effect {CS : Type} getVisibleAnnouncements (options : Options)
  : @Prog CS St Signals :=
  PSubscribe (listener getVisibleAnnouncements) (fun unsubscribe =>
    call_if (not_false (autoFetch options)) (mkCall "fetch" [])
      (POnCleanup unsubscribe (PRet JUndef))).

Inductive Action : Type := dismiss (announcementId : Z) | refresh.

Definition act {CS : Type} (a : Action) : @Prog CS St Signals :=
  match a with
  | dismiss announcementId =>
      PAwait (mkCall "dismiss" [JNum announcementId]) (fun _ => PRet JUndef)
  | refresh => PAwait (mkCall "fetch" []) (fun _ => PRet JUndef)
  end.

(** Whether the action method is an [async] arrow function. *)
Definition is_async (a : Action) : bool :=
  match a with
  | dismiss _ => true
  | refresh => true
  end.

Definition trace {CS : Type} view ctrl emit getVisibleAnnouncements options (c0 : CS) es :=
  exec view ctrl emit Action act (effect getVisibleAnnouncements options) (create c0 init) es.
End Announcements.

(** ** Re-exports of [index.ts]

    [export { fetchPosts, ... } from "@jamwidgets/core"] and
    [export type { JamWidgetsConfig, ... } from "@jamwidgets/core"] bind
    names of the module to the bindings of another module; the other
    exports are declared in the module itself. *)
Module Exports.
Section Exports.
Variable V : Type.

Inductive ExportDecl : Type :=
| ExportFrom (names : list string) (from : string)
| ExportLocal (name : string) (v : V).

(** The first declaration that binds [n] gives its value. *)
Fixpoint resolve (modules : string -> string -> option V) (decls : list ExportDecl)
  (n : string) : option V :=
  match decls with
  | [] => None
  | ExportFrom names from :: ds =>
      if existsb (String.eqb n) names then modules from n else resolve modules ds n
  | ExportLocal name v :: ds =>
      if String.eqb n name then Some v else resolve modules ds n
  end.

Definition core : string := "@jamwidgets/core".

Definition reexported_types : list string :=
  ["JamWidgetsConfig"; "SubscribeState"; "FormState"; "ReactionsState";
   "CommentsState"; "WaitlistState"; "ViewCountsState"; "FeedbackState";
   "PollState"; "AnnouncementsState"; "Comment"; "Announcement";
   "PollWithResults"; "FeedbackType"; "ReactionCounts"; "JamwidgetsPost";
   "SeriphPost"; "FetchPostsOptions"; "FetchPostOptions"; "ControllerStatus"].

Definition reexported_values : list string :=
  ["fetchPosts"; "fetchPost"; "getConfigFromMeta"; "resolveConfig";
   "DEFAULT_ENDPOINT"; "API_PATH"].

(** The value (or type) of each primitive declared in [index.ts]. *)
Variables createSubscribe createForm createReactions createComments createWaitlist
  createViews createFeedback createPoll createAnnouncements : V.

Definition index_exports : list ExportDecl :=
  [ExportFrom reexported_types core;
   ExportFrom reexported_values core;
   ExportLocal "createSubscribe" createSubscribe;
   ExportLocal "createForm" createForm;
   ExportLocal "createReactions" createReactions;
   ExportLocal "createComments" createComments;
   ExportLocal "createWaitlist" createWaitlist;
   ExportLocal "createViews" createViews;
   ExportLocal "createFeedback" createFeedback;
   ExportLocal "createPoll" createPoll;
   ExportLocal "createAnnouncements" createAnnouncements].
End Exports.
End Exports.

(** ** Shapes of programs *)
Module Shapes.
Import Runtime.
Section Shapes.
Context {CS St Sig : Type}.

(** Programs that only call controller methods. *)
Fixpoint plain (p : @Prog CS St Sig) : Prop :=
  match p with
  | PRet _ => True
  | PCall _ k | PAwait _ k => forall v, plain (k v)
  | _ => False
  end.

(** Programs that never call a signal setter directly. *)
Fixpoint nowrite (p : @Prog CS St Sig) : Prop :=
  match p with
  | PRet _ => True
  | PCall _ k | PAwait _ k => forall v, nowrite (k v)
  | PSubscribe _ k => forall u, nowrite (k u)
  | POnCleanup _ k => nowrite k
  | PWrite _ _ => False
  end.

(** The rest of an effect after [subscribe]: controller calls, then
    [onCleanup(unsubscribe)] with the subscription's own unsubscribe, then
    only controller calls. *)
Fixpoint wired_tail (u : nat) (p : @Prog CS St Sig) : Prop :=
  match p with
  | PCall _ k => forall v, wired_tail u (k v)
  | POnCleanup u' k => u' = u /\ plain k
  | _ => False
  end.

Definition wired (L : Listener) (p : @Prog CS St Sig) : Prop :=
  match p with
  | PSubscribe l k => l = L /\ forall u, wired_tail u (k u)
  | _ => False
  end.

(** At most one subscription, each paired with its unsubscribe registered
    for cleanup, all of them of listener [L]; one controller. *)
Definition Inv (L : Listener) (w : @World CS St Sig) : Prop :=
  map fst (subs w) = cleanups w /\ length (cleanups w) <= 1 /\
  Forall (fun p => snd p = L) (subs w) /\ ctors w = 1.

(** Programs whose only writes to the signals are made by listener [L]. *)
Fixpoint listens_only (L : Listener) (p : @Prog CS St Sig) : Prop :=
  match p with
  | PRet _ => True
  | PCall _ k | PAwait _ k => forall v, listens_only L (k v)
  | PSubscribe l k => l = L /\ forall u, listens_only L (k u)
  | POnCleanup _ k => listens_only L k
  | PWrite _ _ => False
  end.

End Shapes.
End Shapes.

(** ** The accessors as the spec reads them

    Each accessor returns the corresponding field of the notified state. *)
Module SpecAccessors.
Definition subscribe (st : Core.SubscribeState.t) : Subscribe.Signals :=
  Subscribe.mkSignals (Core.SubscribeState.status st) (Core.SubscribeState.message st)
    (Core.SubscribeState.error st).

Definition form (st : Core.FormState.t) : Form.Signals :=
  Form.mkSignals (Core.FormState.status st) (Core.FormState.message st)
    (Core.FormState.error st).

Definition reactions (st : Core.ReactionsState.t) : Reactions.Signals :=
  Reactions.mkSignals (Core.ReactionsState.counts st) (Core.ReactionsState.userReactions st)
    (Core.ReactionsState.status st) (Core.ReactionsState.error st).

Definition comments (st : Core.CommentsState.t) : Comments.Signals :=
  Comments.mkSignals (Core.CommentsState.comments st) (Core.CommentsState.status st)
    (Core.CommentsState.error st).

Definition waitlist (st : Core.WaitlistState.t) : Waitlist.Signals :=
  Waitlist.mkSignals (Core.WaitlistState.status st) (Core.WaitlistState.message st)
    (Core.WaitlistState.position st) (Core.WaitlistState.error st).

Definition views (st : Core.ViewCountsState.t) : Views.Signals :=
  Views.mkSignals (Core.ViewCountsState.views st) (Core.ViewCountsState.uniqueVisitors st)
    (Core.ViewCountsState.status st) (Core.ViewCountsState.error st).

Definition feedback (st : Core.FeedbackState.t) : Feedback.Signals :=
  Feedback.mkSignals (Core.FeedbackState.status st) (Core.FeedbackState.message st)
    (Core.FeedbackState.error st).

Definition poll (st : Core.PollState.t) : Poll.Signals :=
  Poll.mkSignals (Core.PollState.poll st) (Core.PollState.status st)
    (Core.PollState.error st).

Definition announcements (st : Core.AnnouncementsState.t) : Announcements.Signals :=
  Announcements.mkSignals (Core.AnnouncementsState.announcements st)
    (Core.AnnouncementsState.status st) (Core.AnnouncementsState.error st).

(** The accessors of [createAnnouncements] as the code sets them: the
    announcements come from [controller.getVisibleAnnouncements()]. *)
Definition announcements_visible {CS : Type}
  (getVisibleAnnouncements : CS -> list Core.Announcement.t) (c : CS)
  (st : Core.AnnouncementsState.t) : Announcements.Signals :=
  Announcements.mkSignals (getVisibleAnnouncements c)
    (Core.AnnouncementsState.status st) (Core.AnnouncementsState.error st).

(** An action method as the spec describes it: it calls controller method
    [c] with its arguments, awaits it, and adds nothing of its own; the
    caller gets a promise that waits for [c] alone and resolves to
    [undefined]. *)
Definition delegates_awaited {CS St Sig : Type} view ctrl emit (is_async : bool)
  (p : @Runtime.Prog CS St Sig) (c : Call) : Prop :=
  forall w, Async.call_method view ctrl emit is_async w p =
            (fst (Runtime.call_ctl view ctrl c w), Async.RPromise [c] JUndef).
End SpecAccessors.

(** ** Concrete controllers and states *)
Module Examples.
(** A controller that never notifies. *)
Definition silent {CS : Type} (c : Call) (s : CS) : list CS * JsVal := ([], JUndef).

(** A controller whose [fetch] and [record] notify the state [s'] once. *)
Definition loads {CS : Type} (s' : CS) (c : Call) (s : CS) : list CS * JsVal :=
  if orb (String.eqb (meth c) "fetch") (String.eqb (meth c) "record")
  then ([s'], JUndef) else ([], JUndef).

(** A controller that answers every call by notifying the state [s'] once. *)
Definition busy {CS : Type} (s' : CS) (c : Call) (s : CS) : list CS * JsVal := ([s'], JUndef).

Definition subscribe_st : Core.SubscribeState.t :=
  Core.SubscribeState.mk Core.success (Some "Subscribed") None.
Definition form_st : Core.FormState.t :=
  Core.FormState.mk Core.success (Some "Sent") None.
Definition reactions_st : Core.ReactionsState.t :=
  Core.ReactionsState.mk [("like", 3%Z)] ["like"] Core.success None.
Definition comment1 : Core.Comment.t := Core.Comment.mk "c1" "Ann" "Great post!" None.
Definition comments_st : Core.CommentsState.t :=
  Core.CommentsState.mk [comment1] Core.success None.
Definition waitlist_st : Core.WaitlistState.t :=
  Core.WaitlistState.mk Core.success (Some "Joined") (Some 4%Z) None.
Definition views_st : Core.ViewCountsState.t :=
  Core.ViewCountsState.mk 10%Z 7%Z Core.success None.
Definition feedback_st : Core.FeedbackState.t :=
  Core.FeedbackState.mk Core.success (Some "Thanks") None.
Definition poll1 : Core.PollWithResults.t :=
  Core.PollWithResults.mk 1%Z "Favourite framework?" [("a", "Solid")] [("a", 5%Z)].
Definition poll_st : Core.PollState.t := Core.PollState.mk (Some poll1) Core.success None.

Definition ann1 : Core.Announcement.t :=
  Core.Announcement.mk 1%Z "Maintenance tonight" "info" true.
Definition announcements_st : Core.AnnouncementsState.t :=
  Core.AnnouncementsState.mk [ann1] Core.success None.

(** An announcements controller that keeps the ids dismissed so far next to
    its state; [getVisibleAnnouncements()] leaves the dismissed ones out. *)
Definition DismissState : Type := (Core.AnnouncementsState.t * list Z)%type.
Definition dismiss_view (c : DismissState) : Core.AnnouncementsState.t := fst c.
Definition visible (c : DismissState) : list Core.Announcement.t :=
  filter (fun a => negb (existsb (Z.eqb (Core.Announcement.id a)) (snd c)))
    (Core.AnnouncementsState.announcements (fst c)).
Definition ann_c : DismissState := (announcements_st, []).
End Examples.

(** ** The controller calls a primitive makes, read event by event

    Calls of [subscribe] and of the returned unsubscribe functions are not
    in the log; it records the controller's other methods. *)
Module CallLog.
Import Runtime.

(** The calls one event contributes: [mount] when the effect runs, the
    action's own call when an action method is called, none otherwise. *)
Definition event_calls {CS A : Type} (mount : list Call) (call_of : A -> Call)
  (e : @Event CS A) : list Call :=
  match e with
  | ERun => mount
  | EAct a => [call_of a]
  | EDispose | EPush _ => []
  end.

(** The controller method each action method calls, with its arguments. *)
Definition subscribe_call (a : Subscribe.Action) : Call :=
  match a with
  | Subscribe.subscribe email => mkCall "submit" [JStr email]
  | Subscribe.reset => mkCall "reset" []
  end.

Definition form_call (a : Form.Action) : Call :=
  match a with
  | Form.submit data => mkCall "submit" [JObj data]
  | Form.reset => mkCall "reset" []
  end.

Definition reactions_call (a : Reactions.Action) : Call :=
  match a with
  | Reactions.addReaction type => mkCall "add" [JStr type]
  | Reactions.removeReaction type => mkCall "remove" [JStr type]
  | Reactions.refresh => mkCall "fetch" []
  end.

Definition comments_call (a : Comments.Action) : Call :=
  match a with
  | Comments.postComment author content opts => mkCall "post" [JStr author; JStr content; opts]
  | Comments.refresh => mkCall "fetch" []
  end.

Definition waitlist_call (a : Waitlist.Action) : Call :=
  match a with
  | Waitlist.join email opts => mkCall "join" [JStr email; opts]
  | Waitlist.reset => mkCall "reset" []
  end.

Definition views_call (a : Views.Action) : Call :=
  match a with
  | Views.record => mkCall "record" []
  | Views.refresh => mkCall "fetch" []
  end.

Definition feedback_call (a : Feedback.Action) : Call :=
  match a with
  | Feedback.submit type content opts => mkCall "submit" [JStr type; JStr content; opts]
  | Feedback.reset => mkCall "reset" []
  end.

Definition poll_call (a : Poll.Action) : Call :=
  match a with
  | Poll.vote selectedOptions => mkCall "vote" [JArr (map JStr selectedOptions)]
  | Poll.refresh => mkCall "fetch" []
  | Poll.hasVoted => mkCall "hasVoted" []
  end.

Definition announcements_call (a : Announcements.Action) : Call :=
  match a with
  | Announcements.dismiss announcementId => mkCall "dismiss" [JNum announcementId]
  | Announcements.refresh => mkCall "fetch" []
  end.

(** The call an effect run makes after subscribing, if any. *)
Definition mount (b : bool) (c : Call) : list Call := if b then [c] else [].
End CallLog.

(** ** Facts about the runtime *)
Module RuntimeFacts.
Import Runtime Shapes.
Section Facts.
Context {CS St Sig : Type}.
Variable view : CS -> St.
Variable ctrl : Call -> CS -> list CS * JsVal.
Variable emit : bool.

Lemma notify_all_frame (cs : list CS) (w : @World CS St Sig) :
  let w' := notify_all view w cs in
  subs w' = subs w /\ next_id w' = next_id w /\ cleanups w' = cleanups w /\
  calls w' = calls w /\ ctors w' = ctors w /\
  notes w' = notes w + length cs * length (subs w).
Proof.
  revert w; induction cs as [|c cs IH]; intro w; cbv zeta.
  - simpl. repeat split; lia.
  - change (notify_all view w (c :: cs)) with (notify_all view (notify1 view w c) cs).
    destruct (IH (notify1 view w c)) as (H1 & H2 & H3 & H4 & H5 & H6).
    rewrite H1, H2, H3, H4, H5, H6. simpl. repeat split; lia.
Qed.

Lemma deliver_nil (c : CS) (s : Sig) : deliver view c [] s = s.
Proof. reflexivity. Qed.

Lemma notify_all_unsubscribed (cs : list CS) (w : @World CS St Sig) :
  subs w = [] -> sigs (notify_all view w cs) = sigs w.
Proof.
  revert w; induction cs as [|c cs IH]; intros w Hs; simpl; [reflexivity|].
  rewrite IH by (simpl; exact Hs). simpl. rewrite Hs. reflexivity.
Qed.

Lemma notify_all_quiet (cs : list CS) (w : @World CS St Sig) :
  notes (notify_all view w cs) = notes w -> sigs (notify_all view w cs) = sigs w.
Proof.
  intro Hn. destruct (notify_all_frame cs w) as (_ & _ & _ & _ & _ & H6).
  rewrite H6 in Hn.
  destruct cs as [|c cs]; [reflexivity|].
  destruct (subs w) eqn:Hs; [|simpl in Hn; lia].
  apply notify_all_unsubscribed; exact Hs.
Qed.

Lemma deliver_overwrite (L : @Listener CS St Sig) (F : CS -> St -> Sig) (c : CS)
  (ls : list (nat * Listener)) (s : Sig) :
  (forall c st s, L c st s = F c st) ->
  Forall (fun p => snd p = L) ls -> ls <> [] ->
  deliver view c ls s = F c (view c).
Proof.
  intros HL; revert s; induction ls as [|[u l] ls IH]; intros s Hall Hne;
    [contradiction|].
  apply Forall_cons_iff in Hall as [Hl Hrest]. simpl in Hl; subst l. simpl.
  destruct ls as [|p ls].
  - apply HL.
  - apply IH; [exact Hrest | discriminate].
Qed.

Lemma notify_all_last (L : @Listener CS St Sig) (F : CS -> St -> Sig) (cs : list CS)
  (w : @World CS St Sig) (d : CS) :
  (forall c st s, L c st s = F c st) ->
  Forall (fun p => snd p = L) (subs w) -> subs w <> [] -> cs <> [] ->
  sigs (notify_all view w cs) = F (last cs d) (view (last cs d)).
Proof.
  intros HL; revert w; induction cs as [|c cs IH]; intros w Hall Hne Hcs;
    [contradiction|].
  simpl notify_all. destruct cs as [|c' cs].
  - simpl. apply (deliver_overwrite L F); assumption.
  - rewrite IH by (simpl; first [assumption | discriminate]). reflexivity.
Qed.

Lemma call_ctl_eq (c : Call) (w : @World CS St Sig) :
  call_ctl view ctrl c w =
  (notify_all view (log_call c w) (fst (ctrl c (ctl w))), snd (ctrl c (ctl w))).
Proof. unfold call_ctl. destruct (ctrl c (ctl w)); reflexivity. Qed.

Lemma run_call (c : Call) (k : JsVal -> Prog) (w : @World CS St Sig) :
  run view ctrl emit w (PCall c k) =
  run view ctrl emit (fst (call_ctl view ctrl c w)) (k (snd (call_ctl view ctrl c w))).
Proof. cbn [run]. destruct (call_ctl view ctrl c w); reflexivity. Qed.

Lemma run_await (c : Call) (k : JsVal -> Prog) (w : @World CS St Sig) :
  run view ctrl emit w (PAwait c k) =
  run view ctrl emit (fst (call_ctl view ctrl c w)) (k (snd (call_ctl view ctrl c w))).
Proof. cbn [run]. destruct (call_ctl view ctrl c w); reflexivity. Qed.

Lemma run_subscribe (l : Listener) (k : nat -> Prog) (w : @World CS St Sig) :
  run view ctrl emit w (PSubscribe l k) =
  run view ctrl emit (if emit then emit_to view l (add_sub l w) else add_sub l w)
      (k (next_id w)).
Proof. reflexivity. Qed.

(** What a controller call leaves unchanged. *)
Lemma call_ctl_frame (c : Call) (w : @World CS St Sig) :
  let w' := fst (call_ctl view ctrl c w) in
  subs w' = subs w /\ next_id w' = next_id w /\ cleanups w' = cleanups w /\
  calls w' = calls w ++ [c] /\ ctors w' = ctors w /\
  notes w' = notes w + length (fst (ctrl c (ctl w))) * length (subs w) /\
  (notes w' = notes w -> sigs w' = sigs w) /\
  (subs w = [] -> sigs w' = sigs w).
Proof.
  cbv zeta. rewrite call_ctl_eq. simpl fst.
  destruct (notify_all_frame (fst (ctrl c (ctl w))) (log_call c w))
    as (F1 & F2 & F3 & F4 & F5 & F6).
  rewrite F1, F2, F3, F4, F5, F6. simpl. repeat split; try lia.
  - intro Hn. rewrite notify_all_quiet; [reflexivity|].
    rewrite F6. simpl. lia.
  - intro Hs. rewrite notify_all_unsubscribed; [reflexivity|]. simpl. exact Hs.
Qed.

Lemma run_plain_frame (p : @Prog CS St Sig) :
  plain p -> forall w : @World CS St Sig,
  let w' := fst (run view ctrl emit w p) in
  subs w' = subs w /\ next_id w' = next_id w /\ cleanups w' = cleanups w /\
  ctors w' = ctors w /\ (subs w = [] -> sigs w' = sigs w).
Proof.
  induction p as [v|c k IH|c k IH|l k IH|u k IH|f k IH]; simpl plain; intros Hp w;
    cbv zeta; try contradiction.
  - simpl. auto.
  - rewrite run_call.
    destruct (call_ctl_frame c w) as (F1 & F2 & F3 & _ & F5 & _ & _ & F8).
    destruct (IH (snd (call_ctl view ctrl c w)) (Hp _) (fst (call_ctl view ctrl c w))) as (G1 & G2 & G3 & G5 & G8).
    repeat split; try congruence.
    intro Hs. rewrite G8 by congruence. auto.
  - rewrite run_await.
    destruct (call_ctl_frame c w) as (F1 & F2 & F3 & _ & F5 & _ & _ & F8).
    destruct (IH (snd (call_ctl view ctrl c w)) (Hp _) (fst (call_ctl view ctrl c w))) as (G1 & G2 & G3 & G5 & G8).
    repeat split; try congruence.
    intro Hs. rewrite G8 by congruence. auto.
Qed.

Lemma run_nowrite (p : @Prog CS St Sig) :
  nowrite p -> forall w : @World CS St Sig,
  let w' := fst (run view ctrl emit w p) in
  notes w <= notes w' /\ (notes w' = notes w -> sigs w' = sigs w).
Proof.
  induction p as [v|c k IH|c k IH|l k IH|u k IH|f k IH]; simpl nowrite; intros Hp w;
    cbv zeta; try contradiction.
  - simpl. auto.
  - rewrite run_call.
    destruct (call_ctl_frame c w) as (_ & _ & _ & _ & _ & F6 & F7 & _).
    destruct (IH (snd (call_ctl view ctrl c w)) (Hp _) (fst (call_ctl view ctrl c w))) as (G1 & G2).
    split; [lia|]. intro Hn. rewrite G2 by lia. apply F7. lia.
  - rewrite run_await.
    destruct (call_ctl_frame c w) as (_ & _ & _ & _ & _ & F6 & F7 & _).
    destruct (IH (snd (call_ctl view ctrl c w)) (Hp _) (fst (call_ctl view ctrl c w))) as (G1 & G2).
    split; [lia|]. intro Hn. rewrite G2 by lia. apply F7. lia.
  - cbn [run]. destruct emit.
    + destruct (IH (next_id w) (Hp _) (emit_to view l (add_sub l w))) as (G1 & G2).
      simpl in G1, G2. split; [lia|]. intro Hn. lia.
    + destruct (IH (next_id w) (Hp _) (add_sub l w)) as (G1 & G2).
      simpl in G1, G2. auto.
  - cbn [run].
    destruct (IH Hp (add_cleanup u w)) as (G1 & G2). simpl in G1, G2. auto.
Qed.

Lemma run_wired_tail (u : nat) (p : @Prog CS St Sig) :
  wired_tail u p -> forall w : @World CS St Sig,
  let w' := fst (run view ctrl emit w p) in
  subs w' = subs w /\ cleanups w' = cleanups w ++ [u] /\ ctors w' = ctors w.
Proof.
  induction p as [v|c k IH|c k IH|l k IH|u' k IH|f k IH]; simpl wired_tail;
    intros Hp w; cbv zeta; try contradiction.
  - rewrite run_call.
    destruct (call_ctl_frame c w) as (F1 & _ & F3 & _ & F5 & _).
    destruct (IH (snd (call_ctl view ctrl c w)) (Hp _) (fst (call_ctl view ctrl c w))) as (G1 & G3 & G5).
    repeat split; congruence.
  - destruct Hp as [-> Hk]. cbn [run].
    destruct (run_plain_frame k Hk (add_cleanup u w)) as (G1 & _ & G3 & G5 & _).
    simpl in G1, G3, G5. auto.
Qed.

Lemma run_wired (L : @Listener CS St Sig) (p : @Prog CS St Sig) (w : @World CS St Sig) :
  wired L p -> subs w = [] -> cleanups w = [] ->
  let w' := fst (run view ctrl emit w p) in
  subs w' = [(next_id w, L)] /\ cleanups w' = [next_id w] /\ ctors w' = ctors w.
Proof.
  destruct p as [v|c k|c k|l k|u k|f k]; simpl wired; try contradiction.
  intros [-> Hk] Hs Hc. cbv zeta. rewrite run_subscribe.
  set (w1 := if emit then emit_to view L (add_sub L w) else add_sub L w).
  assert (E : subs w1 = [(next_id w, L)] /\ cleanups w1 = [] /\ ctors w1 = ctors w)
    by (subst w1; destruct emit; simpl; rewrite Hs, Hc; auto).
  destruct (run_wired_tail _ _ (Hk (next_id w)) w1) as (G1 & G3 & G5).
  destruct E as (E1 & E3 & E5).
  rewrite G1, G3, G5, E1, E3, E5. auto.
Qed.

Lemma unsubscribe_all_frame (us : list nat) (w : @World CS St Sig) :
  let w' := fold_left (fun w u => unsubscribe u w) us w in
  ctl w' = ctl w /\ next_id w' = next_id w /\ sigs w' = sigs w /\
  cleanups w' = cleanups w /\ calls w' = calls w /\ notes w' = notes w /\
  ctors w' = ctors w.
Proof.
  revert w; induction us as [|u us IH]; intro w; cbv zeta.
  - simpl. repeat split.
  - change (fold_left (fun w u => unsubscribe u w) (u :: us) w)
      with (fold_left (fun w u => unsubscribe u w) us (unsubscribe u w)).
    destruct (IH (unsubscribe u w)) as (F1 & F2 & F3 & F4 & F5 & F6 & F7).
    rewrite F1, F2, F3, F4, F5, F6, F7. simpl. repeat split.
Qed.

Lemma run_cleanups_frame (w : @World CS St Sig) :
  let w' := run_cleanups w in
  ctl w' = ctl w /\ next_id w' = next_id w /\ sigs w' = sigs w /\
  cleanups w' = [] /\ calls w' = calls w /\ notes w' = notes w /\ ctors w' = ctors w.
Proof.
  cbv zeta. unfold run_cleanups.
  destruct (unsubscribe_all_frame (rev (cleanups w)) (clear_cleanups w))
    as (F1 & F2 & F3 & F4 & F5 & F6 & F7).
  simpl in *. repeat split; assumption.
Qed.

Lemma run_cleanups_calls (w : @World CS St Sig) : calls (run_cleanups w) = calls w.
Proof. apply run_cleanups_frame. Qed.

Lemma run_cleanups_ctl (w : @World CS St Sig) : ctl (run_cleanups w) = ctl w.
Proof. apply run_cleanups_frame. Qed.

Lemma run_cleanups_inv (L : @Listener CS St Sig) (w : @World CS St Sig) :
  Inv L w -> subs (run_cleanups w) = [] /\ cleanups (run_cleanups w) = [] /\
             ctors (run_cleanups w) = 1.
Proof.
  intros (H1 & H2 & H3 & H4).
  destruct (run_cleanups_frame w) as (_ & _ & _ & F4 & _ & _ & F7).
  rewrite F4, F7, H4. split; [|auto].
  unfold run_cleanups. rewrite <- H1.
  destruct (subs w) as [|[u l] [|p ps]] eqn:Hs.
  - simpl. exact Hs.
  - simpl. rewrite Hs. simpl. rewrite Nat.eqb_refl. reflexivity.
  - rewrite <- H1 in H2. simpl in H2. lia.
Qed.

Lemma plain_nowrite (p : @Prog CS St Sig) : plain p -> nowrite p.
Proof.
  induction p as [v|c k IH|c k IH|l k IH|u k IH|f k IH]; simpl; auto; contradiction.
Qed.

Lemma wired_tail_nowrite (u : nat) (p : @Prog CS St Sig) : wired_tail u p -> nowrite p.
Proof.
  induction p as [v|c k IH|c k IH|l k IH|u' k IH|f k IH]; simpl; auto; try contradiction.
  intros [_ Hk]. apply plain_nowrite; exact Hk.
Qed.

Lemma wired_nowrite (L : @Listener CS St Sig) (p : @Prog CS St Sig) : wired L p -> nowrite p.
Proof.
  destruct p as [v|c k|c k|l k|u k|f k]; simpl; try contradiction.
  intros [_ Hk] u. apply (wired_tail_nowrite u); exact (Hk u).
Qed.

Lemma create_inv (L : @Listener CS St Sig) (c0 : CS) (init : Sig) : Inv L (create c0 init).
Proof. unfold Inv; simpl. repeat split; auto. Qed.

Lemma plain_listens_only (L : @Listener CS St Sig) (p : @Prog CS St Sig) :
  plain p -> listens_only L p.
Proof.
  induction p as [v|c k IH|c k IH|l k IH|u k IH|f k IH]; simpl; auto; contradiction.
Qed.

Lemma wired_listens_only (L : @Listener CS St Sig) (p : @Prog CS St Sig) :
  wired L p -> listens_only L p.
Proof.
  assert (T : forall u q, wired_tail u q -> listens_only L q).
  { intros u q; induction q as [v|c k IH|c k IH|l k IH|u' k IH|f k IH]; simpl;
      auto; try contradiction.
    intros [_ Hk]. apply plain_listens_only; exact Hk. }
  destruct p as [v|c k|c k|l k|u k|f k]; simpl; try contradiction.
  intros [-> Hk]. split; [reflexivity|]. intro u. apply (T u); exact (Hk u).
Qed.

Section Preserve.
Variable L : @Listener CS St Sig.
Variable P : Sig -> Prop.
Hypothesis HL : forall c st s, P (L c st s).

Lemma deliver_preserves (c : CS) (ls : list (nat * Listener)) (s : Sig) :
  Forall (fun p => snd p = L) ls -> P s -> P (deliver view c ls s).
Proof.
  revert s; induction ls as [|[u l] ls IH]; intros s Hall Hs; simpl; [exact Hs|].
  apply Forall_cons_iff in Hall as [Hl Hall]. simpl in Hl; subst l.
  apply IH; [exact Hall | apply HL].
Qed.

Lemma notify_all_preserves (cs : list CS) (w : @World CS St Sig) :
  Forall (fun p => snd p = L) (subs w) -> P (sigs w) ->
  P (sigs (notify_all view w cs)).
Proof.
  revert w; induction cs as [|c cs IH]; intros w Hall Hs; simpl; [exact Hs|].
  apply IH; simpl; [exact Hall|]. apply deliver_preserves; assumption.
Qed.

Lemma run_preserves (p : @Prog CS St Sig) :
  listens_only L p -> forall w : @World CS St Sig,
  Forall (fun p => snd p = L) (subs w) -> P (sigs w) ->
  Forall (fun p => snd p = L) (subs (fst (run view ctrl emit w p))) /\
  P (sigs (fst (run view ctrl emit w p))).
Proof.
  induction p as [v|c k IH|c k IH|l k IH|u k IH|f k IH]; simpl listens_only;
    intros Hp w Hall Hs; try contradiction.
  - simpl. auto.
  - rewrite run_call. apply IH; [apply Hp| |].
    + destruct (call_ctl_frame c w) as (F1 & _). rewrite F1. exact Hall.
    + rewrite call_ctl_eq. apply notify_all_preserves; simpl; assumption.
  - rewrite run_await. apply IH; [apply Hp| |].
    + destruct (call_ctl_frame c w) as (F1 & _). rewrite F1. exact Hall.
    + rewrite call_ctl_eq. apply notify_all_preserves; simpl; assumption.
  - destruct Hp as [-> Hk]. rewrite run_subscribe. apply IH; [apply Hk| |].
    + destruct emit; simpl; apply Forall_app; split; auto.
    + destruct emit; simpl; [apply HL | exact Hs].
  - cbn [run]. apply IH; simpl; assumption.
Qed.
End Preserve.

(** The effects of the primitives: subscribe, then possibly one controller
    call, then [onCleanup(unsubscribe)]. *)
Lemma wired_sub_call_if (L : @Listener CS St Sig) (b : bool) (c : Call) :
  wired L (PSubscribe L (fun u => call_if b c (POnCleanup u (PRet JUndef)))).
Proof. simpl. split; [reflexivity|]. intro u. destruct b; simpl; auto. Qed.

Lemma run_sub_call_if_calls (L : @Listener CS St Sig) (b : bool) (c : Call) (w : @World CS St Sig) :
  calls (fst (run view ctrl emit w
                (PSubscribe L (fun u => call_if b c (POnCleanup u (PRet JUndef)))))) =
  calls w ++ (if b then [c] else []).
Proof.
  rewrite run_subscribe.
  set (w1 := if emit then emit_to view L (add_sub L w) else add_sub L w).
  assert (E : calls w1 = calls w) by (subst w1; destruct emit; reflexivity).
  destruct b; simpl call_if.
  - rewrite run_call. cbn [run fst calls add_cleanup].
    destruct (call_ctl_frame c w1) as (_ & _ & _ & F4 & _). rewrite F4, E. reflexivity.
  - cbn [run fst]. simpl. rewrite E, app_nil_r. reflexivity.
Qed.

Lemma run_sub_call_sigs (L : @Listener CS St Sig) (F : CS -> St -> Sig) (c : Call)
  (w : @World CS St Sig) (d : CS) :
  (forall c st s, L c st s = F c st) ->
  Forall (fun p => snd p = L) (subs w) ->
  fst (ctrl c (ctl w)) <> [] ->
  sigs (fst (run view ctrl emit w
               (PSubscribe L (fun u => call_if true c (POnCleanup u (PRet JUndef)))))) =
  F (last (fst (ctrl c (ctl w))) d) (view (last (fst (ctrl c (ctl w))) d)).
Proof.
  intros HL Hall Hne. rewrite run_subscribe.
  set (w1 := if emit then emit_to view L (add_sub L w) else add_sub L w).
  assert (E1 : ctl w1 = ctl w) by (subst w1; destruct emit; reflexivity).
  assert (E2 : subs w1 = subs w ++ [(next_id w, L)])
    by (subst w1; destruct emit; reflexivity).
  clearbody w1.
  simpl call_if. rewrite run_call. cbn [run fst sigs add_cleanup].
  rewrite call_ctl_eq. simpl fst. rewrite E1.
  apply (notify_all_last L F); simpl.
  - exact HL.
  - rewrite E2. apply Forall_app; split; auto.
  - rewrite E2. intro H. apply app_eq_nil in H as [_ H]. discriminate.
  - exact Hne.
Qed.

(** An action method [async () => { await controller.m(args); }] or
    [() => { controller.m(args); }]. *)
Lemma run_await_ret (c : Call) (v : JsVal) (w : @World CS St Sig) :
  run view ctrl emit w (PAwait c (fun _ => PRet v)) = (fst (call_ctl view ctrl c w), v).
Proof. rewrite run_await. reflexivity. Qed.

Lemma run_call_ret (c : Call) (v : JsVal) (w : @World CS St Sig) :
  run view ctrl emit w (PCall c (fun _ => PRet v)) = (fst (call_ctl view ctrl c w), v).
Proof. rewrite run_call. reflexivity. Qed.

Lemma run_call_pass (c : Call) (w : @World CS St Sig) :
  run view ctrl emit w (PCall c (fun r => PRet r)) = call_ctl view ctrl c w.
Proof. rewrite run_call. destruct (call_ctl view ctrl c w); reflexivity. Qed.

Variable Action : Type.
Variable act : Action -> @Prog CS St Sig.
Variable effect : @Prog CS St Sig.

Abbreviation step := (step view ctrl emit Action act effect).
Abbreviation exec := (exec view ctrl emit Action act effect).

Lemma step_inv (L : @Listener CS St Sig) (w : @World CS St Sig) (e : Event Action) :
  wired L effect -> (forall a, plain (act a)) -> Inv L w -> Inv L (step w e).
Proof.
  intros Hw Ha HI. destruct e as [| |a|cs]; unfold Runtime.step.
  - destruct (run_cleanups_inv L w HI) as (C1 & C2 & C3).
    destruct (run_wired L effect (run_cleanups w) Hw C1 C2) as (G1 & G2 & G3).
    unfold Inv. rewrite G1, G2, G3, C3. simpl. repeat split; auto.
  - destruct (run_cleanups_inv L w HI) as (C1 & C2 & C3).
    unfold Inv. rewrite C1, C2, C3. simpl. repeat split; auto.
  - destruct (run_plain_frame (act a) (Ha a) w) as (G1 & _ & G3 & G4 & _).
    unfold Inv in *. rewrite G1, G3, G4. exact HI.
  - destruct (notify_all_frame cs w) as (F1 & _ & F3 & _ & F5 & _).
    unfold Inv in *. rewrite F1, F3, F5. exact HI.
Qed.

Lemma exec_inv (L : @Listener CS St Sig) (w : @World CS St Sig) (es : list (Event Action)) :
  wired L effect -> (forall a, plain (act a)) -> Inv L w -> Inv L (exec w es).
Proof.
  intros Hw Ha; revert w; induction es as [|e es IH]; intros w HI; simpl; [exact HI|].
  apply IH. apply step_inv; assumption.
Qed.

Lemma step_quiet (w : @World CS St Sig) (e : Event Action) :
  nowrite effect -> (forall a, nowrite (act a)) ->
  notes w <= notes (step w e) /\ (notes (step w e) = notes w -> sigs (step w e) = sigs w).
Proof.
  intros Hw Ha. destruct e as [| |a|cs]; unfold Runtime.step.
  - destruct (run_cleanups_frame w) as (_ & _ & C3 & _ & _ & C6 & _).
    destruct (run_nowrite effect Hw (run_cleanups w)) as (G1 & G2).
    split; [lia|]. intro Hn. rewrite G2 by lia. exact C3.
  - destruct (run_cleanups_frame w) as (_ & _ & C3 & _ & _ & C6 & _).
    rewrite C3, C6. auto.
  - exact (run_nowrite (act a) (Ha a) w).
  - destruct (notify_all_frame cs w) as (_ & _ & _ & _ & _ & F6).
    split; [lia|]. apply notify_all_quiet.
Qed.

Lemma exec_quiet (w : @World CS St Sig) (es : list (Event Action)) :
  nowrite effect -> (forall a, nowrite (act a)) ->
  notes w <= notes (exec w es) /\ (notes (exec w es) = notes w -> sigs (exec w es) = sigs w).
Proof.
  intros Hw Ha; revert w; induction es as [|e es IH]; intro w; simpl; [auto|].
  destruct (step_quiet w e Hw Ha) as (S1 & S2).
  destruct (IH (step w e)) as (I1 & I2).
  split; [lia|]. intro Hn. rewrite I2 by lia. apply S2. lia.
Qed.

Lemma step_unsubscribed (w : @World CS St Sig) (e : Event Action) :
  (forall a, plain (act a)) -> subs w = [] -> cleanups w = [] -> e <> ERun ->
  subs (step w e) = [] /\ cleanups (step w e) = [] /\ sigs (step w e) = sigs w.
Proof.
  intros Ha Hs Hc Hne. destruct e as [| |a|cs]; unfold Runtime.step.
  - contradiction.
  - unfold run_cleanups. rewrite Hc. simpl. auto.
  - destruct (run_plain_frame (act a) (Ha a) w) as (G1 & _ & G3 & _ & G5).
    rewrite G1, G3. auto.
  - destruct (notify_all_frame cs w) as (F1 & _ & F3 & _ & _ & _).
    rewrite F1, F3, notify_all_unsubscribed by exact Hs. auto.
Qed.

Lemma exec_unsubscribed (w : @World CS St Sig) (es : list (Event Action)) :
  (forall a, plain (act a)) -> subs w = [] -> cleanups w = [] ->
  Forall (fun e => e <> ERun) es ->
  subs (exec w es) = [] /\ sigs (exec w es) = sigs w.
Proof.
  intros Ha; revert w; induction es as [|e es IH]; intros w Hs Hc Hall; simpl; [auto|].
  apply Forall_cons_iff in Hall as [He Hall].
  destruct (step_unsubscribed w e Ha Hs Hc He) as (U1 & U2 & U3).
  destruct (IH (step w e) U1 U2 Hall) as (I1 & I2). rewrite I2. auto.
Qed.
Lemma exec_snoc (w : @World CS St Sig) (es : list (Event Action)) (e : Event Action) :
  exec w (es ++ [e]) = step (exec w es) e.
Proof. unfold Runtime.exec. rewrite fold_left_app. reflexivity. Qed.

Lemma exec_app (w : @World CS St Sig) (es es' : list (Event Action)) :
  exec w (es ++ es') = exec (exec w es) es'.
Proof. unfold Runtime.exec. apply fold_left_app. Qed.

Lemma run_cleanups_subs_Forall (Q : nat * @Listener CS St Sig -> Prop)
  (w : @World CS St Sig) :
  Forall Q (subs w) -> Forall Q (subs (run_cleanups w)).
Proof.
  unfold run_cleanups. generalize (rev (cleanups w)). intro us.
  assert (G : forall v, Forall Q (subs v) ->
              Forall Q (subs (fold_left (fun w u => unsubscribe u w) us v))).
  { induction us as [|u us IH]; intros v Hv; simpl; [exact Hv|].
    apply IH. simpl. apply Forall_forall. intros x Hx.
    apply filter_In in Hx as [Hx _]. rewrite Forall_forall in Hv. auto. }
  intro H. apply G. exact H.
Qed.

(** Reachable worlds: after the body of the primitive and any events. *)
Lemma reachable_pairs (L : @Listener CS St Sig) (c0 : CS) (init : Sig) (es : list (Event Action)) :
  wired L effect -> (forall a, plain (act a)) ->
  Inv L (exec (create c0 init) es) /\
  exists u, subs (exec (create c0 init) (es ++ [ERun])) = [(u, L)] /\
            cleanups (exec (create c0 init) (es ++ [ERun])) = [u].
Proof.
  intros Hw Ha.
  assert (HI : Inv L (exec (create c0 init) es))
    by (apply exec_inv; [exact Hw | exact Ha | apply create_inv]).
  split; [exact HI|].
  rewrite exec_snoc. unfold Runtime.step.
  destruct (run_cleanups_inv L _ HI) as (C1 & C2 & _).
  destruct (run_wired L effect _ Hw C1 C2) as (G1 & G2 & _).
  eexists. split; [exact G1 | exact G2].
Qed.

Lemma reachable_dispose (L : @Listener CS St Sig) (c0 : CS) (init : Sig)
  (es es' : list (Event Action)) :
  wired L effect -> (forall a, plain (act a)) ->
  let w := exec (create c0 init) (es ++ [EDispose]) in
  subs w = [] /\ cleanups w = [] /\
  (Forall (fun e => e <> ERun) es' ->
   subs (exec (create c0 init) (es ++ EDispose :: es')) = [] /\
   sigs (exec (create c0 init) (es ++ EDispose :: es')) = sigs w).
Proof.
  intros Hw Ha. cbv zeta.
  assert (HI : Inv L (exec (create c0 init) es))
    by (apply exec_inv; [exact Hw | exact Ha | apply create_inv]).
  rewrite exec_snoc. unfold Runtime.step at 1 2.
  destruct (run_cleanups_inv L _ HI) as (C1 & C2 & _).
  split; [exact C1|]. split; [exact C2|]. intro Hall.
  replace (es ++ EDispose :: es') with ((es ++ [EDispose]) ++ es')
    by (rewrite <- app_assoc; reflexivity).
  rewrite exec_app, exec_snoc. unfold Runtime.step at 1 2.
  apply exec_unsubscribed; assumption.
Qed.

Lemma reachable_quiet (c0 : CS) (init : Sig) (es : list (Event Action)) :
  nowrite effect -> (forall a, nowrite (act a)) ->
  notes (exec (create c0 init) es) = 0 -> sigs (exec (create c0 init) es) = init.
Proof.
  intros Hw Ha Hn. destruct (exec_quiet (create c0 init) es Hw Ha) as (_ & Q).
  apply Q. exact Hn.
Qed.

Lemma reachable_preserves (L : @Listener CS St Sig) (P : Sig -> Prop) (c0 : CS) (init : Sig)
  (es : list (Event Action)) :
  (forall c st s, P (L c st s)) ->
  listens_only L effect -> (forall a, listens_only L (act a)) -> P init ->
  P (sigs (exec (create c0 init) es)).
Proof.
  intros HL He Ha Hi.
  assert (G : forall w, Forall (fun p => snd p = L) (subs w) -> P (sigs w) ->
              Forall (fun p => snd p = L) (subs (exec w es)) /\ P (sigs (exec w es))).
  { induction es as [|e es IH]; intros w Hall Hs; simpl; [auto|].
    apply IH.
    - destruct e as [| |a|cs]; unfold Runtime.step.
      + apply (run_preserves L P HL effect He).
        * apply run_cleanups_subs_Forall; exact Hall.
        * destruct (run_cleanups_frame w) as (_ & _ & C3 & _). rewrite C3. exact Hs.
      + apply run_cleanups_subs_Forall; exact Hall.
      + apply (run_preserves L P HL (act a) (Ha a)); assumption.
      + destruct (notify_all_frame cs w) as (F1 & _). rewrite F1. exact Hall.
    - destruct e as [| |a|cs]; unfold Runtime.step.
      + apply (run_preserves L P HL effect He).
        * apply run_cleanups_subs_Forall; exact Hall.
        * destruct (run_cleanups_frame w) as (_ & _ & C3 & _). rewrite C3. exact Hs.
      + destruct (run_cleanups_frame w) as (_ & _ & C3 & _). rewrite C3. exact Hs.
      + apply (run_preserves L P HL (act a) (Ha a)); assumption.
      + apply (notify_all_preserves L P HL); assumption. }
  apply G; simpl; [constructor | exact Hi].
Qed.

(** Notifications pushed by the controller while subscribed. *)
Lemma reachable_push (L : @Listener CS St Sig) (F : CS -> St -> Sig) (c0 : CS) (init : Sig)
  (es : list (Event Action)) (cs : list CS) (d : CS) :
  wired L effect -> (forall a, plain (act a)) ->
  (forall c st s, L c st s = F c st) ->
  subs (exec (create c0 init) es) <> [] -> cs <> [] ->
  sigs (exec (create c0 init) (es ++ [EPush cs])) = F (last cs d) (view (last cs d)).
Proof.
  intros Hw Ha HL Hs Hcs.
  destruct (exec_inv L (create c0 init) es Hw Ha (create_inv L c0 init))
    as (_ & _ & H3 & _).
  rewrite exec_snoc. unfold Runtime.step.
  apply (notify_all_last L F); assumption.
Qed.

(** A (re-)run of an effect that subscribes [L] and then issues call [c]:
    the states [c] notifies reach [L]. *)
Lemma reachable_mount_call (L : @Listener CS St Sig) (F : CS -> St -> Sig) (c : Call)
  (c0 : CS) (init : Sig) (es : list (Event Action)) (d : CS) :
  wired L effect -> (forall a, plain (act a)) ->
  effect = PSubscribe L (fun u => call_if true c (POnCleanup u (PRet JUndef))) ->
  (forall c st s, L c st s = F c st) ->
  fst (ctrl c (ctl (exec (create c0 init) es))) <> [] ->
  let cs := fst (ctrl c (ctl (exec (create c0 init) es))) in
  sigs (exec (create c0 init) (es ++ [ERun])) = F (last cs d) (view (last cs d)).
Proof.
  intros Hw Ha He HL Hne cs.
  set (w := exec (create c0 init) es) in *.
  assert (HI : Inv L w)
    by (apply exec_inv; [exact Hw | exact Ha | apply create_inv]).
  destruct (run_cleanups_inv L w HI) as (S1 & _ & _).
  rewrite exec_snoc. unfold Runtime.step. fold w. rewrite He.
  subst cs. rewrite <- (run_cleanups_ctl w) in Hne |- *.
  apply run_sub_call_sigs; [exact HL | rewrite S1; constructor | exact Hne].
Qed.
End Facts.
End RuntimeFacts.

(** ** Each primitive's effect, actions and callback *)
Module Wiring.
Import Runtime Shapes RuntimeFacts.

Ltac acts_plain := let a := fresh "a" in intro a; destruct a; simpl; intros; exact I.
Ltac effect_wired := simpl; split; [reflexivity | intro; simpl; split; [reflexivity | exact I]].

Section Wiring.
Context {CS : Type}.

Lemma subscribe_wired : wired (@Subscribe.listener CS) Subscribe.effect.
Proof. effect_wired. Qed.
Lemma subscribe_plain : forall a, plain (@Subscribe.act CS a).
Proof. acts_plain. Qed.
Lemma subscribe_listener (c : CS) st s :
  Subscribe.listener c st s = SpecAccessors.subscribe st.
Proof. reflexivity. Qed.

Lemma form_wired : wired (@Form.listener CS) Form.effect.
Proof. effect_wired. Qed.
Lemma form_plain : forall a, plain (@Form.act CS a).
Proof. acts_plain. Qed.
Lemma form_listener (c : CS) st s : Form.listener c st s = SpecAccessors.form st.
Proof. reflexivity. Qed.

Lemma reactions_wired o : wired (@Reactions.listener CS) (Reactions.effect o).
Proof. apply wired_sub_call_if. Qed.
Lemma reactions_plain : forall a, plain (@Reactions.act CS a).
Proof. acts_plain. Qed.
Lemma reactions_listener (c : CS) st s :
  Reactions.listener c st s = SpecAccessors.reactions st.
Proof. reflexivity. Qed.

Lemma comments_wired o : wired (@Comments.listener CS) (Comments.effect o).
Proof. apply wired_sub_call_if. Qed.
Lemma comments_plain : forall a, plain (@Comments.act CS a).
Proof. acts_plain. Qed.
Lemma comments_listener (c : CS) st s :
  Comments.listener c st s = SpecAccessors.comments st.
Proof. reflexivity. Qed.

Lemma waitlist_wired : wired (@Waitlist.listener CS) Waitlist.effect.
Proof. effect_wired. Qed.
Lemma waitlist_plain : forall a, plain (@Waitlist.act CS a).
Proof. acts_plain. Qed.
Lemma waitlist_listener (c : CS) st s :
  Waitlist.listener c st s = SpecAccessors.waitlist st.
Proof. reflexivity. Qed.

Lemma views_wired o : wired (@Views.listener CS) (Views.effect o).
Proof. apply wired_sub_call_if. Qed.
Lemma views_plain : forall a, plain (@Views.act CS a).
Proof. acts_plain. Qed.
Lemma views_listener (c : CS) st s : Views.listener c st s = SpecAccessors.views st.
Proof. reflexivity. Qed.

Lemma feedback_wired : wired (@Feedback.listener CS) Feedback.effect.
Proof. effect_wired. Qed.
Lemma feedback_plain : forall a, plain (@Feedback.act CS a).
Proof. acts_plain. Qed.
Lemma feedback_listener (c : CS) st s :
  Feedback.listener c st s = SpecAccessors.feedback st.
Proof. reflexivity. Qed.

Lemma poll_wired o : wired (@Poll.listener CS) (Poll.effect o).
Proof. apply wired_sub_call_if. Qed.
Lemma poll_plain : forall a, plain (@Poll.act CS a).
Proof. acts_plain. Qed.
Lemma poll_listener (c : CS) st s : Poll.listener c st s = SpecAccessors.poll st.
Proof. reflexivity. Qed.

Lemma announcements_wired gv o :
  wired (@Announcements.listener CS gv) (Announcements.effect gv o).
Proof. apply wired_sub_call_if. Qed.
Lemma announcements_plain : forall a, plain (@Announcements.act CS a).
Proof. acts_plain. Qed.
Lemma announcements_listener gv (c : CS) st s :
  Announcements.listener gv c st s = SpecAccessors.announcements_visible gv c st.
Proof. reflexivity. Qed.
End Wiring.
End Wiring.

(** ** Facts about whole event sequences used by the further properties *)
Module MoreFacts.
Import Runtime Shapes RuntimeFacts.

Section More.
Context {CS St Sig : Type}.
Variable view : CS -> St.
Variable ctrl : Call -> CS -> list CS * JsVal.
Variable emit : bool.

Lemma call_ctl_calls (c : Call) (w : @World CS St Sig) :
  calls (fst (call_ctl view ctrl c w)) = calls w ++ [c].
Proof. destruct (call_ctl_frame view ctrl c w) as (_ & _ & _ & H & _). exact H. Qed.

Lemma effect_calls (L : @Listener CS St Sig) (b : bool) (c : Call) (w : @World CS St Sig) :
  calls (fst (run view ctrl emit w
                (PSubscribe L (fun u => call_if b c (POnCleanup u (PRet JUndef)))))) =
  calls w ++ CallLog.mount b c.
Proof. rewrite run_sub_call_if_calls. reflexivity. Qed.

(** [run_awaits] executes a body exactly as [run] does. *)
Lemma run_awaits_run (p : @Prog CS St Sig) : forall w : @World CS St Sig,
  (fst (fst (Async.run_awaits view ctrl emit w p)), snd (Async.run_awaits view ctrl emit w p)) =
  run view ctrl emit w p.
Proof.
  induction p as [v|c k IH|c k IH|l k IH|u k IH|f k IH]; intro w; cbn [Async.run_awaits run].
  - reflexivity.
  - destruct (call_ctl view ctrl c w) as [w' r]. apply IH.
  - destruct (call_ctl view ctrl c w) as [w' r]. rewrite <- (IH r w').
    destruct (Async.run_awaits view ctrl emit w' (k r)) as [[w'' aw] v]. reflexivity.
  - apply IH.
  - apply IH.
  - apply IH.
Qed.

Lemma call_method_await (c : Call) (v : JsVal) (w : @World CS St Sig) :
  Async.call_method view ctrl emit true w (PAwait c (fun _ => PRet v)) =
  (fst (call_ctl view ctrl c w), Async.RPromise [c] v).
Proof. unfold Async.call_method. cbn [Async.run_awaits]. destruct (call_ctl view ctrl c w); reflexivity. Qed.

Lemma call_method_call (c : Call) (v : JsVal) (w : @World CS St Sig) :
  Async.call_method view ctrl emit false w (PCall c (fun _ => PRet v)) =
  (fst (call_ctl view ctrl c w), Async.RValue v).
Proof. unfold Async.call_method. cbn [Async.run_awaits]. destruct (call_ctl view ctrl c w); reflexivity. Qed.

Lemma call_method_pass (c : Call) (w : @World CS St Sig) :
  Async.call_method view ctrl emit false w (PCall c (fun r => PRet r)) =
  (fst (call_ctl view ctrl c w), Async.RValue (snd (call_ctl view ctrl c w))).
Proof. unfold Async.call_method. cbn [Async.run_awaits]. destruct (call_ctl view ctrl c w); reflexivity. Qed.

Variable Action : Type.
Variable act : Action -> @Prog CS St Sig.
Variable effect : @Prog CS St Sig.

Lemma exec_calls (mount : list Call) (call_of : Action -> Call) :
  (forall w, calls (fst (run view ctrl emit w effect)) = calls w ++ mount) ->
  (forall a w, calls (fst (run view ctrl emit w (act a))) = calls w ++ [call_of a]) ->
  forall (w : @World CS St Sig) es,
  calls (exec view ctrl emit Action act effect w es) =
  calls w ++ flat_map (CallLog.event_calls mount call_of) es.
Proof.
  intros He Ha w es. revert w.
  induction es as [|e es IH]; intro w; cbn [Runtime.exec fold_left flat_map].
  - rewrite app_nil_r. reflexivity.
  - change (fold_left (Runtime.step view ctrl emit Action act effect) es
              (Runtime.step view ctrl emit Action act effect w e))
      with (Runtime.exec view ctrl emit Action act effect
              (Runtime.step view ctrl emit Action act effect w e) es).
    rewrite IH, app_assoc. f_equal.
    destruct e as [| |a|cs]; unfold Runtime.step; cbn [CallLog.event_calls].
    + rewrite He, run_cleanups_calls. reflexivity.
    + rewrite run_cleanups_calls, app_nil_r. reflexivity.
    + apply Ha.
    + destruct (notify_all_frame view cs w) as (_ & _ & _ & H & _).
      rewrite H, app_nil_r. reflexivity.
Qed.

(** An effect run whose call after subscribing (if any) notifies no state. *)
Lemma reachable_mount_quiet (L : @Listener CS St Sig) (F : CS -> St -> Sig) (b : bool)
  (c : Call) (c0 : CS) (init : Sig) (es : list (Event Action)) :
  wired L effect -> (forall a, plain (act a)) ->
  effect = PSubscribe L (fun u => call_if b c (POnCleanup u (PRet JUndef))) ->
  (forall c st s, L c st s = F c st) ->
  let w := exec view ctrl emit Action act effect (create c0 init) es in
  (b = true -> fst (ctrl c (ctl w)) = []) ->
  sigs (exec view ctrl emit Action act effect (create c0 init) (es ++ [ERun])) =
  if emit then F (ctl w) (view (ctl w)) else sigs w.
Proof.
  intros Hw Ha He HL w Hq.
  assert (HI : Inv L w)
    by (apply exec_inv; [exact Hw | exact Ha | apply create_inv]).
  destruct (run_cleanups_frame w) as (F1 & _ & F3 & _).
  rewrite exec_snoc. unfold Runtime.step. fold w. rewrite He, run_subscribe.
  set (w0 := run_cleanups w) in *.
  set (w1 := if emit then emit_to view L (add_sub L w0) else add_sub L w0).
  assert (E1 : ctl w1 = ctl w) by (subst w1; destruct emit; exact F1).
  assert (E2 : sigs w1 = if emit then F (ctl w) (view (ctl w)) else sigs w).
  { subst w1. destruct emit; cbn [emit_to add_sub sigs ctl].
    - rewrite HL, F1. reflexivity.
    - exact F3. }
  rewrite <- E2. clearbody w1.
  destruct b; cbn [call_if].
  - rewrite run_call. cbn [run fst add_cleanup sigs].
    unfold call_ctl. rewrite E1.
    specialize (Hq eq_refl).
    destruct (ctrl c (ctl w)) as [sts r]. cbn [fst] in Hq. subst sts.
    reflexivity.
  - reflexivity.
Qed.

(** An action method whose one controller call [c] notifies states while
    the primitive is subscribed: the callback sees the last of them. *)
Lemma reachable_act (L : @Listener CS St Sig) (F : CS -> St -> Sig) (c0 : CS) (init : Sig)
  (es : list (Event Action)) (a : Action) (c : Call) (d : CS) :
  wired L effect -> (forall a, plain (act a)) ->
  (forall c st s, L c st s = F c st) ->
  (forall w, fst (run view ctrl emit w (act a)) = fst (call_ctl view ctrl c w)) ->
  let w := exec view ctrl emit Action act effect (create c0 init) es in
  subs w <> [] -> fst (ctrl c (ctl w)) <> [] ->
  sigs (exec view ctrl emit Action act effect (create c0 init) (es ++ [EAct a])) =
  F (last (fst (ctrl c (ctl w))) d) (view (last (fst (ctrl c (ctl w))) d)).
Proof.
  intros Hw Ha HL Hr w Hs Hne.
  assert (HI : Inv L w)
    by (apply exec_inv; [exact Hw | exact Ha | apply create_inv]).
  destruct HI as (_ & _ & H3 & _).
  rewrite exec_snoc. unfold Runtime.step. fold w. rewrite Hr.
  unfold call_ctl. destruct (ctrl c (ctl w)) as [sts r]. cbn [fst] in Hne |- *.
  apply (notify_all_last view L F); [exact HL | exact H3 | exact Hs | exact Hne].
Qed.
End More.
End MoreFacts.

(** * The claims *)
Module Claims.
Import Runtime Shapes RuntimeFacts Wiring.

(** C1 (as stated, refuted): for [createAnnouncements], after the controller
    notifies a state whose announcement 1 has been dismissed, the
    [announcements] accessor differs from the [announcements] field of the
    notified state. *)
Lemma C1_counterexample :
  let c1 : Examples.DismissState := (Examples.announcements_st, [1%Z]) in
  Announcements.announcements
    (sigs (Announcements.trace Examples.dismiss_view Examples.silent false
             Examples.visible (Announcements.mkOptions None) c1
             [ERun; EPush [c1]]))
  <> Core.AnnouncementsState.announcements (Examples.dismiss_view c1).
Proof. vm_compute. discriminate. Qed.

(** C1 (amended): while the primitive is subscribed, after the controller
    notifies the states [cs], every signal of every primitive holds the
    corresponding field of the last notified state, except the
    [announcements] signal of [createAnnouncements], which holds
    [controller.getVisibleAnnouncements()] evaluated at that notification. *)
Theorem C1_accessors_follow_last_state :
  (forall (CS : Type) (view : CS -> Subscribe.St) ctrl emit c0 es cs d,
     subs (Subscribe.trace view ctrl emit c0 es) <> [] -> cs <> [] ->
     sigs (Subscribe.trace view ctrl emit c0 (es ++ [EPush cs])) =
     SpecAccessors.subscribe (view (last cs d))) /\
  (forall (CS : Type) (view : CS -> Form.St) ctrl emit c0 es cs d,
     subs (Form.trace view ctrl emit c0 es) <> [] -> cs <> [] ->
     sigs (Form.trace view ctrl emit c0 (es ++ [EPush cs])) =
     SpecAccessors.form (view (last cs d))) /\
  (forall (CS : Type) (view : CS -> Reactions.St) ctrl emit o c0 es cs d,
     subs (Reactions.trace view ctrl emit o c0 es) <> [] -> cs <> [] ->
     sigs (Reactions.trace view ctrl emit o c0 (es ++ [EPush cs])) =
     SpecAccessors.reactions (view (last cs d))) /\
  (forall (CS : Type) (view : CS -> Comments.St) ctrl emit o c0 es cs d,
     subs (Comments.trace view ctrl emit o c0 es) <> [] -> cs <> [] ->
     sigs (Comments.trace view ctrl emit o c0 (es ++ [EPush cs])) =
     SpecAccessors.comments (view (last cs d))) /\
  (forall (CS : Type) (view : CS -> Waitlist.St) ctrl emit c0 es cs d,
     subs (Waitlist.trace view ctrl emit c0 es) <> [] -> cs <> [] ->
     sigs (Waitlist.trace view ctrl emit c0 (es ++ [EPush cs])) =
     SpecAccessors.waitlist (view (last cs d))) /\
  (forall (CS : Type) (view : CS -> Views.St) ctrl emit o c0 es cs d,
     subs (Views.trace view ctrl emit o c0 es) <> [] -> cs <> [] ->
     sigs (Views.trace view ctrl emit o c0 (es ++ [EPush cs])) =
     SpecAccessors.views (view (last cs d))) /\
  (forall (CS : Type) (view : CS -> Feedback.St) ctrl emit c0 es cs d,
     subs (Feedback.trace view ctrl emit c0 es) <> [] -> cs <> [] ->
     sigs (Feedback.trace view ctrl emit c0 (es ++ [EPush cs])) =
     SpecAccessors.feedback (view (last cs d))) /\
  (forall (CS : Type) (view : CS -> Poll.St) ctrl emit o c0 es cs d,
     subs (Poll.trace view ctrl emit o c0 es) <> [] -> cs <> [] ->
     sigs (Poll.trace view ctrl emit o c0 (es ++ [EPush cs])) =
     SpecAccessors.poll (view (last cs d))) /\
  (forall (CS : Type) (view : CS -> Announcements.St) ctrl emit gv o c0 es cs d,
     subs (Announcements.trace view ctrl emit gv o c0 es) <> [] -> cs <> [] ->
     sigs (Announcements.trace view ctrl emit gv o c0 (es ++ [EPush cs])) =
     SpecAccessors.announcements_visible gv (last cs d) (view (last cs d))).
Proof.
  repeat split; intros;
    unfold Subscribe.trace, Form.trace, Reactions.trace, Comments.trace, Waitlist.trace,
      Views.trace, Feedback.trace, Poll.trace, Announcements.trace in *.
  - eapply reachable_push with (F := fun _ st => SpecAccessors.subscribe st);
      [apply subscribe_wired | apply subscribe_plain | reflexivity | eassumption..].
  - eapply reachable_push with (F := fun _ st => SpecAccessors.form st);
      [apply form_wired | apply form_plain | reflexivity | eassumption..].
  - eapply reachable_push with (F := fun _ st => SpecAccessors.reactions st);
      [apply reactions_wired | apply reactions_plain | reflexivity | eassumption..].
  - eapply reachable_push with (F := fun _ st => SpecAccessors.comments st);
      [apply comments_wired | apply comments_plain | reflexivity | eassumption..].
  - eapply reachable_push with (F := fun _ st => SpecAccessors.waitlist st);
      [apply waitlist_wired | apply waitlist_plain | reflexivity | eassumption..].
  - eapply reachable_push with (F := fun _ st => SpecAccessors.views st);
      [apply views_wired | apply views_plain | reflexivity | eassumption..].
  - eapply reachable_push with (F := fun _ st => SpecAccessors.feedback st);
      [apply feedback_wired | apply feedback_plain | reflexivity | eassumption..].
  - eapply reachable_push with (F := fun _ st => SpecAccessors.poll st);
      [apply poll_wired | apply poll_plain | reflexivity | eassumption..].
  - eapply reachable_push with (F := SpecAccessors.announcements_visible gv);
      [apply announcements_wired | apply announcements_plain | reflexivity | eassumption..].
Qed.

(** Witness of C1: each primitive subscribed by its effect, then notified once. *)
Lemma C1_witness :
  (subs (Subscribe.trace (fun s : Subscribe.St => s) Examples.silent false Examples.subscribe_st [ERun]) <> [] /\
   sigs (Subscribe.trace (fun s : Subscribe.St => s) Examples.silent false Examples.subscribe_st [ERun; EPush [Examples.subscribe_st]]) =
   SpecAccessors.subscribe ((fun s : Subscribe.St => s) Examples.subscribe_st)) /\
  (subs (Form.trace (fun s : Form.St => s) Examples.silent false Examples.form_st [ERun]) <> [] /\
   sigs (Form.trace (fun s : Form.St => s) Examples.silent false Examples.form_st [ERun; EPush [Examples.form_st]]) =
   SpecAccessors.form ((fun s : Form.St => s) Examples.form_st)) /\
  (subs (Reactions.trace (fun s : Reactions.St => s) Examples.silent false (Reactions.mkOptions "my-post" None) Examples.reactions_st [ERun]) <> [] /\
   sigs (Reactions.trace (fun s : Reactions.St => s) Examples.silent false (Reactions.mkOptions "my-post" None) Examples.reactions_st [ERun; EPush [Examples.reactions_st]]) =
   SpecAccessors.reactions ((fun s : Reactions.St => s) Examples.reactions_st)) /\
  (subs (Comments.trace (fun s : Comments.St => s) Examples.silent false (Comments.mkOptions "my-post" None) Examples.comments_st [ERun]) <> [] /\
   sigs (Comments.trace (fun s : Comments.St => s) Examples.silent false (Comments.mkOptions "my-post" None) Examples.comments_st [ERun; EPush [Examples.comments_st]]) =
   SpecAccessors.comments ((fun s : Comments.St => s) Examples.comments_st)) /\
  (subs (Waitlist.trace (fun s : Waitlist.St => s) Examples.silent false Examples.waitlist_st [ERun]) <> [] /\
   sigs (Waitlist.trace (fun s : Waitlist.St => s) Examples.silent false Examples.waitlist_st [ERun; EPush [Examples.waitlist_st]]) =
   SpecAccessors.waitlist ((fun s : Waitlist.St => s) Examples.waitlist_st)) /\
  (subs (Views.trace (fun s : Views.St => s) Examples.silent false (Views.mkOptions "/blog/my-post" None) Examples.views_st [ERun]) <> [] /\
   sigs (Views.trace (fun s : Views.St => s) Examples.silent false (Views.mkOptions "/blog/my-post" None) Examples.views_st [ERun; EPush [Examples.views_st]]) =
   SpecAccessors.views ((fun s : Views.St => s) Examples.views_st)) /\
  (subs (Feedback.trace (fun s : Feedback.St => s) Examples.silent false Examples.feedback_st [ERun]) <> [] /\
   sigs (Feedback.trace (fun s : Feedback.St => s) Examples.silent false Examples.feedback_st [ERun; EPush [Examples.feedback_st]]) =
   SpecAccessors.feedback ((fun s : Feedback.St => s) Examples.feedback_st)) /\
  (subs (Poll.trace (fun s : Poll.St => s) Examples.silent false (Poll.mkOptions "favorite-framework" None) Examples.poll_st [ERun]) <> [] /\
   sigs (Poll.trace (fun s : Poll.St => s) Examples.silent false (Poll.mkOptions "favorite-framework" None) Examples.poll_st [ERun; EPush [Examples.poll_st]]) =
   SpecAccessors.poll ((fun s : Poll.St => s) Examples.poll_st)) /\
  (subs (Announcements.trace Examples.dismiss_view Examples.silent false Examples.visible (Announcements.mkOptions None) Examples.ann_c [ERun]) <> [] /\
   sigs (Announcements.trace Examples.dismiss_view Examples.silent false Examples.visible (Announcements.mkOptions None) Examples.ann_c [ERun; EPush [Examples.ann_c]]) =
   SpecAccessors.announcements_visible Examples.visible Examples.ann_c (Examples.dismiss_view Examples.ann_c)).
Proof.
  destruct C1_accessors_follow_last_state as (T1 & T2 & T3 & T4 & T5 & T6 & T7 & T8 & T9).
  repeat match goal with |- _ /\ (_ /\ _) => split end.
  - split; [vm_compute; discriminate|].
    apply (T1 Subscribe.St (fun s : Subscribe.St => s) Examples.silent false Examples.subscribe_st [ERun] [Examples.subscribe_st] Examples.subscribe_st); [vm_compute | ]; discriminate.
  - split; [vm_compute; discriminate|].
    apply (T2 Form.St (fun s : Form.St => s) Examples.silent false Examples.form_st [ERun] [Examples.form_st] Examples.form_st); [vm_compute | ]; discriminate.
  - split; [vm_compute; discriminate|].
    apply (T3 Reactions.St (fun s : Reactions.St => s) Examples.silent false (Reactions.mkOptions "my-post" None) Examples.reactions_st [ERun] [Examples.reactions_st] Examples.reactions_st); [vm_compute | ]; discriminate.
  - split; [vm_compute; discriminate|].
    apply (T4 Comments.St (fun s : Comments.St => s) Examples.silent false (Comments.mkOptions "my-post" None) Examples.comments_st [ERun] [Examples.comments_st] Examples.comments_st); [vm_compute | ]; discriminate.
  - split; [vm_compute; discriminate|].
    apply (T5 Waitlist.St (fun s : Waitlist.St => s) Examples.silent false Examples.waitlist_st [ERun] [Examples.waitlist_st] Examples.waitlist_st); [vm_compute | ]; discriminate.
  - split; [vm_compute; discriminate|].
    apply (T6 Views.St (fun s : Views.St => s) Examples.silent false (Views.mkOptions "/blog/my-post" None) Examples.views_st [ERun] [Examples.views_st] Examples.views_st); [vm_compute | ]; discriminate.
  - split; [vm_compute; discriminate|].
    apply (T7 Feedback.St (fun s : Feedback.St => s) Examples.silent false Examples.feedback_st [ERun] [Examples.feedback_st] Examples.feedback_st); [vm_compute | ]; discriminate.
  - split; [vm_compute; discriminate|].
    apply (T8 Poll.St (fun s : Poll.St => s) Examples.silent false (Poll.mkOptions "favorite-framework" None) Examples.poll_st [ERun] [Examples.poll_st] Examples.poll_st); [vm_compute | ]; discriminate.
  - split; [vm_compute; discriminate|].
    apply (T9 Examples.DismissState Examples.dismiss_view Examples.silent false Examples.visible (Announcements.mkOptions None) Examples.ann_c [ERun] [Examples.ann_c] Examples.ann_c); [vm_compute | ]; discriminate.
Defined.
(** C2: one more run of the effect of [createReactions], [createComments],
    [createPoll] and [createAnnouncements] calls [controller.fetch()] and
    nothing else exactly when [options.autoFetch] is not [false] (an omitted
    [autoFetch] fetches); the effect of [createViews] calls
    [controller.record()] exactly when [options.autoRecord] is not [false]. *)
Theorem C2_mount_fetch_iff_not_false :
  (forall (CS : Type) (view : CS -> Reactions.St) ctrl emit o c0 es,
     calls (Reactions.trace view ctrl emit o c0 (es ++ [ERun])) =
     calls (Reactions.trace view ctrl emit o c0 es) ++
     (if not_false (Reactions.autoFetch o) then [mkCall "fetch" []] else [])) /\
  (forall (CS : Type) (view : CS -> Comments.St) ctrl emit o c0 es,
     calls (Comments.trace view ctrl emit o c0 (es ++ [ERun])) =
     calls (Comments.trace view ctrl emit o c0 es) ++
     (if not_false (Comments.autoFetch o) then [mkCall "fetch" []] else [])) /\
  (forall (CS : Type) (view : CS -> Poll.St) ctrl emit o c0 es,
     calls (Poll.trace view ctrl emit o c0 (es ++ [ERun])) =
     calls (Poll.trace view ctrl emit o c0 es) ++
     (if not_false (Poll.autoFetch o) then [mkCall "fetch" []] else [])) /\
  (forall (CS : Type) (view : CS -> Announcements.St) ctrl emit gv o c0 es,
     calls (Announcements.trace view ctrl emit gv o c0 (es ++ [ERun])) =
     calls (Announcements.trace view ctrl emit gv o c0 es) ++
     (if not_false (Announcements.autoFetch o) then [mkCall "fetch" []] else [])) /\
  (forall (CS : Type) (view : CS -> Views.St) ctrl emit o c0 es,
     calls (Views.trace view ctrl emit o c0 (es ++ [ERun])) =
     calls (Views.trace view ctrl emit o c0 es) ++
     (if not_false (Views.autoRecord o) then [mkCall "record" []] else [])).
Proof.
  repeat split; intros;
    unfold Reactions.trace, Comments.trace, Poll.trace, Announcements.trace, Views.trace;
    rewrite exec_snoc; unfold Runtime.step;
    unfold Reactions.effect, Comments.effect, Poll.effect, Announcements.effect, Views.effect;
    rewrite run_sub_call_if_calls;
    rewrite run_cleanups_calls; reflexivity.
Qed.

(** C3: in every reachable state of every primitive one controller has been
    constructed, the controller holds at most one subscription, and the
    subscriptions it holds are exactly the ones whose unsubscribe is
    registered for cleanup, all of them the primitive's callback; each run of
    the effect leaves exactly one subscription of that callback, paired with
    its unsubscribe as the only registered cleanup. *)
Theorem C3_single_subscription_pair :
  (forall (CS : Type) (view : CS -> Subscribe.St) ctrl emit (c0 : CS) es,
     Inv Subscribe.listener (Subscribe.trace view ctrl emit c0 es) /\
     exists u, subs (Subscribe.trace view ctrl emit c0 (es ++ [ERun])) = [(u, Subscribe.listener)] /\
               cleanups (Subscribe.trace view ctrl emit c0 (es ++ [ERun])) = [u]) /\
  (forall (CS : Type) (view : CS -> Form.St) ctrl emit (c0 : CS) es,
     Inv Form.listener (Form.trace view ctrl emit c0 es) /\
     exists u, subs (Form.trace view ctrl emit c0 (es ++ [ERun])) = [(u, Form.listener)] /\
               cleanups (Form.trace view ctrl emit c0 (es ++ [ERun])) = [u]) /\
  (forall (CS : Type) (view : CS -> Reactions.St) ctrl emit o (c0 : CS) es,
     Inv Reactions.listener (Reactions.trace view ctrl emit o c0 es) /\
     exists u, subs (Reactions.trace view ctrl emit o c0 (es ++ [ERun])) = [(u, Reactions.listener)] /\
               cleanups (Reactions.trace view ctrl emit o c0 (es ++ [ERun])) = [u]) /\
  (forall (CS : Type) (view : CS -> Comments.St) ctrl emit o (c0 : CS) es,
     Inv Comments.listener (Comments.trace view ctrl emit o c0 es) /\
     exists u, subs (Comments.trace view ctrl emit o c0 (es ++ [ERun])) = [(u, Comments.listener)] /\
               cleanups (Comments.trace view ctrl emit o c0 (es ++ [ERun])) = [u]) /\
  (forall (CS : Type) (view : CS -> Waitlist.St) ctrl emit (c0 : CS) es,
     Inv Waitlist.listener (Waitlist.trace view ctrl emit c0 es) /\
     exists u, subs (Waitlist.trace view ctrl emit c0 (es ++ [ERun])) = [(u, Waitlist.listener)] /\
               cleanups (Waitlist.trace view ctrl emit c0 (es ++ [ERun])) = [u]) /\
  (forall (CS : Type) (view : CS -> Views.St) ctrl emit o (c0 : CS) es,
     Inv Views.listener (Views.trace view ctrl emit o c0 es) /\
     exists u, subs (Views.trace view ctrl emit o c0 (es ++ [ERun])) = [(u, Views.listener)] /\
               cleanups (Views.trace view ctrl emit o c0 (es ++ [ERun])) = [u]) /\
  (forall (CS : Type) (view : CS -> Feedback.St) ctrl emit (c0 : CS) es,
     Inv Feedback.listener (Feedback.trace view ctrl emit c0 es) /\
     exists u, subs (Feedback.trace view ctrl emit c0 (es ++ [ERun])) = [(u, Feedback.listener)] /\
               cleanups (Feedback.trace view ctrl emit c0 (es ++ [ERun])) = [u]) /\
  (forall (CS : Type) (view : CS -> Poll.St) ctrl emit o (c0 : CS) es,
     Inv Poll.listener (Poll.trace view ctrl emit o c0 es) /\
     exists u, subs (Poll.trace view ctrl emit o c0 (es ++ [ERun])) = [(u, Poll.listener)] /\
               cleanups (Poll.trace view ctrl emit o c0 (es ++ [ERun])) = [u]) /\
  (forall (CS : Type) (view : CS -> Announcements.St) ctrl emit gv o (c0 : CS) es,
     Inv (Announcements.listener gv) (Announcements.trace view ctrl emit gv o c0 es) /\
     exists u, subs (Announcements.trace view ctrl emit gv o c0 (es ++ [ERun])) = [(u, (Announcements.listener gv))] /\
               cleanups (Announcements.trace view ctrl emit gv o c0 (es ++ [ERun])) = [u]).
Proof.
  repeat match goal with |- (forall _, _) /\ _ => split end.
  - intros; apply reachable_pairs; [apply subscribe_wired | apply subscribe_plain].
  - intros; apply reachable_pairs; [apply form_wired | apply form_plain].
  - intros; apply reachable_pairs; [apply reactions_wired | apply reactions_plain].
  - intros; apply reachable_pairs; [apply comments_wired | apply comments_plain].
  - intros; apply reachable_pairs; [apply waitlist_wired | apply waitlist_plain].
  - intros; apply reachable_pairs; [apply views_wired | apply views_plain].
  - intros; apply reachable_pairs; [apply feedback_wired | apply feedback_plain].
  - intros; apply reachable_pairs; [apply poll_wired | apply poll_plain].
  - intros; apply reachable_pairs; [apply announcements_wired | apply announcements_plain].
Qed.

(** C4: disposing of a primitive runs its cleanup, which calls the
    unsubscribe returned by [controller.subscribe]: afterwards the
    controller holds no subscription and no cleanup is left; as long as the
    effect does not run again, later controller notifications and action
    calls leave the subscription registry empty and the signals unchanged. *)
Theorem C4_teardown_unsubscribes :
  (forall (CS : Type) (view : CS -> Subscribe.St) ctrl emit (c0 : CS) es es',
     subs (Subscribe.trace view ctrl emit c0 (es ++ [EDispose])) = [] /\
     cleanups (Subscribe.trace view ctrl emit c0 (es ++ [EDispose])) = [] /\
     (Forall (fun e => e <> ERun) es' ->
      subs (Subscribe.trace view ctrl emit c0 (es ++ EDispose :: es')) = [] /\
      sigs (Subscribe.trace view ctrl emit c0 (es ++ EDispose :: es')) =
      sigs (Subscribe.trace view ctrl emit c0 (es ++ [EDispose])))) /\
  (forall (CS : Type) (view : CS -> Form.St) ctrl emit (c0 : CS) es es',
     subs (Form.trace view ctrl emit c0 (es ++ [EDispose])) = [] /\
     cleanups (Form.trace view ctrl emit c0 (es ++ [EDispose])) = [] /\
     (Forall (fun e => e <> ERun) es' ->
      subs (Form.trace view ctrl emit c0 (es ++ EDispose :: es')) = [] /\
      sigs (Form.trace view ctrl emit c0 (es ++ EDispose :: es')) =
      sigs (Form.trace view ctrl emit c0 (es ++ [EDispose])))) /\
  (forall (CS : Type) (view : CS -> Reactions.St) ctrl emit o (c0 : CS) es es',
     subs (Reactions.trace view ctrl emit o c0 (es ++ [EDispose])) = [] /\
     cleanups (Reactions.trace view ctrl emit o c0 (es ++ [EDispose])) = [] /\
     (Forall (fun e => e <> ERun) es' ->
      subs (Reactions.trace view ctrl emit o c0 (es ++ EDispose :: es')) = [] /\
      sigs (Reactions.trace view ctrl emit o c0 (es ++ EDispose :: es')) =
      sigs (Reactions.trace view ctrl emit o c0 (es ++ [EDispose])))) /\
  (forall (CS : Type) (view : CS -> Comments.St) ctrl emit o (c0 : CS) es es',
     subs (Comments.trace view ctrl emit o c0 (es ++ [EDispose])) = [] /\
     cleanups (Comments.trace view ctrl emit o c0 (es ++ [EDispose])) = [] /\
     (Forall (fun e => e <> ERun) es' ->
      subs (Comments.trace view ctrl emit o c0 (es ++ EDispose :: es')) = [] /\
      sigs (Comments.trace view ctrl emit o c0 (es ++ EDispose :: es')) =
      sigs (Comments.trace view ctrl emit o c0 (es ++ [EDispose])))) /\
  (forall (CS : Type) (view : CS -> Waitlist.St) ctrl emit (c0 : CS) es es',
     subs (Waitlist.trace view ctrl emit c0 (es ++ [EDispose])) = [] /\
     cleanups (Waitlist.trace view ctrl emit c0 (es ++ [EDispose])) = [] /\
     (Forall (fun e => e <> ERun) es' ->
      subs (Waitlist.trace view ctrl emit c0 (es ++ EDispose :: es')) = [] /\
      sigs (Waitlist.trace view ctrl emit c0 (es ++ EDispose :: es')) =
      sigs (Waitlist.trace view ctrl emit c0 (es ++ [EDispose])))) /\
  (forall (CS : Type) (view : CS -> Views.St) ctrl emit o (c0 : CS) es es',
     subs (Views.trace view ctrl emit o c0 (es ++ [EDispose])) = [] /\
     cleanups (Views.trace view ctrl emit o c0 (es ++ [EDispose])) = [] /\
     (Forall (fun e => e <> ERun) es' ->
      subs (Views.trace view ctrl emit o c0 (es ++ EDispose :: es')) = [] /\
      sigs (Views.trace view ctrl emit o c0 (es ++ EDispose :: es')) =
      sigs (Views.trace view ctrl emit o c0 (es ++ [EDispose])))) /\
  (forall (CS : Type) (view : CS -> Feedback.St) ctrl emit (c0 : CS) es es',
     subs (Feedback.trace view ctrl emit c0 (es ++ [EDispose])) = [] /\
     cleanups (Feedback.trace view ctrl emit c0 (es ++ [EDispose])) = [] /\
     (Forall (fun e => e <> ERun) es' ->
      subs (Feedback.trace view ctrl emit c0 (es ++ EDispose :: es')) = [] /\
      sigs (Feedback.trace view ctrl emit c0 (es ++ EDispose :: es')) =
      sigs (Feedback.trace view ctrl emit c0 (es ++ [EDispose])))) /\
  (forall (CS : Type) (view : CS -> Poll.St) ctrl emit o (c0 : CS) es es',
     subs (Poll.trace view ctrl emit o c0 (es ++ [EDispose])) = [] /\
     cleanups (Poll.trace view ctrl emit o c0 (es ++ [EDispose])) = [] /\
     (Forall (fun e => e <> ERun) es' ->
      subs (Poll.trace view ctrl emit o c0 (es ++ EDispose :: es')) = [] /\
      sigs (Poll.trace view ctrl emit o c0 (es ++ EDispose :: es')) =
      sigs (Poll.trace view ctrl emit o c0 (es ++ [EDispose])))) /\
  (forall (CS : Type) (view : CS -> Announcements.St) ctrl emit gv o (c0 : CS) es es',
     subs (Announcements.trace view ctrl emit gv o c0 (es ++ [EDispose])) = [] /\
     cleanups (Announcements.trace view ctrl emit gv o c0 (es ++ [EDispose])) = [] /\
     (Forall (fun e => e <> ERun) es' ->
      subs (Announcements.trace view ctrl emit gv o c0 (es ++ EDispose :: es')) = [] /\
      sigs (Announcements.trace view ctrl emit gv o c0 (es ++ EDispose :: es')) =
      sigs (Announcements.trace view ctrl emit gv o c0 (es ++ [EDispose])))).
Proof.
  repeat match goal with |- (forall _, _) /\ _ => split end.
  - intros; eapply reachable_dispose; [apply subscribe_wired | apply subscribe_plain].
  - intros; eapply reachable_dispose; [apply form_wired | apply form_plain].
  - intros; eapply reachable_dispose; [apply reactions_wired | apply reactions_plain].
  - intros; eapply reachable_dispose; [apply comments_wired | apply comments_plain].
  - intros; eapply reachable_dispose; [apply waitlist_wired | apply waitlist_plain].
  - intros; eapply reachable_dispose; [apply views_wired | apply views_plain].
  - intros; eapply reachable_dispose; [apply feedback_wired | apply feedback_plain].
  - intros; eapply reachable_dispose; [apply poll_wired | apply poll_plain].
  - intros; eapply reachable_dispose; [apply announcements_wired | apply announcements_plain].
Qed.

(** Witness of C4: subscribe, dispose, then a notification and an action. *)
Lemma C4_witness :
  (Forall (fun e => e <> ERun) ([EPush [Examples.subscribe_st]; EAct Subscribe.reset] : list (Event Subscribe.Action)) /\
   subs (Subscribe.trace (fun s : Subscribe.St => s) (Examples.loads Examples.subscribe_st) false Examples.subscribe_st ([ERun] ++ EDispose :: [EPush [Examples.subscribe_st]; EAct Subscribe.reset])) = [] /\
   sigs (Subscribe.trace (fun s : Subscribe.St => s) (Examples.loads Examples.subscribe_st) false Examples.subscribe_st ([ERun] ++ EDispose :: [EPush [Examples.subscribe_st]; EAct Subscribe.reset])) =
   sigs (Subscribe.trace (fun s : Subscribe.St => s) (Examples.loads Examples.subscribe_st) false Examples.subscribe_st ([ERun] ++ [EDispose]))) /\
  (Forall (fun e => e <> ERun) ([EPush [Examples.form_st]; EAct Form.reset] : list (Event Form.Action)) /\
   subs (Form.trace (fun s : Form.St => s) (Examples.loads Examples.form_st) false Examples.form_st ([ERun] ++ EDispose :: [EPush [Examples.form_st]; EAct Form.reset])) = [] /\
   sigs (Form.trace (fun s : Form.St => s) (Examples.loads Examples.form_st) false Examples.form_st ([ERun] ++ EDispose :: [EPush [Examples.form_st]; EAct Form.reset])) =
   sigs (Form.trace (fun s : Form.St => s) (Examples.loads Examples.form_st) false Examples.form_st ([ERun] ++ [EDispose]))) /\
  (Forall (fun e => e <> ERun) ([EPush [Examples.reactions_st]; EAct Reactions.refresh] : list (Event Reactions.Action)) /\
   subs (Reactions.trace (fun s : Reactions.St => s) (Examples.loads Examples.reactions_st) false (Reactions.mkOptions "my-post" None) Examples.reactions_st ([ERun] ++ EDispose :: [EPush [Examples.reactions_st]; EAct Reactions.refresh])) = [] /\
   sigs (Reactions.trace (fun s : Reactions.St => s) (Examples.loads Examples.reactions_st) false (Reactions.mkOptions "my-post" None) Examples.reactions_st ([ERun] ++ EDispose :: [EPush [Examples.reactions_st]; EAct Reactions.refresh])) =
   sigs (Reactions.trace (fun s : Reactions.St => s) (Examples.loads Examples.reactions_st) false (Reactions.mkOptions "my-post" None) Examples.reactions_st ([ERun] ++ [EDispose]))) /\
  (Forall (fun e => e <> ERun) ([EPush [Examples.comments_st]; EAct Comments.refresh] : list (Event Comments.Action)) /\
   subs (Comments.trace (fun s : Comments.St => s) (Examples.loads Examples.comments_st) false (Comments.mkOptions "my-post" None) Examples.comments_st ([ERun] ++ EDispose :: [EPush [Examples.comments_st]; EAct Comments.refresh])) = [] /\
   sigs (Comments.trace (fun s : Comments.St => s) (Examples.loads Examples.comments_st) false (Comments.mkOptions "my-post" None) Examples.comments_st ([ERun] ++ EDispose :: [EPush [Examples.comments_st]; EAct Comments.refresh])) =
   sigs (Comments.trace (fun s : Comments.St => s) (Examples.loads Examples.comments_st) false (Comments.mkOptions "my-post" None) Examples.comments_st ([ERun] ++ [EDispose]))) /\
  (Forall (fun e => e <> ERun) ([EPush [Examples.waitlist_st]; EAct Waitlist.reset] : list (Event Waitlist.Action)) /\
   subs (Waitlist.trace (fun s : Waitlist.St => s) (Examples.loads Examples.waitlist_st) false Examples.waitlist_st ([ERun] ++ EDispose :: [EPush [Examples.waitlist_st]; EAct Waitlist.reset])) = [] /\
   sigs (Waitlist.trace (fun s : Waitlist.St => s) (Examples.loads Examples.waitlist_st) false Examples.waitlist_st ([ERun] ++ EDispose :: [EPush [Examples.waitlist_st]; EAct Waitlist.reset])) =
   sigs (Waitlist.trace (fun s : Waitlist.St => s) (Examples.loads Examples.waitlist_st) false Examples.waitlist_st ([ERun] ++ [EDispose]))) /\
  (Forall (fun e => e <> ERun) ([EPush [Examples.views_st]; EAct Views.refresh] : list (Event Views.Action)) /\
   subs (Views.trace (fun s : Views.St => s) (Examples.loads Examples.views_st) false (Views.mkOptions "/blog/my-post" None) Examples.views_st ([ERun] ++ EDispose :: [EPush [Examples.views_st]; EAct Views.refresh])) = [] /\
   sigs (Views.trace (fun s : Views.St => s) (Examples.loads Examples.views_st) false (Views.mkOptions "/blog/my-post" None) Examples.views_st ([ERun] ++ EDispose :: [EPush [Examples.views_st]; EAct Views.refresh])) =
   sigs (Views.trace (fun s : Views.St => s) (Examples.loads Examples.views_st) false (Views.mkOptions "/blog/my-post" None) Examples.views_st ([ERun] ++ [EDispose]))) /\
  (Forall (fun e => e <> ERun) ([EPush [Examples.feedback_st]; EAct Feedback.reset] : list (Event Feedback.Action)) /\
   subs (Feedback.trace (fun s : Feedback.St => s) (Examples.loads Examples.feedback_st) false Examples.feedback_st ([ERun] ++ EDispose :: [EPush [Examples.feedback_st]; EAct Feedback.reset])) = [] /\
   sigs (Feedback.trace (fun s : Feedback.St => s) (Examples.loads Examples.feedback_st) false Examples.feedback_st ([ERun] ++ EDispose :: [EPush [Examples.feedback_st]; EAct Feedback.reset])) =
   sigs (Feedback.trace (fun s : Feedback.St => s) (Examples.loads Examples.feedback_st) false Examples.feedback_st ([ERun] ++ [EDispose]))) /\
  (Forall (fun e => e <> ERun) ([EPush [Examples.poll_st]; EAct Poll.refresh] : list (Event Poll.Action)) /\
   subs (Poll.trace (fun s : Poll.St => s) (Examples.loads Examples.poll_st) false (Poll.mkOptions "favorite-framework" None) Examples.poll_st ([ERun] ++ EDispose :: [EPush [Examples.poll_st]; EAct Poll.refresh])) = [] /\
   sigs (Poll.trace (fun s : Poll.St => s) (Examples.loads Examples.poll_st) false (Poll.mkOptions "favorite-framework" None) Examples.poll_st ([ERun] ++ EDispose :: [EPush [Examples.poll_st]; EAct Poll.refresh])) =
   sigs (Poll.trace (fun s : Poll.St => s) (Examples.loads Examples.poll_st) false (Poll.mkOptions "favorite-framework" None) Examples.poll_st ([ERun] ++ [EDispose]))) /\
  (Forall (fun e => e <> ERun) ([EPush [Examples.ann_c]; EAct Announcements.refresh] : list (Event Announcements.Action)) /\
   subs (Announcements.trace Examples.dismiss_view (Examples.loads Examples.ann_c) false Examples.visible (Announcements.mkOptions None) Examples.ann_c ([ERun] ++ EDispose :: [EPush [Examples.ann_c]; EAct Announcements.refresh])) = [] /\
   sigs (Announcements.trace Examples.dismiss_view (Examples.loads Examples.ann_c) false Examples.visible (Announcements.mkOptions None) Examples.ann_c ([ERun] ++ EDispose :: [EPush [Examples.ann_c]; EAct Announcements.refresh])) =
   sigs (Announcements.trace Examples.dismiss_view (Examples.loads Examples.ann_c) false Examples.visible (Announcements.mkOptions None) Examples.ann_c ([ERun] ++ [EDispose]))).
Proof.
  destruct C4_teardown_unsubscribes as (T1 & T2 & T3 & T4 & T5 & T6 & T7 & T8 & T9).
  repeat match goal with |- (Forall _ _ /\ _) /\ _ => split end.
  - assert (H : Forall (fun e => e <> ERun) ([EPush [Examples.subscribe_st]; EAct Subscribe.reset] : list (Event Subscribe.Action)))
      by (repeat (apply Forall_cons; [discriminate|]); apply Forall_nil).
    split; [exact H|].
    exact (proj2 (proj2 (T1 Subscribe.St (fun s : Subscribe.St => s) (Examples.loads Examples.subscribe_st) false Examples.subscribe_st [ERun] [EPush [Examples.subscribe_st]; EAct Subscribe.reset])) H).
  - assert (H : Forall (fun e => e <> ERun) ([EPush [Examples.form_st]; EAct Form.reset] : list (Event Form.Action)))
      by (repeat (apply Forall_cons; [discriminate|]); apply Forall_nil).
    split; [exact H|].
    exact (proj2 (proj2 (T2 Form.St (fun s : Form.St => s) (Examples.loads Examples.form_st) false Examples.form_st [ERun] [EPush [Examples.form_st]; EAct Form.reset])) H).
  - assert (H : Forall (fun e => e <> ERun) ([EPush [Examples.reactions_st]; EAct Reactions.refresh] : list (Event Reactions.Action)))
      by (repeat (apply Forall_cons; [discriminate|]); apply Forall_nil).
    split; [exact H|].
    exact (proj2 (proj2 (T3 Reactions.St (fun s : Reactions.St => s) (Examples.loads Examples.reactions_st) false (Reactions.mkOptions "my-post" None) Examples.reactions_st [ERun] [EPush [Examples.reactions_st]; EAct Reactions.refresh])) H).
  - assert (H : Forall (fun e => e <> ERun) ([EPush [Examples.comments_st]; EAct Comments.refresh] : list (Event Comments.Action)))
      by (repeat (apply Forall_cons; [discriminate|]); apply Forall_nil).
    split; [exact H|].
    exact (proj2 (proj2 (T4 Comments.St (fun s : Comments.St => s) (Examples.loads Examples.comments_st) false (Comments.mkOptions "my-post" None) Examples.comments_st [ERun] [EPush [Examples.comments_st]; EAct Comments.refresh])) H).
  - assert (H : Forall (fun e => e <> ERun) ([EPush [Examples.waitlist_st]; EAct Waitlist.reset] : list (Event Waitlist.Action)))
      by (repeat (apply Forall_cons; [discriminate|]); apply Forall_nil).
    split; [exact H|].
    exact (proj2 (proj2 (T5 Waitlist.St (fun s : Waitlist.St => s) (Examples.loads Examples.waitlist_st) false Examples.waitlist_st [ERun] [EPush [Examples.waitlist_st]; EAct Waitlist.reset])) H).
  - assert (H : Forall (fun e => e <> ERun) ([EPush [Examples.views_st]; EAct Views.refresh] : list (Event Views.Action)))
      by (repeat (apply Forall_cons; [discriminate|]); apply Forall_nil).
    split; [exact H|].
    exact (proj2 (proj2 (T6 Views.St (fun s : Views.St => s) (Examples.loads Examples.views_st) false (Views.mkOptions "/blog/my-post" None) Examples.views_st [ERun] [EPush [Examples.views_st]; EAct Views.refresh])) H).
  - assert (H : Forall (fun e => e <> ERun) ([EPush [Examples.feedback_st]; EAct Feedback.reset] : list (Event Feedback.Action)))
      by (repeat (apply Forall_cons; [discriminate|]); apply Forall_nil).
    split; [exact H|].
    exact (proj2 (proj2 (T7 Feedback.St (fun s : Feedback.St => s) (Examples.loads Examples.feedback_st) false Examples.feedback_st [ERun] [EPush [Examples.feedback_st]; EAct Feedback.reset])) H).
  - assert (H : Forall (fun e => e <> ERun) ([EPush [Examples.poll_st]; EAct Poll.refresh] : list (Event Poll.Action)))
      by (repeat (apply Forall_cons; [discriminate|]); apply Forall_nil).
    split; [exact H|].
    exact (proj2 (proj2 (T8 Poll.St (fun s : Poll.St => s) (Examples.loads Examples.poll_st) false (Poll.mkOptions "favorite-framework" None) Examples.poll_st [ERun] [EPush [Examples.poll_st]; EAct Poll.refresh])) H).
  - assert (H : Forall (fun e => e <> ERun) ([EPush [Examples.ann_c]; EAct Announcements.refresh] : list (Event Announcements.Action)))
      by (repeat (apply Forall_cons; [discriminate|]); apply Forall_nil).
    split; [exact H|].
    exact (proj2 (proj2 (T9 Examples.DismissState Examples.dismiss_view (Examples.loads Examples.ann_c) false Examples.visible (Announcements.mkOptions None) Examples.ann_c [ERun] [EPush [Examples.ann_c]; EAct Announcements.refresh])) H).
Defined.

(** C5: the [announcements] signal of [createAnnouncements] only ever holds
    the initial empty list or a result of [controller.getVisibleAnnouncements()];
    after a notification while subscribed it holds
    [controller.getVisibleAnnouncements()] at the last notified state. *)
Theorem C5_announcements_visible :
  (forall (CS : Type) (view : CS -> Announcements.St) ctrl emit gv o (c0 : CS) es,
     Announcements.announcements (sigs (Announcements.trace view ctrl emit gv o c0 es)) = [] \/
     exists c : CS,
       Announcements.announcements (sigs (Announcements.trace view ctrl emit gv o c0 es)) =
       gv c) /\
  (forall (CS : Type) (view : CS -> Announcements.St) ctrl emit gv o (c0 : CS) es cs d,
     subs (Announcements.trace view ctrl emit gv o c0 es) <> [] -> cs <> [] ->
     Announcements.announcements
       (sigs (Announcements.trace view ctrl emit gv o c0 (es ++ [EPush cs]))) =
     gv (last cs d)).
Proof.
  split.
  - intros. unfold Announcements.trace.
    apply (reachable_preserves _ _ _ _ _ _ (Announcements.listener gv)
             (fun s => Announcements.announcements s = [] \/
                       exists c, Announcements.announcements s = gv c)).
    + intros c st s. right. exists c. reflexivity.
    + apply wired_listens_only, announcements_wired.
    + intro a. apply plain_listens_only, announcements_plain.
    + left. reflexivity.
  - intros CS view ctrl emit gv o c0 es cs d Hs Hcs. unfold Announcements.trace in *.
    erewrite reachable_push with (F := SpecAccessors.announcements_visible gv);
      [reflexivity | apply announcements_wired | apply announcements_plain
      | reflexivity | eassumption..].
Qed.

(** Witness of C5: a notified state whose only announcement is dismissed. *)
Lemma C5_witness :
  let c1 : Examples.DismissState := (Examples.announcements_st, [1%Z]) in
  subs (Announcements.trace Examples.dismiss_view Examples.silent false Examples.visible
          (Announcements.mkOptions None) c1 [ERun]) <> [] /\
  Announcements.announcements
    (sigs (Announcements.trace Examples.dismiss_view Examples.silent false Examples.visible
             (Announcements.mkOptions None) c1 ([ERun] ++ [EPush [c1]]))) =
  Examples.visible c1.
Proof.
  intro c1. split; [vm_compute; discriminate|].
  apply (proj2 C5_announcements_visible _ _ _ _ _ _ c1 [ERun] [c1] c1);
    [vm_compute | ]; discriminate.
Defined.

(** C6, as corrected: every action method makes exactly the controller call it
    names, with its arguments passed through, and adds nothing of its own.
    The [async] ones await that call, so the caller gets a promise waiting
    for it alone and resolving to [undefined]; [reset()] calls
    [controller.reset()] without awaiting it and returns [undefined] itself;
    [hasVoted()] returns the value [controller.hasVoted()] returns. *)
Theorem C6_actions_delegate :
  (forall (CS : Type) (view : CS -> Subscribe.St) ctrl emit email (w : @World CS Subscribe.St Subscribe.Signals),
     Async.call_method view ctrl emit (Subscribe.is_async (Subscribe.subscribe email)) w (Subscribe.act (Subscribe.subscribe email)) =
     (fst (call_ctl view ctrl (mkCall "submit" [JStr email]) w), Async.RPromise [mkCall "submit" [JStr email]] JUndef)) /\
  (forall (CS : Type) (view : CS -> Subscribe.St) ctrl emit (w : @World CS Subscribe.St Subscribe.Signals),
     Async.call_method view ctrl emit (Subscribe.is_async Subscribe.reset) w (Subscribe.act Subscribe.reset) =
     (fst (call_ctl view ctrl (mkCall "reset" []) w), Async.RValue JUndef)) /\
  (forall (CS : Type) (view : CS -> Form.St) ctrl emit data (w : @World CS Form.St Form.Signals),
     Async.call_method view ctrl emit (Form.is_async (Form.submit data)) w (Form.act (Form.submit data)) =
     (fst (call_ctl view ctrl (mkCall "submit" [JObj data]) w), Async.RPromise [mkCall "submit" [JObj data]] JUndef)) /\
  (forall (CS : Type) (view : CS -> Form.St) ctrl emit (w : @World CS Form.St Form.Signals),
     Async.call_method view ctrl emit (Form.is_async Form.reset) w (Form.act Form.reset) =
     (fst (call_ctl view ctrl (mkCall "reset" []) w), Async.RValue JUndef)) /\
  (forall (CS : Type) (view : CS -> Reactions.St) ctrl emit type (w : @World CS Reactions.St Reactions.Signals),
     Async.call_method view ctrl emit (Reactions.is_async (Reactions.addReaction type)) w (Reactions.act (Reactions.addReaction type)) =
     (fst (call_ctl view ctrl (mkCall "add" [JStr type]) w), Async.RPromise [mkCall "add" [JStr type]] JUndef)) /\
  (forall (CS : Type) (view : CS -> Reactions.St) ctrl emit type (w : @World CS Reactions.St Reactions.Signals),
     Async.call_method view ctrl emit (Reactions.is_async (Reactions.removeReaction type)) w (Reactions.act (Reactions.removeReaction type)) =
     (fst (call_ctl view ctrl (mkCall "remove" [JStr type]) w), Async.RPromise [mkCall "remove" [JStr type]] JUndef)) /\
  (forall (CS : Type) (view : CS -> Reactions.St) ctrl emit (w : @World CS Reactions.St Reactions.Signals),
     Async.call_method view ctrl emit (Reactions.is_async Reactions.refresh) w (Reactions.act Reactions.refresh) =
     (fst (call_ctl view ctrl (mkCall "fetch" []) w), Async.RPromise [mkCall "fetch" []] JUndef)) /\
  (forall (CS : Type) (view : CS -> Comments.St) ctrl emit author content opts (w : @World CS Comments.St Comments.Signals),
     Async.call_method view ctrl emit (Comments.is_async (Comments.postComment author content opts)) w (Comments.act (Comments.postComment author content opts)) =
     (fst (call_ctl view ctrl (mkCall "post" [JStr author; JStr content; opts]) w), Async.RPromise [mkCall "post" [JStr author; JStr content; opts]] JUndef)) /\
  (forall (CS : Type) (view : CS -> Comments.St) ctrl emit (w : @World CS Comments.St Comments.Signals),
     Async.call_method view ctrl emit (Comments.is_async Comments.refresh) w (Comments.act Comments.refresh) =
     (fst (call_ctl view ctrl (mkCall "fetch" []) w), Async.RPromise [mkCall "fetch" []] JUndef)) /\
  (forall (CS : Type) (view : CS -> Waitlist.St) ctrl emit email opts (w : @World CS Waitlist.St Waitlist.Signals),
     Async.call_method view ctrl emit (Waitlist.is_async (Waitlist.join email opts)) w (Waitlist.act (Waitlist.join email opts)) =
     (fst (call_ctl view ctrl (mkCall "join" [JStr email; opts]) w), Async.RPromise [mkCall "join" [JStr email; opts]] JUndef)) /\
  (forall (CS : Type) (view : CS -> Waitlist.St) ctrl emit (w : @World CS Waitlist.St Waitlist.Signals),
     Async.call_method view ctrl emit (Waitlist.is_async Waitlist.reset) w (Waitlist.act Waitlist.reset) =
     (fst (call_ctl view ctrl (mkCall "reset" []) w), Async.RValue JUndef)) /\
  (forall (CS : Type) (view : CS -> Views.St) ctrl emit (w : @World CS Views.St Views.Signals),
     Async.call_method view ctrl emit (Views.is_async Views.record) w (Views.act Views.record) =
     (fst (call_ctl view ctrl (mkCall "record" []) w), Async.RPromise [mkCall "record" []] JUndef)) /\
  (forall (CS : Type) (view : CS -> Views.St) ctrl emit (w : @World CS Views.St Views.Signals),
     Async.call_method view ctrl emit (Views.is_async Views.refresh) w (Views.act Views.refresh) =
     (fst (call_ctl view ctrl (mkCall "fetch" []) w), Async.RPromise [mkCall "fetch" []] JUndef)) /\
  (forall (CS : Type) (view : CS -> Feedback.St) ctrl emit type content opts (w : @World CS Feedback.St Feedback.Signals),
     Async.call_method view ctrl emit (Feedback.is_async (Feedback.submit type content opts)) w (Feedback.act (Feedback.submit type content opts)) =
     (fst (call_ctl view ctrl (mkCall "submit" [JStr type; JStr content; opts]) w), Async.RPromise [mkCall "submit" [JStr type; JStr content; opts]] JUndef)) /\
  (forall (CS : Type) (view : CS -> Feedback.St) ctrl emit (w : @World CS Feedback.St Feedback.Signals),
     Async.call_method view ctrl emit (Feedback.is_async Feedback.reset) w (Feedback.act Feedback.reset) =
     (fst (call_ctl view ctrl (mkCall "reset" []) w), Async.RValue JUndef)) /\
  (forall (CS : Type) (view : CS -> Poll.St) ctrl emit selectedOptions (w : @World CS Poll.St Poll.Signals),
     Async.call_method view ctrl emit (Poll.is_async (Poll.vote selectedOptions)) w (Poll.act (Poll.vote selectedOptions)) =
     (fst (call_ctl view ctrl (mkCall "vote" [JArr (map JStr selectedOptions)]) w), Async.RPromise [mkCall "vote" [JArr (map JStr selectedOptions)]] JUndef)) /\
  (forall (CS : Type) (view : CS -> Poll.St) ctrl emit (w : @World CS Poll.St Poll.Signals),
     Async.call_method view ctrl emit (Poll.is_async Poll.refresh) w (Poll.act Poll.refresh) =
     (fst (call_ctl view ctrl (mkCall "fetch" []) w), Async.RPromise [mkCall "fetch" []] JUndef)) /\
  (forall (CS : Type) (view : CS -> Poll.St) ctrl emit (w : @World CS Poll.St Poll.Signals),
     Async.call_method view ctrl emit (Poll.is_async Poll.hasVoted) w (Poll.act Poll.hasVoted) =
     (fst (call_ctl view ctrl (mkCall "hasVoted" []) w), Async.RValue (snd (call_ctl view ctrl (mkCall "hasVoted" []) w)))) /\
  (forall (CS : Type) (view : CS -> Announcements.St) ctrl emit announcementId (w : @World CS Announcements.St Announcements.Signals),
     Async.call_method view ctrl emit (Announcements.is_async (Announcements.dismiss announcementId)) w (Announcements.act (Announcements.dismiss announcementId)) =
     (fst (call_ctl view ctrl (mkCall "dismiss" [JNum announcementId]) w), Async.RPromise [mkCall "dismiss" [JNum announcementId]] JUndef)) /\
  (forall (CS : Type) (view : CS -> Announcements.St) ctrl emit (w : @World CS Announcements.St Announcements.Signals),
     Async.call_method view ctrl emit (Announcements.is_async Announcements.refresh) w (Announcements.act Announcements.refresh) =
     (fst (call_ctl view ctrl (mkCall "fetch" []) w), Async.RPromise [mkCall "fetch" []] JUndef)).
Proof.
  repeat split; intros;
    cbn [Subscribe.act Subscribe.is_async Form.act Form.is_async Reactions.act Reactions.is_async Comments.act Comments.is_async Waitlist.act Waitlist.is_async Views.act Views.is_async Feedback.act Feedback.is_async Poll.act Poll.is_async Announcements.act Announcements.is_async];
    first [apply MoreFacts.call_method_await | apply MoreFacts.call_method_call
          | apply MoreFacts.call_method_pass].
Qed.

(** C6 as stated fails for [reset()]: it is not [async] and does not await
    [controller.reset()], so its caller gets [undefined] rather than a
    promise waiting for that call. *)
Lemma C6_counterexample :
  ~ SpecAccessors.delegates_awaited (fun s : Subscribe.St => s) Examples.silent false
      (Subscribe.is_async Subscribe.reset) (Subscribe.act Subscribe.reset) (mkCall "reset" []).
Proof.
  intro H. specialize (H (Runtime.create Examples.subscribe_st Subscribe.init)).
  vm_compute in H. discriminate H.
Qed.

(** C7: each type and helper that [index.ts] re-exports from
    [@jamwidgets/core] resolves, through the module's exports, to the very
    binding the core library exports under that name. *)
Theorem C7_reexports_resolve_to_core :
  forall (V : Type) (modules : string -> string -> option V)
    (x1 x2 x3 x4 x5 x6 x7 x8 x9 : V) (n : string),
    In n (Exports.reexported_types ++ Exports.reexported_values) ->
    Exports.resolve V modules (Exports.index_exports V x1 x2 x3 x4 x5 x6 x7 x8 x9) n =
    modules Exports.core n.
Proof.
  intros V modules x1 x2 x3 x4 x5 x6 x7 x8 x9 n Hin.
  cbn [Exports.resolve Exports.index_exports].
  destruct (existsb (String.eqb n) Exports.reexported_types) eqn:E1; [reflexivity|].
  destruct (existsb (String.eqb n) Exports.reexported_values) eqn:E2; [reflexivity|].
  exfalso. apply in_app_or in Hin as [Hin|Hin].
  - assert (T : existsb (String.eqb n) Exports.reexported_types = true)
      by (apply existsb_exists; exists n; split; [exact Hin | apply String.eqb_refl]).
    congruence.
  - assert (T : existsb (String.eqb n) Exports.reexported_values = true)
      by (apply existsb_exists; exists n; split; [exact Hin | apply String.eqb_refl]).
    congruence.
Qed.

(** Witness of C7: [fetchPosts] resolves to the core library's binding. *)
Lemma C7_witness :
  In "fetchPosts" (Exports.reexported_types ++ Exports.reexported_values) /\
  Exports.resolve nat (fun m n => if String.eqb m Exports.core then Some 7 else None)
    (Exports.index_exports nat 0 1 2 3 4 5 6 7 8) "fetchPosts" = Some 7.
Proof.
  assert (H : In "fetchPosts" (Exports.reexported_types ++ Exports.reexported_values))
    by (apply in_or_app; right; left; reflexivity).
  split; [exact H|].
  exact (C7_reexports_resolve_to_core nat
           (fun m n => if String.eqb m Exports.core then Some 7 else None)
           0 1 2 3 4 5 6 7 8 "fetchPosts" H).
Defined.

(** C8: as long as no controller notification has reached a primitive's
    subscription, its accessors hold their initial values: status [idle],
    message, error, poll and position [null], counts the empty record,
    userReactions, comments and announcements the empty list, views and
    uniqueVisitors 0. *)
Theorem C8_defaults_before_first_notification :
  (forall (CS : Type) (view : CS -> Subscribe.St) ctrl emit (c0 : CS) es,
     notes (Subscribe.trace view ctrl emit c0 es) = 0 ->
     sigs (Subscribe.trace view ctrl emit c0 es) = Subscribe.mkSignals Core.idle None None) /\
  (forall (CS : Type) (view : CS -> Form.St) ctrl emit (c0 : CS) es,
     notes (Form.trace view ctrl emit c0 es) = 0 ->
     sigs (Form.trace view ctrl emit c0 es) = Form.mkSignals Core.idle None None) /\
  (forall (CS : Type) (view : CS -> Reactions.St) ctrl emit o (c0 : CS) es,
     notes (Reactions.trace view ctrl emit o c0 es) = 0 ->
     sigs (Reactions.trace view ctrl emit o c0 es) = Reactions.mkSignals [] [] Core.idle None) /\
  (forall (CS : Type) (view : CS -> Comments.St) ctrl emit o (c0 : CS) es,
     notes (Comments.trace view ctrl emit o c0 es) = 0 ->
     sigs (Comments.trace view ctrl emit o c0 es) = Comments.mkSignals [] Core.idle None) /\
  (forall (CS : Type) (view : CS -> Waitlist.St) ctrl emit (c0 : CS) es,
     notes (Waitlist.trace view ctrl emit c0 es) = 0 ->
     sigs (Waitlist.trace view ctrl emit c0 es) = Waitlist.mkSignals Core.idle None None None) /\
  (forall (CS : Type) (view : CS -> Views.St) ctrl emit o (c0 : CS) es,
     notes (Views.trace view ctrl emit o c0 es) = 0 ->
     sigs (Views.trace view ctrl emit o c0 es) = Views.mkSignals 0%Z 0%Z Core.idle None) /\
  (forall (CS : Type) (view : CS -> Feedback.St) ctrl emit (c0 : CS) es,
     notes (Feedback.trace view ctrl emit c0 es) = 0 ->
     sigs (Feedback.trace view ctrl emit c0 es) = Feedback.mkSignals Core.idle None None) /\
  (forall (CS : Type) (view : CS -> Poll.St) ctrl emit o (c0 : CS) es,
     notes (Poll.trace view ctrl emit o c0 es) = 0 ->
     sigs (Poll.trace view ctrl emit o c0 es) = Poll.mkSignals None Core.idle None) /\
  (forall (CS : Type) (view : CS -> Announcements.St) ctrl emit gv o (c0 : CS) es,
     notes (Announcements.trace view ctrl emit gv o c0 es) = 0 ->
     sigs (Announcements.trace view ctrl emit gv o c0 es) = Announcements.mkSignals [] Core.idle None).
Proof.
  repeat match goal with |- (forall _, _) /\ _ => split end.
  - intros; unfold Subscribe.trace in *; erewrite reachable_quiet;
      [reflexivity | eapply wired_nowrite; apply subscribe_wired
      | intro; apply plain_nowrite, subscribe_plain | eassumption].
  - intros; unfold Form.trace in *; erewrite reachable_quiet;
      [reflexivity | eapply wired_nowrite; apply form_wired
      | intro; apply plain_nowrite, form_plain | eassumption].
  - intros; unfold Reactions.trace in *; erewrite reachable_quiet;
      [reflexivity | eapply wired_nowrite; apply reactions_wired
      | intro; apply plain_nowrite, reactions_plain | eassumption].
  - intros; unfold Comments.trace in *; erewrite reachable_quiet;
      [reflexivity | eapply wired_nowrite; apply comments_wired
      | intro; apply plain_nowrite, comments_plain | eassumption].
  - intros; unfold Waitlist.trace in *; erewrite reachable_quiet;
      [reflexivity | eapply wired_nowrite; apply waitlist_wired
      | intro; apply plain_nowrite, waitlist_plain | eassumption].
  - intros; unfold Views.trace in *; erewrite reachable_quiet;
      [reflexivity | eapply wired_nowrite; apply views_wired
      | intro; apply plain_nowrite, views_plain | eassumption].
  - intros; unfold Feedback.trace in *; erewrite reachable_quiet;
      [reflexivity | eapply wired_nowrite; apply feedback_wired
      | intro; apply plain_nowrite, feedback_plain | eassumption].
  - intros; unfold Poll.trace in *; erewrite reachable_quiet;
      [reflexivity | eapply wired_nowrite; apply poll_wired
      | intro; apply plain_nowrite, poll_plain | eassumption].
  - intros; unfold Announcements.trace in *; erewrite reachable_quiet;
      [reflexivity | eapply wired_nowrite; apply announcements_wired
      | intro; apply plain_nowrite, announcements_plain | eassumption].
Qed.

(** Witness of C8: the effect has run, no notification has been sent. *)
Lemma C8_witness :
  (notes (Subscribe.trace (fun s : Subscribe.St => s) Examples.silent false Examples.subscribe_st [ERun]) = 0 /\
   sigs (Subscribe.trace (fun s : Subscribe.St => s) Examples.silent false Examples.subscribe_st [ERun]) = Subscribe.mkSignals Core.idle None None) /\
  (notes (Form.trace (fun s : Form.St => s) Examples.silent false Examples.form_st [ERun]) = 0 /\
   sigs (Form.trace (fun s : Form.St => s) Examples.silent false Examples.form_st [ERun]) = Form.mkSignals Core.idle None None) /\
  (notes (Reactions.trace (fun s : Reactions.St => s) Examples.silent false (Reactions.mkOptions "my-post" None) Examples.reactions_st [ERun]) = 0 /\
   sigs (Reactions.trace (fun s : Reactions.St => s) Examples.silent false (Reactions.mkOptions "my-post" None) Examples.reactions_st [ERun]) = Reactions.mkSignals [] [] Core.idle None) /\
  (notes (Comments.trace (fun s : Comments.St => s) Examples.silent false (Comments.mkOptions "my-post" None) Examples.comments_st [ERun]) = 0 /\
   sigs (Comments.trace (fun s : Comments.St => s) Examples.silent false (Comments.mkOptions "my-post" None) Examples.comments_st [ERun]) = Comments.mkSignals [] Core.idle None) /\
  (notes (Waitlist.trace (fun s : Waitlist.St => s) Examples.silent false Examples.waitlist_st [ERun]) = 0 /\
   sigs (Waitlist.trace (fun s : Waitlist.St => s) Examples.silent false Examples.waitlist_st [ERun]) = Waitlist.mkSignals Core.idle None None None) /\
  (notes (Views.trace (fun s : Views.St => s) Examples.silent false (Views.mkOptions "/blog/my-post" None) Examples.views_st [ERun]) = 0 /\
   sigs (Views.trace (fun s : Views.St => s) Examples.silent false (Views.mkOptions "/blog/my-post" None) Examples.views_st [ERun]) = Views.mkSignals 0%Z 0%Z Core.idle None) /\
  (notes (Feedback.trace (fun s : Feedback.St => s) Examples.silent false Examples.feedback_st [ERun]) = 0 /\
   sigs (Feedback.trace (fun s : Feedback.St => s) Examples.silent false Examples.feedback_st [ERun]) = Feedback.mkSignals Core.idle None None) /\
  (notes (Poll.trace (fun s : Poll.St => s) Examples.silent false (Poll.mkOptions "favorite-framework" None) Examples.poll_st [ERun]) = 0 /\
   sigs (Poll.trace (fun s : Poll.St => s) Examples.silent false (Poll.mkOptions "favorite-framework" None) Examples.poll_st [ERun]) = Poll.mkSignals None Core.idle None) /\
  (notes (Announcements.trace Examples.dismiss_view Examples.silent false Examples.visible (Announcements.mkOptions None) Examples.ann_c [ERun]) = 0 /\
   sigs (Announcements.trace Examples.dismiss_view Examples.silent false Examples.visible (Announcements.mkOptions None) Examples.ann_c [ERun]) = Announcements.mkSignals [] Core.idle None).
Proof.
  destruct C8_defaults_before_first_notification as (T1 & T2 & T3 & T4 & T5 & T6 & T7 & T8 & T9).
  repeat match goal with |- (_ /\ _) /\ _ => split end.
  - assert (H : notes (Subscribe.trace (fun s : Subscribe.St => s) Examples.silent false Examples.subscribe_st [ERun]) = 0) by (vm_compute; reflexivity).
    split; [exact H | exact (T1 Subscribe.St (fun s : Subscribe.St => s) Examples.silent false Examples.subscribe_st [ERun] H)].
  - assert (H : notes (Form.trace (fun s : Form.St => s) Examples.silent false Examples.form_st [ERun]) = 0) by (vm_compute; reflexivity).
    split; [exact H | exact (T2 Form.St (fun s : Form.St => s) Examples.silent false Examples.form_st [ERun] H)].
  - assert (H : notes (Reactions.trace (fun s : Reactions.St => s) Examples.silent false (Reactions.mkOptions "my-post" None) Examples.reactions_st [ERun]) = 0) by (vm_compute; reflexivity).
    split; [exact H | exact (T3 Reactions.St (fun s : Reactions.St => s) Examples.silent false (Reactions.mkOptions "my-post" None) Examples.reactions_st [ERun] H)].
  - assert (H : notes (Comments.trace (fun s : Comments.St => s) Examples.silent false (Comments.mkOptions "my-post" None) Examples.comments_st [ERun]) = 0) by (vm_compute; reflexivity).
    split; [exact H | exact (T4 Comments.St (fun s : Comments.St => s) Examples.silent false (Comments.mkOptions "my-post" None) Examples.comments_st [ERun] H)].
  - assert (H : notes (Waitlist.trace (fun s : Waitlist.St => s) Examples.silent false Examples.waitlist_st [ERun]) = 0) by (vm_compute; reflexivity).
    split; [exact H | exact (T5 Waitlist.St (fun s : Waitlist.St => s) Examples.silent false Examples.waitlist_st [ERun] H)].
  - assert (H : notes (Views.trace (fun s : Views.St => s) Examples.silent false (Views.mkOptions "/blog/my-post" None) Examples.views_st [ERun]) = 0) by (vm_compute; reflexivity).
    split; [exact H | exact (T6 Views.St (fun s : Views.St => s) Examples.silent false (Views.mkOptions "/blog/my-post" None) Examples.views_st [ERun] H)].
  - assert (H : notes (Feedback.trace (fun s : Feedback.St => s) Examples.silent false Examples.feedback_st [ERun]) = 0) by (vm_compute; reflexivity).
    split; [exact H | exact (T7 Feedback.St (fun s : Feedback.St => s) Examples.silent false Examples.feedback_st [ERun] H)].
  - assert (H : notes (Poll.trace (fun s : Poll.St => s) Examples.silent false (Poll.mkOptions "favorite-framework" None) Examples.poll_st [ERun]) = 0) by (vm_compute; reflexivity).
    split; [exact H | exact (T8 Poll.St (fun s : Poll.St => s) Examples.silent false (Poll.mkOptions "favorite-framework" None) Examples.poll_st [ERun] H)].
  - assert (H : notes (Announcements.trace Examples.dismiss_view Examples.silent false Examples.visible (Announcements.mkOptions None) Examples.ann_c [ERun]) = 0) by (vm_compute; reflexivity).
    split; [exact H | exact (T9 Examples.DismissState Examples.dismiss_view Examples.silent false Examples.visible (Announcements.mkOptions None) Examples.ann_c [ERun] H)].
Defined.

(** C9: in the auto-triggering primitives the effect subscribes before it
    issues the initial [fetch] (or [record]); when that call notifies states,
    the signals after the effect run hold the last of them (as the callback
    reads it). *)
Theorem C9_mount_call_observed :
  (forall (CS : Type) (view : CS -> Reactions.St) ctrl emit o (c0 : CS) es (d : CS),
     not_false (Reactions.autoFetch o) = true ->
     fst (ctrl (mkCall "fetch" []) (ctl (Reactions.trace view ctrl emit o c0 es))) <> [] ->
     sigs (Reactions.trace view ctrl emit o c0 (es ++ [ERun])) =
     SpecAccessors.reactions (view (last (fst (ctrl (mkCall "fetch" []) (ctl (Reactions.trace view ctrl emit o c0 es)))) d))) /\
  (forall (CS : Type) (view : CS -> Comments.St) ctrl emit o (c0 : CS) es (d : CS),
     not_false (Comments.autoFetch o) = true ->
     fst (ctrl (mkCall "fetch" []) (ctl (Comments.trace view ctrl emit o c0 es))) <> [] ->
     sigs (Comments.trace view ctrl emit o c0 (es ++ [ERun])) =
     SpecAccessors.comments (view (last (fst (ctrl (mkCall "fetch" []) (ctl (Comments.trace view ctrl emit o c0 es)))) d))) /\
  (forall (CS : Type) (view : CS -> Views.St) ctrl emit o (c0 : CS) es (d : CS),
     not_false (Views.autoRecord o) = true ->
     fst (ctrl (mkCall "record" []) (ctl (Views.trace view ctrl emit o c0 es))) <> [] ->
     sigs (Views.trace view ctrl emit o c0 (es ++ [ERun])) =
     SpecAccessors.views (view (last (fst (ctrl (mkCall "record" []) (ctl (Views.trace view ctrl emit o c0 es)))) d))) /\
  (forall (CS : Type) (view : CS -> Poll.St) ctrl emit o (c0 : CS) es (d : CS),
     not_false (Poll.autoFetch o) = true ->
     fst (ctrl (mkCall "fetch" []) (ctl (Poll.trace view ctrl emit o c0 es))) <> [] ->
     sigs (Poll.trace view ctrl emit o c0 (es ++ [ERun])) =
     SpecAccessors.poll (view (last (fst (ctrl (mkCall "fetch" []) (ctl (Poll.trace view ctrl emit o c0 es)))) d))) /\
  (forall (CS : Type) (view : CS -> Announcements.St) ctrl emit gv o (c0 : CS) es (d : CS),
     not_false (Announcements.autoFetch o) = true ->
     fst (ctrl (mkCall "fetch" []) (ctl (Announcements.trace view ctrl emit gv o c0 es))) <> [] ->
     sigs (Announcements.trace view ctrl emit gv o c0 (es ++ [ERun])) =
     SpecAccessors.announcements_visible gv (last (fst (ctrl (mkCall "fetch" []) (ctl (Announcements.trace view ctrl emit gv o c0 es)))) d) (view (last (fst (ctrl (mkCall "fetch" []) (ctl (Announcements.trace view ctrl emit gv o c0 es)))) d))).
Proof.
  repeat match goal with |- (forall _, _) /\ _ => split end.
  - intros CS view ctrl emit o c0 es d Hb Hne. unfold Reactions.trace in *.
    eapply reachable_mount_call with (F := (fun _ st => SpecAccessors.reactions st));
      [apply reactions_wired | apply reactions_plain | unfold Reactions.effect; rewrite Hb; reflexivity
      | reflexivity | exact Hne].
  - intros CS view ctrl emit o c0 es d Hb Hne. unfold Comments.trace in *.
    eapply reachable_mount_call with (F := (fun _ st => SpecAccessors.comments st));
      [apply comments_wired | apply comments_plain | unfold Comments.effect; rewrite Hb; reflexivity
      | reflexivity | exact Hne].
  - intros CS view ctrl emit o c0 es d Hb Hne. unfold Views.trace in *.
    eapply reachable_mount_call with (F := (fun _ st => SpecAccessors.views st));
      [apply views_wired | apply views_plain | unfold Views.effect; rewrite Hb; reflexivity
      | reflexivity | exact Hne].
  - intros CS view ctrl emit o c0 es d Hb Hne. unfold Poll.trace in *.
    eapply reachable_mount_call with (F := (fun _ st => SpecAccessors.poll st));
      [apply poll_wired | apply poll_plain | unfold Poll.effect; rewrite Hb; reflexivity
      | reflexivity | exact Hne].
  - intros CS view ctrl emit gv o c0 es d Hb Hne. unfold Announcements.trace in *.
    eapply reachable_mount_call with (F := (fun c st => SpecAccessors.announcements_visible gv c st));
      [apply announcements_wired | apply announcements_plain | unfold Announcements.effect; rewrite Hb; reflexivity
      | reflexivity | exact Hne].
Qed.

(** Witness of C9: a controller whose initial call notifies one state. *)
Lemma C9_witness :
  (not_false (Reactions.autoFetch (Reactions.mkOptions "my-post" None)) = true /\
   fst (Examples.loads Examples.reactions_st (mkCall "fetch" []) (ctl (Reactions.trace (fun s : Reactions.St => s) (Examples.loads Examples.reactions_st) false (Reactions.mkOptions "my-post" None) Examples.reactions_st []))) <> [] /\
   sigs (Reactions.trace (fun s : Reactions.St => s) (Examples.loads Examples.reactions_st) false (Reactions.mkOptions "my-post" None) Examples.reactions_st ([] ++ [ERun])) =
   SpecAccessors.reactions ((fun s : Reactions.St => s) (last (fst (Examples.loads Examples.reactions_st (mkCall "fetch" []) (ctl (Reactions.trace (fun s : Reactions.St => s) (Examples.loads Examples.reactions_st) false (Reactions.mkOptions "my-post" None) Examples.reactions_st [])))) Examples.reactions_st))) /\
  (not_false (Comments.autoFetch (Comments.mkOptions "my-post" None)) = true /\
   fst (Examples.loads Examples.comments_st (mkCall "fetch" []) (ctl (Comments.trace (fun s : Comments.St => s) (Examples.loads Examples.comments_st) false (Comments.mkOptions "my-post" None) Examples.comments_st []))) <> [] /\
   sigs (Comments.trace (fun s : Comments.St => s) (Examples.loads Examples.comments_st) false (Comments.mkOptions "my-post" None) Examples.comments_st ([] ++ [ERun])) =
   SpecAccessors.comments ((fun s : Comments.St => s) (last (fst (Examples.loads Examples.comments_st (mkCall "fetch" []) (ctl (Comments.trace (fun s : Comments.St => s) (Examples.loads Examples.comments_st) false (Comments.mkOptions "my-post" None) Examples.comments_st [])))) Examples.comments_st))) /\
  (not_false (Views.autoRecord (Views.mkOptions "/blog/my-post" None)) = true /\
   fst (Examples.loads Examples.views_st (mkCall "record" []) (ctl (Views.trace (fun s : Views.St => s) (Examples.loads Examples.views_st) false (Views.mkOptions "/blog/my-post" None) Examples.views_st []))) <> [] /\
   sigs (Views.trace (fun s : Views.St => s) (Examples.loads Examples.views_st) false (Views.mkOptions "/blog/my-post" None) Examples.views_st ([] ++ [ERun])) =
   SpecAccessors.views ((fun s : Views.St => s) (last (fst (Examples.loads Examples.views_st (mkCall "record" []) (ctl (Views.trace (fun s : Views.St => s) (Examples.loads Examples.views_st) false (Views.mkOptions "/blog/my-post" None) Examples.views_st [])))) Examples.views_st))) /\
  (not_false (Poll.autoFetch (Poll.mkOptions "favorite-framework" None)) = true /\
   fst (Examples.loads Examples.poll_st (mkCall "fetch" []) (ctl (Poll.trace (fun s : Poll.St => s) (Examples.loads Examples.poll_st) false (Poll.mkOptions "favorite-framework" None) Examples.poll_st []))) <> [] /\
   sigs (Poll.trace (fun s : Poll.St => s) (Examples.loads Examples.poll_st) false (Poll.mkOptions "favorite-framework" None) Examples.poll_st ([] ++ [ERun])) =
   SpecAccessors.poll ((fun s : Poll.St => s) (last (fst (Examples.loads Examples.poll_st (mkCall "fetch" []) (ctl (Poll.trace (fun s : Poll.St => s) (Examples.loads Examples.poll_st) false (Poll.mkOptions "favorite-framework" None) Examples.poll_st [])))) Examples.poll_st))) /\
  (not_false (Announcements.autoFetch (Announcements.mkOptions None)) = true /\
   fst (Examples.loads Examples.ann_c (mkCall "fetch" []) (ctl (Announcements.trace Examples.dismiss_view (Examples.loads Examples.ann_c) false Examples.visible (Announcements.mkOptions None) Examples.ann_c []))) <> [] /\
   sigs (Announcements.trace Examples.dismiss_view (Examples.loads Examples.ann_c) false Examples.visible (Announcements.mkOptions None) Examples.ann_c ([] ++ [ERun])) =
   SpecAccessors.announcements_visible Examples.visible (last (fst (Examples.loads Examples.ann_c (mkCall "fetch" []) (ctl (Announcements.trace Examples.dismiss_view (Examples.loads Examples.ann_c) false Examples.visible (Announcements.mkOptions None) Examples.ann_c [])))) Examples.ann_c) (Examples.dismiss_view (last (fst (Examples.loads Examples.ann_c (mkCall "fetch" []) (ctl (Announcements.trace Examples.dismiss_view (Examples.loads Examples.ann_c) false Examples.visible (Announcements.mkOptions None) Examples.ann_c [])))) Examples.ann_c))).
Proof.
  destruct C9_mount_call_observed as (T1 & T2 & T3 & T4 & T5).
  repeat match goal with |- (_ /\ _) /\ _ => split end.
  - assert (H1 : not_false (Reactions.autoFetch (Reactions.mkOptions "my-post" None)) = true) by reflexivity.
    assert (H2 : fst (Examples.loads Examples.reactions_st (mkCall "fetch" []) (ctl (Reactions.trace (fun s : Reactions.St => s) (Examples.loads Examples.reactions_st) false (Reactions.mkOptions "my-post" None) Examples.reactions_st []))) <> []) by (vm_compute; discriminate).
    split; [exact H1 | split; [exact H2 | exact (T1 Reactions.St (fun s : Reactions.St => s) (Examples.loads Examples.reactions_st) false (Reactions.mkOptions "my-post" None) Examples.reactions_st [] Examples.reactions_st H1 H2)]].
  - assert (H1 : not_false (Comments.autoFetch (Comments.mkOptions "my-post" None)) = true) by reflexivity.
    assert (H2 : fst (Examples.loads Examples.comments_st (mkCall "fetch" []) (ctl (Comments.trace (fun s : Comments.St => s) (Examples.loads Examples.comments_st) false (Comments.mkOptions "my-post" None) Examples.comments_st []))) <> []) by (vm_compute; discriminate).
    split; [exact H1 | split; [exact H2 | exact (T2 Comments.St (fun s : Comments.St => s) (Examples.loads Examples.comments_st) false (Comments.mkOptions "my-post" None) Examples.comments_st [] Examples.comments_st H1 H2)]].
  - assert (H1 : not_false (Views.autoRecord (Views.mkOptions "/blog/my-post" None)) = true) by reflexivity.
    assert (H2 : fst (Examples.loads Examples.views_st (mkCall "record" []) (ctl (Views.trace (fun s : Views.St => s) (Examples.loads Examples.views_st) false (Views.mkOptions "/blog/my-post" None) Examples.views_st []))) <> []) by (vm_compute; discriminate).
    split; [exact H1 | split; [exact H2 | exact (T3 Views.St (fun s : Views.St => s) (Examples.loads Examples.views_st) false (Views.mkOptions "/blog/my-post" None) Examples.views_st [] Examples.views_st H1 H2)]].
  - assert (H1 : not_false (Poll.autoFetch (Poll.mkOptions "favorite-framework" None)) = true) by reflexivity.
    assert (H2 : fst (Examples.loads Examples.poll_st (mkCall "fetch" []) (ctl (Poll.trace (fun s : Poll.St => s) (Examples.loads Examples.poll_st) false (Poll.mkOptions "favorite-framework" None) Examples.poll_st []))) <> []) by (vm_compute; discriminate).
    split; [exact H1 | split; [exact H2 | exact (T4 Poll.St (fun s : Poll.St => s) (Examples.loads Examples.poll_st) false (Poll.mkOptions "favorite-framework" None) Examples.poll_st [] Examples.poll_st H1 H2)]].
  - assert (H1 : not_false (Announcements.autoFetch (Announcements.mkOptions None)) = true) by reflexivity.
    assert (H2 : fst (Examples.loads Examples.ann_c (mkCall "fetch" []) (ctl (Announcements.trace Examples.dismiss_view (Examples.loads Examples.ann_c) false Examples.visible (Announcements.mkOptions None) Examples.ann_c []))) <> []) by (vm_compute; discriminate).
    split; [exact H1 | split; [exact H2 | exact (T5 Examples.DismissState Examples.dismiss_view (Examples.loads Examples.ann_c) false Examples.visible (Announcements.mkOptions None) Examples.ann_c [] Examples.ann_c H1 H2)]].
Defined.

(** C10: the action methods never write a signal (a run of an action that
    delivers no notification leaves the signals as they were), and the
    signals of a primitive only ever hold their initial values or a value
    written by its subscription callback. *)
Theorem C10_signals_written_by_callback_only :
  (forall (CS : Type) (view : CS -> Subscribe.St) ctrl emit
     (w : @World CS Subscribe.St Subscribe.Signals) (a : Subscribe.Action),
     notes (fst (run view ctrl emit w (Subscribe.act a))) = notes w ->
     sigs (fst (run view ctrl emit w (Subscribe.act a))) = sigs w) /\
  (forall (CS : Type) (view : CS -> Subscribe.St) ctrl emit (c0 : CS) es,
     sigs (Subscribe.trace view ctrl emit c0 es) = Subscribe.init \/
     exists (c : CS) st s, sigs (Subscribe.trace view ctrl emit c0 es) = Subscribe.listener c st s) /\
  (forall (CS : Type) (view : CS -> Form.St) ctrl emit
     (w : @World CS Form.St Form.Signals) (a : Form.Action),
     notes (fst (run view ctrl emit w (Form.act a))) = notes w ->
     sigs (fst (run view ctrl emit w (Form.act a))) = sigs w) /\
  (forall (CS : Type) (view : CS -> Form.St) ctrl emit (c0 : CS) es,
     sigs (Form.trace view ctrl emit c0 es) = Form.init \/
     exists (c : CS) st s, sigs (Form.trace view ctrl emit c0 es) = Form.listener c st s) /\
  (forall (CS : Type) (view : CS -> Reactions.St) ctrl emit
     (w : @World CS Reactions.St Reactions.Signals) (a : Reactions.Action),
     notes (fst (run view ctrl emit w (Reactions.act a))) = notes w ->
     sigs (fst (run view ctrl emit w (Reactions.act a))) = sigs w) /\
  (forall (CS : Type) (view : CS -> Reactions.St) ctrl emit o (c0 : CS) es,
     sigs (Reactions.trace view ctrl emit o c0 es) = Reactions.init \/
     exists (c : CS) st s, sigs (Reactions.trace view ctrl emit o c0 es) = Reactions.listener c st s) /\
  (forall (CS : Type) (view : CS -> Comments.St) ctrl emit
     (w : @World CS Comments.St Comments.Signals) (a : Comments.Action),
     notes (fst (run view ctrl emit w (Comments.act a))) = notes w ->
     sigs (fst (run view ctrl emit w (Comments.act a))) = sigs w) /\
  (forall (CS : Type) (view : CS -> Comments.St) ctrl emit o (c0 : CS) es,
     sigs (Comments.trace view ctrl emit o c0 es) = Comments.init \/
     exists (c : CS) st s, sigs (Comments.trace view ctrl emit o c0 es) = Comments.listener c st s) /\
  (forall (CS : Type) (view : CS -> Waitlist.St) ctrl emit
     (w : @World CS Waitlist.St Waitlist.Signals) (a : Waitlist.Action),
     notes (fst (run view ctrl emit w (Waitlist.act a))) = notes w ->
     sigs (fst (run view ctrl emit w (Waitlist.act a))) = sigs w) /\
  (forall (CS : Type) (view : CS -> Waitlist.St) ctrl emit (c0 : CS) es,
     sigs (Waitlist.trace view ctrl emit c0 es) = Waitlist.init \/
     exists (c : CS) st s, sigs (Waitlist.trace view ctrl emit c0 es) = Waitlist.listener c st s) /\
  (forall (CS : Type) (view : CS -> Views.St) ctrl emit
     (w : @World CS Views.St Views.Signals) (a : Views.Action),
     notes (fst (run view ctrl emit w (Views.act a))) = notes w ->
     sigs (fst (run view ctrl emit w (Views.act a))) = sigs w) /\
  (forall (CS : Type) (view : CS -> Views.St) ctrl emit o (c0 : CS) es,
     sigs (Views.trace view ctrl emit o c0 es) = Views.init \/
     exists (c : CS) st s, sigs (Views.trace view ctrl emit o c0 es) = Views.listener c st s) /\
  (forall (CS : Type) (view : CS -> Feedback.St) ctrl emit
     (w : @World CS Feedback.St Feedback.Signals) (a : Feedback.Action),
     notes (fst (run view ctrl emit w (Feedback.act a))) = notes w ->
     sigs (fst (run view ctrl emit w (Feedback.act a))) = sigs w) /\
  (forall (CS : Type) (view : CS -> Feedback.St) ctrl emit (c0 : CS) es,
     sigs (Feedback.trace view ctrl emit c0 es) = Feedback.init \/
     exists (c : CS) st s, sigs (Feedback.trace view ctrl emit c0 es) = Feedback.listener c st s) /\
  (forall (CS : Type) (view : CS -> Poll.St) ctrl emit
     (w : @World CS Poll.St Poll.Signals) (a : Poll.Action),
     notes (fst (run view ctrl emit w (Poll.act a))) = notes w ->
     sigs (fst (run view ctrl emit w (Poll.act a))) = sigs w) /\
  (forall (CS : Type) (view : CS -> Poll.St) ctrl emit o (c0 : CS) es,
     sigs (Poll.trace view ctrl emit o c0 es) = Poll.init \/
     exists (c : CS) st s, sigs (Poll.trace view ctrl emit o c0 es) = Poll.listener c st s) /\
  (forall (CS : Type) (view : CS -> Announcements.St) ctrl emit
     (w : @World CS Announcements.St Announcements.Signals) (a : Announcements.Action),
     notes (fst (run view ctrl emit w (Announcements.act a))) = notes w ->
     sigs (fst (run view ctrl emit w (Announcements.act a))) = sigs w) /\
  (forall (CS : Type) (view : CS -> Announcements.St) ctrl emit gv o (c0 : CS) es,
     sigs (Announcements.trace view ctrl emit gv o c0 es) = Announcements.init \/
     exists (c : CS) st s, sigs (Announcements.trace view ctrl emit gv o c0 es) = (Announcements.listener gv) c st s).
Proof.
  repeat match goal with |- _ /\ _ => split end.
  - intros CS view ctrl emit w a Hn.
    destruct (run_nowrite view ctrl emit (Subscribe.act a) (plain_nowrite _ (subscribe_plain a)) w)
      as [_ G].
    exact (G Hn).
  - intros CS view ctrl emit c0 es. unfold Subscribe.trace.
    apply reachable_preserves with (L := Subscribe.listener)
      (P := fun s => s = Subscribe.init \/ exists c st s', s = Subscribe.listener c st s').
    + intros c st s. right. exists c, st, s. reflexivity.
    + eapply wired_listens_only; apply subscribe_wired.
    + intro a. apply plain_listens_only, subscribe_plain.
    + left. reflexivity.
  - intros CS view ctrl emit w a Hn.
    destruct (run_nowrite view ctrl emit (Form.act a) (plain_nowrite _ (form_plain a)) w)
      as [_ G].
    exact (G Hn).
  - intros CS view ctrl emit c0 es. unfold Form.trace.
    apply reachable_preserves with (L := Form.listener)
      (P := fun s => s = Form.init \/ exists c st s', s = Form.listener c st s').
    + intros c st s. right. exists c, st, s. reflexivity.
    + eapply wired_listens_only; apply form_wired.
    + intro a. apply plain_listens_only, form_plain.
    + left. reflexivity.
  - intros CS view ctrl emit w a Hn.
    destruct (run_nowrite view ctrl emit (Reactions.act a) (plain_nowrite _ (reactions_plain a)) w)
      as [_ G].
    exact (G Hn).
  - intros CS view ctrl emit o c0 es. unfold Reactions.trace.
    apply reachable_preserves with (L := Reactions.listener)
      (P := fun s => s = Reactions.init \/ exists c st s', s = Reactions.listener c st s').
    + intros c st s. right. exists c, st, s. reflexivity.
    + eapply wired_listens_only; apply reactions_wired.
    + intro a. apply plain_listens_only, reactions_plain.
    + left. reflexivity.
  - intros CS view ctrl emit w a Hn.
    destruct (run_nowrite view ctrl emit (Comments.act a) (plain_nowrite _ (comments_plain a)) w)
      as [_ G].
    exact (G Hn).
  - intros CS view ctrl emit o c0 es. unfold Comments.trace.
    apply reachable_preserves with (L := Comments.listener)
      (P := fun s => s = Comments.init \/ exists c st s', s = Comments.listener c st s').
    + intros c st s. right. exists c, st, s. reflexivity.
    + eapply wired_listens_only; apply comments_wired.
    + intro a. apply plain_listens_only, comments_plain.
    + left. reflexivity.
  - intros CS view ctrl emit w a Hn.
    destruct (run_nowrite view ctrl emit (Waitlist.act a) (plain_nowrite _ (waitlist_plain a)) w)
      as [_ G].
    exact (G Hn).
  - intros CS view ctrl emit c0 es. unfold Waitlist.trace.
    apply reachable_preserves with (L := Waitlist.listener)
      (P := fun s => s = Waitlist.init \/ exists c st s', s = Waitlist.listener c st s').
    + intros c st s. right. exists c, st, s. reflexivity.
    + eapply wired_listens_only; apply waitlist_wired.
    + intro a. apply plain_listens_only, waitlist_plain.
    + left. reflexivity.
  - intros CS view ctrl emit w a Hn.
    destruct (run_nowrite view ctrl emit (Views.act a) (plain_nowrite _ (views_plain a)) w)
      as [_ G].
    exact (G Hn).
  - intros CS view ctrl emit o c0 es. unfold Views.trace.
    apply reachable_preserves with (L := Views.listener)
      (P := fun s => s = Views.init \/ exists c st s', s = Views.listener c st s').
    + intros c st s. right. exists c, st, s. reflexivity.
    + eapply wired_listens_only; apply views_wired.
    + intro a. apply plain_listens_only, views_plain.
    + left. reflexivity.
  - intros CS view ctrl emit w a Hn.
    destruct (run_nowrite view ctrl emit (Feedback.act a) (plain_nowrite _ (feedback_plain a)) w)
      as [_ G].
    exact (G Hn).
  - intros CS view ctrl emit c0 es. unfold Feedback.trace.
    apply reachable_preserves with (L := Feedback.listener)
      (P := fun s => s = Feedback.init \/ exists c st s', s = Feedback.listener c st s').
    + intros c st s. right. exists c, st, s. reflexivity.
    + eapply wired_listens_only; apply feedback_wired.
    + intro a. apply plain_listens_only, feedback_plain.
    + left. reflexivity.
  - intros CS view ctrl emit w a Hn.
    destruct (run_nowrite view ctrl emit (Poll.act a) (plain_nowrite _ (poll_plain a)) w)
      as [_ G].
    exact (G Hn).
  - intros CS view ctrl emit o c0 es. unfold Poll.trace.
    apply reachable_preserves with (L := Poll.listener)
      (P := fun s => s = Poll.init \/ exists c st s', s = Poll.listener c st s').
    + intros c st s. right. exists c, st, s. reflexivity.
    + eapply wired_listens_only; apply poll_wired.
    + intro a. apply plain_listens_only, poll_plain.
    + left. reflexivity.
  - intros CS view ctrl emit w a Hn.
    destruct (run_nowrite view ctrl emit (Announcements.act a) (plain_nowrite _ (announcements_plain a)) w)
      as [_ G].
    exact (G Hn).
  - intros CS view ctrl emit gv o c0 es. unfold Announcements.trace.
    apply reachable_preserves with (L := (Announcements.listener gv))
      (P := fun s => s = Announcements.init \/ exists c st s', s = (Announcements.listener gv) c st s').
    + intros c st s. right. exists c, st, s. reflexivity.
    + eapply wired_listens_only; apply announcements_wired.
    + intro a. apply plain_listens_only, announcements_plain.
    + left. reflexivity.
Qed.

(** Witness of C10: an action whose controller call notifies nobody. *)
Lemma C10_witness :
  (notes (fst (run (fun s : Subscribe.St => s) Examples.silent false (Runtime.create Examples.subscribe_st Subscribe.init : @World Subscribe.St Subscribe.St Subscribe.Signals) (Subscribe.act (Subscribe.subscribe "reader@example.com")))) = notes (Runtime.create Examples.subscribe_st Subscribe.init : @World Subscribe.St Subscribe.St Subscribe.Signals) /\
   sigs (fst (run (fun s : Subscribe.St => s) Examples.silent false (Runtime.create Examples.subscribe_st Subscribe.init : @World Subscribe.St Subscribe.St Subscribe.Signals) (Subscribe.act (Subscribe.subscribe "reader@example.com")))) = sigs (Runtime.create Examples.subscribe_st Subscribe.init : @World Subscribe.St Subscribe.St Subscribe.Signals)) /\
  (notes (fst (run (fun s : Form.St => s) Examples.silent false (Runtime.create Examples.form_st Form.init : @World Form.St Form.St Form.Signals) (Form.act (Form.submit [("message", JStr "hi")])))) = notes (Runtime.create Examples.form_st Form.init : @World Form.St Form.St Form.Signals) /\
   sigs (fst (run (fun s : Form.St => s) Examples.silent false (Runtime.create Examples.form_st Form.init : @World Form.St Form.St Form.Signals) (Form.act (Form.submit [("message", JStr "hi")])))) = sigs (Runtime.create Examples.form_st Form.init : @World Form.St Form.St Form.Signals)) /\
  (notes (fst (run (fun s : Reactions.St => s) Examples.silent false (Runtime.create Examples.reactions_st Reactions.init : @World Reactions.St Reactions.St Reactions.Signals) (Reactions.act (Reactions.addReaction "like")))) = notes (Runtime.create Examples.reactions_st Reactions.init : @World Reactions.St Reactions.St Reactions.Signals) /\
   sigs (fst (run (fun s : Reactions.St => s) Examples.silent false (Runtime.create Examples.reactions_st Reactions.init : @World Reactions.St Reactions.St Reactions.Signals) (Reactions.act (Reactions.addReaction "like")))) = sigs (Runtime.create Examples.reactions_st Reactions.init : @World Reactions.St Reactions.St Reactions.Signals)) /\
  (notes (fst (run (fun s : Comments.St => s) Examples.silent false (Runtime.create Examples.comments_st Comments.init : @World Comments.St Comments.St Comments.Signals) (Comments.act (Comments.postComment "Ada" "Nice post" JUndef)))) = notes (Runtime.create Examples.comments_st Comments.init : @World Comments.St Comments.St Comments.Signals) /\
   sigs (fst (run (fun s : Comments.St => s) Examples.silent false (Runtime.create Examples.comments_st Comments.init : @World Comments.St Comments.St Comments.Signals) (Comments.act (Comments.postComment "Ada" "Nice post" JUndef)))) = sigs (Runtime.create Examples.comments_st Comments.init : @World Comments.St Comments.St Comments.Signals)) /\
  (notes (fst (run (fun s : Waitlist.St => s) Examples.silent false (Runtime.create Examples.waitlist_st Waitlist.init : @World Waitlist.St Waitlist.St Waitlist.Signals) (Waitlist.act (Waitlist.join "reader@example.com" JUndef)))) = notes (Runtime.create Examples.waitlist_st Waitlist.init : @World Waitlist.St Waitlist.St Waitlist.Signals) /\
   sigs (fst (run (fun s : Waitlist.St => s) Examples.silent false (Runtime.create Examples.waitlist_st Waitlist.init : @World Waitlist.St Waitlist.St Waitlist.Signals) (Waitlist.act (Waitlist.join "reader@example.com" JUndef)))) = sigs (Runtime.create Examples.waitlist_st Waitlist.init : @World Waitlist.St Waitlist.St Waitlist.Signals)) /\
  (notes (fst (run (fun s : Views.St => s) Examples.silent false (Runtime.create Examples.views_st Views.init : @World Views.St Views.St Views.Signals) (Views.act Views.record))) = notes (Runtime.create Examples.views_st Views.init : @World Views.St Views.St Views.Signals) /\
   sigs (fst (run (fun s : Views.St => s) Examples.silent false (Runtime.create Examples.views_st Views.init : @World Views.St Views.St Views.Signals) (Views.act Views.record))) = sigs (Runtime.create Examples.views_st Views.init : @World Views.St Views.St Views.Signals)) /\
  (notes (fst (run (fun s : Feedback.St => s) Examples.silent false (Runtime.create Examples.feedback_st Feedback.init : @World Feedback.St Feedback.St Feedback.Signals) (Feedback.act (Feedback.submit "bug" "It breaks" JUndef)))) = notes (Runtime.create Examples.feedback_st Feedback.init : @World Feedback.St Feedback.St Feedback.Signals) /\
   sigs (fst (run (fun s : Feedback.St => s) Examples.silent false (Runtime.create Examples.feedback_st Feedback.init : @World Feedback.St Feedback.St Feedback.Signals) (Feedback.act (Feedback.submit "bug" "It breaks" JUndef)))) = sigs (Runtime.create Examples.feedback_st Feedback.init : @World Feedback.St Feedback.St Feedback.Signals)) /\
  (notes (fst (run (fun s : Poll.St => s) Examples.silent false (Runtime.create Examples.poll_st Poll.init : @World Poll.St Poll.St Poll.Signals) (Poll.act (Poll.vote ["solid"])))) = notes (Runtime.create Examples.poll_st Poll.init : @World Poll.St Poll.St Poll.Signals) /\
   sigs (fst (run (fun s : Poll.St => s) Examples.silent false (Runtime.create Examples.poll_st Poll.init : @World Poll.St Poll.St Poll.Signals) (Poll.act (Poll.vote ["solid"])))) = sigs (Runtime.create Examples.poll_st Poll.init : @World Poll.St Poll.St Poll.Signals)) /\
  (notes (fst (run Examples.dismiss_view Examples.silent false (Runtime.create Examples.ann_c Announcements.init : @World Examples.DismissState Announcements.St Announcements.Signals) (Announcements.act (Announcements.dismiss 1%Z)))) = notes (Runtime.create Examples.ann_c Announcements.init : @World Examples.DismissState Announcements.St Announcements.Signals) /\
   sigs (fst (run Examples.dismiss_view Examples.silent false (Runtime.create Examples.ann_c Announcements.init : @World Examples.DismissState Announcements.St Announcements.Signals) (Announcements.act (Announcements.dismiss 1%Z)))) = sigs (Runtime.create Examples.ann_c Announcements.init : @World Examples.DismissState Announcements.St Announcements.Signals)).
Proof.
  repeat match goal with |- (_ /\ _) /\ _ => split end.
  - destruct C10_signals_written_by_callback_only as (T1 & _ & _ & _ & _ & _ & _ & _ & _ & _ & _ & _ & _ & _ & _ & _ & _ & _).
    assert (H : notes (fst (run (fun s : Subscribe.St => s) Examples.silent false (Runtime.create Examples.subscribe_st Subscribe.init : @World Subscribe.St Subscribe.St Subscribe.Signals) (Subscribe.act (Subscribe.subscribe "reader@example.com")))) = notes (Runtime.create Examples.subscribe_st Subscribe.init : @World Subscribe.St Subscribe.St Subscribe.Signals))
      by (vm_compute; reflexivity).
    split; [exact H | exact (T1 Subscribe.St (fun s : Subscribe.St => s) Examples.silent false (Runtime.create Examples.subscribe_st Subscribe.init : @World Subscribe.St Subscribe.St Subscribe.Signals) (Subscribe.subscribe "reader@example.com") H)].
  - destruct C10_signals_written_by_callback_only as (_ & _ & T2 & _ & _ & _ & _ & _ & _ & _ & _ & _ & _ & _ & _ & _ & _ & _).
    assert (H : notes (fst (run (fun s : Form.St => s) Examples.silent false (Runtime.create Examples.form_st Form.init : @World Form.St Form.St Form.Signals) (Form.act (Form.submit [("message", JStr "hi")])))) = notes (Runtime.create Examples.form_st Form.init : @World Form.St Form.St Form.Signals))
      by (vm_compute; reflexivity).
    split; [exact H | exact (T2 Form.St (fun s : Form.St => s) Examples.silent false (Runtime.create Examples.form_st Form.init : @World Form.St Form.St Form.Signals) (Form.submit [("message", JStr "hi")]) H)].
  - destruct C10_signals_written_by_callback_only as (_ & _ & _ & _ & T3 & _ & _ & _ & _ & _ & _ & _ & _ & _ & _ & _ & _ & _).
    assert (H : notes (fst (run (fun s : Reactions.St => s) Examples.silent false (Runtime.create Examples.reactions_st Reactions.init : @World Reactions.St Reactions.St Reactions.Signals) (Reactions.act (Reactions.addReaction "like")))) = notes (Runtime.create Examples.reactions_st Reactions.init : @World Reactions.St Reactions.St Reactions.Signals))
      by (vm_compute; reflexivity).
    split; [exact H | exact (T3 Reactions.St (fun s : Reactions.St => s) Examples.silent false (Runtime.create Examples.reactions_st Reactions.init : @World Reactions.St Reactions.St Reactions.Signals) (Reactions.addReaction "like") H)].
  - destruct C10_signals_written_by_callback_only as (_ & _ & _ & _ & _ & _ & T4 & _ & _ & _ & _ & _ & _ & _ & _ & _ & _ & _).
    assert (H : notes (fst (run (fun s : Comments.St => s) Examples.silent false (Runtime.create Examples.comments_st Comments.init : @World Comments.St Comments.St Comments.Signals) (Comments.act (Comments.postComment "Ada" "Nice post" JUndef)))) = notes (Runtime.create Examples.comments_st Comments.init : @World Comments.St Comments.St Comments.Signals))
      by (vm_compute; reflexivity).
    split; [exact H | exact (T4 Comments.St (fun s : Comments.St => s) Examples.silent false (Runtime.create Examples.comments_st Comments.init : @World Comments.St Comments.St Comments.Signals) (Comments.postComment "Ada" "Nice post" JUndef) H)].
  - destruct C10_signals_written_by_callback_only as (_ & _ & _ & _ & _ & _ & _ & _ & T5 & _ & _ & _ & _ & _ & _ & _ & _ & _).
    assert (H : notes (fst (run (fun s : Waitlist.St => s) Examples.silent false (Runtime.create Examples.waitlist_st Waitlist.init : @World Waitlist.St Waitlist.St Waitlist.Signals) (Waitlist.act (Waitlist.join "reader@example.com" JUndef)))) = notes (Runtime.create Examples.waitlist_st Waitlist.init : @World Waitlist.St Waitlist.St Waitlist.Signals))
      by (vm_compute; reflexivity).
    split; [exact H | exact (T5 Waitlist.St (fun s : Waitlist.St => s) Examples.silent false (Runtime.create Examples.waitlist_st Waitlist.init : @World Waitlist.St Waitlist.St Waitlist.Signals) (Waitlist.join "reader@example.com" JUndef) H)].
  - destruct C10_signals_written_by_callback_only as (_ & _ & _ & _ & _ & _ & _ & _ & _ & _ & T6 & _ & _ & _ & _ & _ & _ & _).
    assert (H : notes (fst (run (fun s : Views.St => s) Examples.silent false (Runtime.create Examples.views_st Views.init : @World Views.St Views.St Views.Signals) (Views.act Views.record))) = notes (Runtime.create Examples.views_st Views.init : @World Views.St Views.St Views.Signals))
      by (vm_compute; reflexivity).
    split; [exact H | exact (T6 Views.St (fun s : Views.St => s) Examples.silent false (Runtime.create Examples.views_st Views.init : @World Views.St Views.St Views.Signals) Views.record H)].
  - destruct C10_signals_written_by_callback_only as (_ & _ & _ & _ & _ & _ & _ & _ & _ & _ & _ & _ & T7 & _ & _ & _ & _ & _).
    assert (H : notes (fst (run (fun s : Feedback.St => s) Examples.silent false (Runtime.create Examples.feedback_st Feedback.init : @World Feedback.St Feedback.St Feedback.Signals) (Feedback.act (Feedback.submit "bug" "It breaks" JUndef)))) = notes (Runtime.create Examples.feedback_st Feedback.init : @World Feedback.St Feedback.St Feedback.Signals))
      by (vm_compute; reflexivity).
    split; [exact H | exact (T7 Feedback.St (fun s : Feedback.St => s) Examples.silent false (Runtime.create Examples.feedback_st Feedback.init : @World Feedback.St Feedback.St Feedback.Signals) (Feedback.submit "bug" "It breaks" JUndef) H)].
  - destruct C10_signals_written_by_callback_only as (_ & _ & _ & _ & _ & _ & _ & _ & _ & _ & _ & _ & _ & _ & T8 & _ & _ & _).
    assert (H : notes (fst (run (fun s : Poll.St => s) Examples.silent false (Runtime.create Examples.poll_st Poll.init : @World Poll.St Poll.St Poll.Signals) (Poll.act (Poll.vote ["solid"])))) = notes (Runtime.create Examples.poll_st Poll.init : @World Poll.St Poll.St Poll.Signals))
      by (vm_compute; reflexivity).
    split; [exact H | exact (T8 Poll.St (fun s : Poll.St => s) Examples.silent false (Runtime.create Examples.poll_st Poll.init : @World Poll.St Poll.St Poll.Signals) (Poll.vote ["solid"]) H)].
  - destruct C10_signals_written_by_callback_only as (_ & _ & _ & _ & _ & _ & _ & _ & _ & _ & _ & _ & _ & _ & _ & _ & T9 & _).
    assert (H : notes (fst (run Examples.dismiss_view Examples.silent false (Runtime.create Examples.ann_c Announcements.init : @World Examples.DismissState Announcements.St Announcements.Signals) (Announcements.act (Announcements.dismiss 1%Z)))) = notes (Runtime.create Examples.ann_c Announcements.init : @World Examples.DismissState Announcements.St Announcements.Signals))
      by (vm_compute; reflexivity).
    split; [exact H | exact (T9 Examples.DismissState Examples.dismiss_view Examples.silent false (Runtime.create Examples.ann_c Announcements.init : @World Examples.DismissState Announcements.St Announcements.Signals) (Announcements.dismiss 1%Z) H)].
Defined.

End Claims.

(** ** Further properties of the primitives *)
Module Extras.
Import Runtime Shapes RuntimeFacts Wiring MoreFacts.

(** X1: in every primitive but [createAnnouncements] (whose callback also
    calls [controller.getVisibleAnnouncements()] on each notification), the
    controller methods called are, in order, the initial [fetch] (or
    [record]) of each effect run when the option is not [false] (none for
    the primitives without one), and the one call of each action method
    invoked, whether or not the effect has run; disposal and controller
    notifications call nothing. *)
Theorem X1_call_log :
  (forall (CS : Type) (view : CS -> Subscribe.St) ctrl emit (c0 : CS) es,
     calls (Subscribe.trace view ctrl emit c0 es) =
     flat_map (CallLog.event_calls [] CallLog.subscribe_call) es) /\
  (forall (CS : Type) (view : CS -> Form.St) ctrl emit (c0 : CS) es,
     calls (Form.trace view ctrl emit c0 es) =
     flat_map (CallLog.event_calls [] CallLog.form_call) es) /\
  (forall (CS : Type) (view : CS -> Reactions.St) ctrl emit o (c0 : CS) es,
     calls (Reactions.trace view ctrl emit o c0 es) =
     flat_map (CallLog.event_calls (CallLog.mount (not_false (Reactions.autoFetch o)) (mkCall "fetch" [])) CallLog.reactions_call) es) /\
  (forall (CS : Type) (view : CS -> Comments.St) ctrl emit o (c0 : CS) es,
     calls (Comments.trace view ctrl emit o c0 es) =
     flat_map (CallLog.event_calls (CallLog.mount (not_false (Comments.autoFetch o)) (mkCall "fetch" [])) CallLog.comments_call) es) /\
  (forall (CS : Type) (view : CS -> Waitlist.St) ctrl emit (c0 : CS) es,
     calls (Waitlist.trace view ctrl emit c0 es) =
     flat_map (CallLog.event_calls [] CallLog.waitlist_call) es) /\
  (forall (CS : Type) (view : CS -> Views.St) ctrl emit o (c0 : CS) es,
     calls (Views.trace view ctrl emit o c0 es) =
     flat_map (CallLog.event_calls (CallLog.mount (not_false (Views.autoRecord o)) (mkCall "record" [])) CallLog.views_call) es) /\
  (forall (CS : Type) (view : CS -> Feedback.St) ctrl emit (c0 : CS) es,
     calls (Feedback.trace view ctrl emit c0 es) =
     flat_map (CallLog.event_calls [] CallLog.feedback_call) es) /\
  (forall (CS : Type) (view : CS -> Poll.St) ctrl emit o (c0 : CS) es,
     calls (Poll.trace view ctrl emit o c0 es) =
     flat_map (CallLog.event_calls (CallLog.mount (not_false (Poll.autoFetch o)) (mkCall "fetch" [])) CallLog.poll_call) es).
Proof.
  repeat match goal with |- _ /\ _ => split end.
  - intros CS view ctrl emit c0 es. unfold Subscribe.trace.
    rewrite (exec_calls view ctrl emit _ _ _ [] CallLog.subscribe_call); [reflexivity | |].
    + intro w; exact (effect_calls view ctrl emit Subscribe.listener false (mkCall "fetch" []) w).
    + intros a w; destruct a; cbn [Subscribe.act CallLog.subscribe_call];
        first [rewrite run_await_ret | rewrite run_call_ret | rewrite run_call_pass];
        apply call_ctl_calls.
  - intros CS view ctrl emit c0 es. unfold Form.trace.
    rewrite (exec_calls view ctrl emit _ _ _ [] CallLog.form_call); [reflexivity | |].
    + intro w; exact (effect_calls view ctrl emit Form.listener false (mkCall "fetch" []) w).
    + intros a w; destruct a; cbn [Form.act CallLog.form_call];
        first [rewrite run_await_ret | rewrite run_call_ret | rewrite run_call_pass];
        apply call_ctl_calls.
  - intros CS view ctrl emit o c0 es. unfold Reactions.trace.
    rewrite (exec_calls view ctrl emit _ _ _ (CallLog.mount (not_false (Reactions.autoFetch o)) (mkCall "fetch" [])) CallLog.reactions_call); [reflexivity | |].
    + intro w; apply effect_calls.
    + intros a w; destruct a; cbn [Reactions.act CallLog.reactions_call];
        first [rewrite run_await_ret | rewrite run_call_ret | rewrite run_call_pass];
        apply call_ctl_calls.
  - intros CS view ctrl emit o c0 es. unfold Comments.trace.
    rewrite (exec_calls view ctrl emit _ _ _ (CallLog.mount (not_false (Comments.autoFetch o)) (mkCall "fetch" [])) CallLog.comments_call); [reflexivity | |].
    + intro w; apply effect_calls.
    + intros a w; destruct a; cbn [Comments.act CallLog.comments_call];
        first [rewrite run_await_ret | rewrite run_call_ret | rewrite run_call_pass];
        apply call_ctl_calls.
  - intros CS view ctrl emit c0 es. unfold Waitlist.trace.
    rewrite (exec_calls view ctrl emit _ _ _ [] CallLog.waitlist_call); [reflexivity | |].
    + intro w; exact (effect_calls view ctrl emit Waitlist.listener false (mkCall "fetch" []) w).
    + intros a w; destruct a; cbn [Waitlist.act CallLog.waitlist_call];
        first [rewrite run_await_ret | rewrite run_call_ret | rewrite run_call_pass];
        apply call_ctl_calls.
  - intros CS view ctrl emit o c0 es. unfold Views.trace.
    rewrite (exec_calls view ctrl emit _ _ _ (CallLog.mount (not_false (Views.autoRecord o)) (mkCall "record" [])) CallLog.views_call); [reflexivity | |].
    + intro w; apply effect_calls.
    + intros a w; destruct a; cbn [Views.act CallLog.views_call];
        first [rewrite run_await_ret | rewrite run_call_ret | rewrite run_call_pass];
        apply call_ctl_calls.
  - intros CS view ctrl emit c0 es. unfold Feedback.trace.
    rewrite (exec_calls view ctrl emit _ _ _ [] CallLog.feedback_call); [reflexivity | |].
    + intro w; exact (effect_calls view ctrl emit Feedback.listener false (mkCall "fetch" []) w).
    + intros a w; destruct a; cbn [Feedback.act CallLog.feedback_call];
        first [rewrite run_await_ret | rewrite run_call_ret | rewrite run_call_pass];
        apply call_ctl_calls.
  - intros CS view ctrl emit o c0 es. unfold Poll.trace.
    rewrite (exec_calls view ctrl emit _ _ _ (CallLog.mount (not_false (Poll.autoFetch o)) (mkCall "fetch" [])) CallLog.poll_call); [reflexivity | |].
    + intro w; apply effect_calls.
    + intros a w; destruct a; cbn [Poll.act CallLog.poll_call];
        first [rewrite run_await_ret | rewrite run_call_ret | rewrite run_call_pass];
        apply call_ctl_calls.
Qed.

(** X2: when the effect (re-)runs and its initial call, if any, notifies no
    state, the signals keep the values they had: they are not reset to their
    initial values. Only a controller that calls a new listener at once
    (modelled by [emit]) changes them, to the fields of its current state. *)
Theorem X2_rerun_keeps_signals :
  (forall (CS : Type) (view : CS -> Subscribe.St) ctrl emit (c0 : CS) es,
     sigs (Subscribe.trace view ctrl emit c0 (es ++ [ERun])) =
     if emit then SpecAccessors.subscribe (view (ctl (Subscribe.trace view ctrl emit c0 es))) else sigs (Subscribe.trace view ctrl emit c0 es)) /\
  (forall (CS : Type) (view : CS -> Form.St) ctrl emit (c0 : CS) es,
     sigs (Form.trace view ctrl emit c0 (es ++ [ERun])) =
     if emit then SpecAccessors.form (view (ctl (Form.trace view ctrl emit c0 es))) else sigs (Form.trace view ctrl emit c0 es)) /\
  (forall (CS : Type) (view : CS -> Reactions.St) ctrl emit o (c0 : CS) es,
     (not_false (Reactions.autoFetch o) = true -> fst (ctrl (mkCall "fetch" []) (ctl (Reactions.trace view ctrl emit o c0 es))) = []) ->
     sigs (Reactions.trace view ctrl emit o c0 (es ++ [ERun])) =
     if emit then SpecAccessors.reactions (view (ctl (Reactions.trace view ctrl emit o c0 es))) else sigs (Reactions.trace view ctrl emit o c0 es)) /\
  (forall (CS : Type) (view : CS -> Comments.St) ctrl emit o (c0 : CS) es,
     (not_false (Comments.autoFetch o) = true -> fst (ctrl (mkCall "fetch" []) (ctl (Comments.trace view ctrl emit o c0 es))) = []) ->
     sigs (Comments.trace view ctrl emit o c0 (es ++ [ERun])) =
     if emit then SpecAccessors.comments (view (ctl (Comments.trace view ctrl emit o c0 es))) else sigs (Comments.trace view ctrl emit o c0 es)) /\
  (forall (CS : Type) (view : CS -> Waitlist.St) ctrl emit (c0 : CS) es,
     sigs (Waitlist.trace view ctrl emit c0 (es ++ [ERun])) =
     if emit then SpecAccessors.waitlist (view (ctl (Waitlist.trace view ctrl emit c0 es))) else sigs (Waitlist.trace view ctrl emit c0 es)) /\
  (forall (CS : Type) (view : CS -> Views.St) ctrl emit o (c0 : CS) es,
     (not_false (Views.autoRecord o) = true -> fst (ctrl (mkCall "record" []) (ctl (Views.trace view ctrl emit o c0 es))) = []) ->
     sigs (Views.trace view ctrl emit o c0 (es ++ [ERun])) =
     if emit then SpecAccessors.views (view (ctl (Views.trace view ctrl emit o c0 es))) else sigs (Views.trace view ctrl emit o c0 es)) /\
  (forall (CS : Type) (view : CS -> Feedback.St) ctrl emit (c0 : CS) es,
     sigs (Feedback.trace view ctrl emit c0 (es ++ [ERun])) =
     if emit then SpecAccessors.feedback (view (ctl (Feedback.trace view ctrl emit c0 es))) else sigs (Feedback.trace view ctrl emit c0 es)) /\
  (forall (CS : Type) (view : CS -> Poll.St) ctrl emit o (c0 : CS) es,
     (not_false (Poll.autoFetch o) = true -> fst (ctrl (mkCall "fetch" []) (ctl (Poll.trace view ctrl emit o c0 es))) = []) ->
     sigs (Poll.trace view ctrl emit o c0 (es ++ [ERun])) =
     if emit then SpecAccessors.poll (view (ctl (Poll.trace view ctrl emit o c0 es))) else sigs (Poll.trace view ctrl emit o c0 es)) /\
  (forall (CS : Type) (view : CS -> Announcements.St) ctrl emit gv o (c0 : CS) es,
     (not_false (Announcements.autoFetch o) = true -> fst (ctrl (mkCall "fetch" []) (ctl (Announcements.trace view ctrl emit gv o c0 es))) = []) ->
     sigs (Announcements.trace view ctrl emit gv o c0 (es ++ [ERun])) =
     if emit then SpecAccessors.announcements_visible gv (ctl (Announcements.trace view ctrl emit gv o c0 es)) (view (ctl (Announcements.trace view ctrl emit gv o c0 es))) else sigs (Announcements.trace view ctrl emit gv o c0 es)).
Proof.
  repeat match goal with |- _ /\ _ => split end.
  - intros CS view ctrl emit c0 es. unfold Subscribe.trace in *.
    apply reachable_mount_quiet with (L := Subscribe.listener) (F := (fun _ st => SpecAccessors.subscribe st))
      (b := false) (c := mkCall "fetch" []);
      [apply subscribe_wired | apply subscribe_plain | reflexivity | reflexivity | discriminate].
  - intros CS view ctrl emit c0 es. unfold Form.trace in *.
    apply reachable_mount_quiet with (L := Form.listener) (F := (fun _ st => SpecAccessors.form st))
      (b := false) (c := mkCall "fetch" []);
      [apply form_wired | apply form_plain | reflexivity | reflexivity | discriminate].
  - intros CS view ctrl emit o c0 es Hq. unfold Reactions.trace in *.
    apply reachable_mount_quiet with (L := Reactions.listener) (F := (fun _ st => SpecAccessors.reactions st))
      (b := not_false (Reactions.autoFetch o)) (c := mkCall "fetch" []);
      [apply reactions_wired | apply reactions_plain | reflexivity | reflexivity | exact Hq].
  - intros CS view ctrl emit o c0 es Hq. unfold Comments.trace in *.
    apply reachable_mount_quiet with (L := Comments.listener) (F := (fun _ st => SpecAccessors.comments st))
      (b := not_false (Comments.autoFetch o)) (c := mkCall "fetch" []);
      [apply comments_wired | apply comments_plain | reflexivity | reflexivity | exact Hq].
  - intros CS view ctrl emit c0 es. unfold Waitlist.trace in *.
    apply reachable_mount_quiet with (L := Waitlist.listener) (F := (fun _ st => SpecAccessors.waitlist st))
      (b := false) (c := mkCall "fetch" []);
      [apply waitlist_wired | apply waitlist_plain | reflexivity | reflexivity | discriminate].
  - intros CS view ctrl emit o c0 es Hq. unfold Views.trace in *.
    apply reachable_mount_quiet with (L := Views.listener) (F := (fun _ st => SpecAccessors.views st))
      (b := not_false (Views.autoRecord o)) (c := mkCall "record" []);
      [apply views_wired | apply views_plain | reflexivity | reflexivity | exact Hq].
  - intros CS view ctrl emit c0 es. unfold Feedback.trace in *.
    apply reachable_mount_quiet with (L := Feedback.listener) (F := (fun _ st => SpecAccessors.feedback st))
      (b := false) (c := mkCall "fetch" []);
      [apply feedback_wired | apply feedback_plain | reflexivity | reflexivity | discriminate].
  - intros CS view ctrl emit o c0 es Hq. unfold Poll.trace in *.
    apply reachable_mount_quiet with (L := Poll.listener) (F := (fun _ st => SpecAccessors.poll st))
      (b := not_false (Poll.autoFetch o)) (c := mkCall "fetch" []);
      [apply poll_wired | apply poll_plain | reflexivity | reflexivity | exact Hq].
  - intros CS view ctrl emit gv o c0 es Hq. unfold Announcements.trace in *.
    apply reachable_mount_quiet with (L := (Announcements.listener gv)) (F := (fun c st => SpecAccessors.announcements_visible gv c st))
      (b := not_false (Announcements.autoFetch o)) (c := mkCall "fetch" []);
      [apply announcements_wired | apply announcements_plain | reflexivity | reflexivity | exact Hq].
Qed.

(** Witness of X2: a second effect run whose [fetch] notifies nothing, with a
    controller that calls new listeners at once. *)
Lemma X2_witness :
  ((not_false (Reactions.autoFetch (Reactions.mkOptions "my-post" None)) = true -> fst (Examples.silent (mkCall "fetch" []) (ctl (Reactions.trace (fun s : Reactions.St => s) Examples.silent true (Reactions.mkOptions "my-post" None) Examples.reactions_st [ERun]))) = []) /\
   sigs (Reactions.trace (fun s : Reactions.St => s) Examples.silent true (Reactions.mkOptions "my-post" None) Examples.reactions_st ([ERun] ++ [ERun])) = SpecAccessors.reactions ((fun s : Reactions.St => s) (ctl (Reactions.trace (fun s : Reactions.St => s) Examples.silent true (Reactions.mkOptions "my-post" None) Examples.reactions_st [ERun])))) /\
  ((not_false (Comments.autoFetch (Comments.mkOptions "my-post" None)) = true -> fst (Examples.silent (mkCall "fetch" []) (ctl (Comments.trace (fun s : Comments.St => s) Examples.silent true (Comments.mkOptions "my-post" None) Examples.comments_st [ERun]))) = []) /\
   sigs (Comments.trace (fun s : Comments.St => s) Examples.silent true (Comments.mkOptions "my-post" None) Examples.comments_st ([ERun] ++ [ERun])) = SpecAccessors.comments ((fun s : Comments.St => s) (ctl (Comments.trace (fun s : Comments.St => s) Examples.silent true (Comments.mkOptions "my-post" None) Examples.comments_st [ERun])))) /\
  ((not_false (Views.autoRecord (Views.mkOptions "/blog/my-post" None)) = true -> fst (Examples.silent (mkCall "record" []) (ctl (Views.trace (fun s : Views.St => s) Examples.silent true (Views.mkOptions "/blog/my-post" None) Examples.views_st [ERun]))) = []) /\
   sigs (Views.trace (fun s : Views.St => s) Examples.silent true (Views.mkOptions "/blog/my-post" None) Examples.views_st ([ERun] ++ [ERun])) = SpecAccessors.views ((fun s : Views.St => s) (ctl (Views.trace (fun s : Views.St => s) Examples.silent true (Views.mkOptions "/blog/my-post" None) Examples.views_st [ERun])))) /\
  ((not_false (Poll.autoFetch (Poll.mkOptions "favorite-framework" None)) = true -> fst (Examples.silent (mkCall "fetch" []) (ctl (Poll.trace (fun s : Poll.St => s) Examples.silent true (Poll.mkOptions "favorite-framework" None) Examples.poll_st [ERun]))) = []) /\
   sigs (Poll.trace (fun s : Poll.St => s) Examples.silent true (Poll.mkOptions "favorite-framework" None) Examples.poll_st ([ERun] ++ [ERun])) = SpecAccessors.poll ((fun s : Poll.St => s) (ctl (Poll.trace (fun s : Poll.St => s) Examples.silent true (Poll.mkOptions "favorite-framework" None) Examples.poll_st [ERun])))) /\
  ((not_false (Announcements.autoFetch (Announcements.mkOptions None)) = true -> fst (Examples.silent (mkCall "fetch" []) (ctl (Announcements.trace Examples.dismiss_view Examples.silent true Examples.visible (Announcements.mkOptions None) Examples.ann_c [ERun]))) = []) /\
   sigs (Announcements.trace Examples.dismiss_view Examples.silent true Examples.visible (Announcements.mkOptions None) Examples.ann_c ([ERun] ++ [ERun])) = SpecAccessors.announcements_visible Examples.visible (ctl (Announcements.trace Examples.dismiss_view Examples.silent true Examples.visible (Announcements.mkOptions None) Examples.ann_c [ERun])) (Examples.dismiss_view (ctl (Announcements.trace Examples.dismiss_view Examples.silent true Examples.visible (Announcements.mkOptions None) Examples.ann_c [ERun])))).
Proof.
  repeat match goal with |- (_ /\ _) /\ _ => split end.
  - destruct X2_rerun_keeps_signals as (_ & _ & T3 & _ & _ & _ & _ & _ & _).
    assert (H : (not_false (Reactions.autoFetch (Reactions.mkOptions "my-post" None)) = true -> fst (Examples.silent (mkCall "fetch" []) (ctl (Reactions.trace (fun s : Reactions.St => s) Examples.silent true (Reactions.mkOptions "my-post" None) Examples.reactions_st [ERun]))) = [])) by (intros _; reflexivity).
    split; [exact H | exact (T3 Reactions.St (fun s : Reactions.St => s) Examples.silent true (Reactions.mkOptions "my-post" None) Examples.reactions_st [ERun] H)].
  - destruct X2_rerun_keeps_signals as (_ & _ & _ & T4 & _ & _ & _ & _ & _).
    assert (H : (not_false (Comments.autoFetch (Comments.mkOptions "my-post" None)) = true -> fst (Examples.silent (mkCall "fetch" []) (ctl (Comments.trace (fun s : Comments.St => s) Examples.silent true (Comments.mkOptions "my-post" None) Examples.comments_st [ERun]))) = [])) by (intros _; reflexivity).
    split; [exact H | exact (T4 Comments.St (fun s : Comments.St => s) Examples.silent true (Comments.mkOptions "my-post" None) Examples.comments_st [ERun] H)].
  - destruct X2_rerun_keeps_signals as (_ & _ & _ & _ & _ & T6 & _ & _ & _).
    assert (H : (not_false (Views.autoRecord (Views.mkOptions "/blog/my-post" None)) = true -> fst (Examples.silent (mkCall "record" []) (ctl (Views.trace (fun s : Views.St => s) Examples.silent true (Views.mkOptions "/blog/my-post" None) Examples.views_st [ERun]))) = [])) by (intros _; reflexivity).
    split; [exact H | exact (T6 Views.St (fun s : Views.St => s) Examples.silent true (Views.mkOptions "/blog/my-post" None) Examples.views_st [ERun] H)].
  - destruct X2_rerun_keeps_signals as (_ & _ & _ & _ & _ & _ & _ & T8 & _).
    assert (H : (not_false (Poll.autoFetch (Poll.mkOptions "favorite-framework" None)) = true -> fst (Examples.silent (mkCall "fetch" []) (ctl (Poll.trace (fun s : Poll.St => s) Examples.silent true (Poll.mkOptions "favorite-framework" None) Examples.poll_st [ERun]))) = [])) by (intros _; reflexivity).
    split; [exact H | exact (T8 Poll.St (fun s : Poll.St => s) Examples.silent true (Poll.mkOptions "favorite-framework" None) Examples.poll_st [ERun] H)].
  - destruct X2_rerun_keeps_signals as (_ & _ & _ & _ & _ & _ & _ & _ & T9).
    assert (H : (not_false (Announcements.autoFetch (Announcements.mkOptions None)) = true -> fst (Examples.silent (mkCall "fetch" []) (ctl (Announcements.trace Examples.dismiss_view Examples.silent true Examples.visible (Announcements.mkOptions None) Examples.ann_c [ERun]))) = [])) by (intros _; reflexivity).
    split; [exact H | exact (T9 Examples.DismissState Examples.dismiss_view Examples.silent true Examples.visible (Announcements.mkOptions None) Examples.ann_c [ERun] H)].
Defined.

(** X3: until the effect first runs, a primitive holds no subscription to
    its controller and its signals keep their initial values, whatever
    action methods are called and whatever the controller notifies. *)
Theorem X3_no_subscription_before_effect :
  (forall (CS : Type) (view : CS -> Subscribe.St) ctrl emit (c0 : CS) es,
     Forall (fun e => e <> ERun) es ->
     subs (Subscribe.trace view ctrl emit c0 es) = [] /\ sigs (Subscribe.trace view ctrl emit c0 es) = Subscribe.init) /\
  (forall (CS : Type) (view : CS -> Form.St) ctrl emit (c0 : CS) es,
     Forall (fun e => e <> ERun) es ->
     subs (Form.trace view ctrl emit c0 es) = [] /\ sigs (Form.trace view ctrl emit c0 es) = Form.init) /\
  (forall (CS : Type) (view : CS -> Reactions.St) ctrl emit o (c0 : CS) es,
     Forall (fun e => e <> ERun) es ->
     subs (Reactions.trace view ctrl emit o c0 es) = [] /\ sigs (Reactions.trace view ctrl emit o c0 es) = Reactions.init) /\
  (forall (CS : Type) (view : CS -> Comments.St) ctrl emit o (c0 : CS) es,
     Forall (fun e => e <> ERun) es ->
     subs (Comments.trace view ctrl emit o c0 es) = [] /\ sigs (Comments.trace view ctrl emit o c0 es) = Comments.init) /\
  (forall (CS : Type) (view : CS -> Waitlist.St) ctrl emit (c0 : CS) es,
     Forall (fun e => e <> ERun) es ->
     subs (Waitlist.trace view ctrl emit c0 es) = [] /\ sigs (Waitlist.trace view ctrl emit c0 es) = Waitlist.init) /\
  (forall (CS : Type) (view : CS -> Views.St) ctrl emit o (c0 : CS) es,
     Forall (fun e => e <> ERun) es ->
     subs (Views.trace view ctrl emit o c0 es) = [] /\ sigs (Views.trace view ctrl emit o c0 es) = Views.init) /\
  (forall (CS : Type) (view : CS -> Feedback.St) ctrl emit (c0 : CS) es,
     Forall (fun e => e <> ERun) es ->
     subs (Feedback.trace view ctrl emit c0 es) = [] /\ sigs (Feedback.trace view ctrl emit c0 es) = Feedback.init) /\
  (forall (CS : Type) (view : CS -> Poll.St) ctrl emit o (c0 : CS) es,
     Forall (fun e => e <> ERun) es ->
     subs (Poll.trace view ctrl emit o c0 es) = [] /\ sigs (Poll.trace view ctrl emit o c0 es) = Poll.init) /\
  (forall (CS : Type) (view : CS -> Announcements.St) ctrl emit gv o (c0 : CS) es,
     Forall (fun e => e <> ERun) es ->
     subs (Announcements.trace view ctrl emit gv o c0 es) = [] /\ sigs (Announcements.trace view ctrl emit gv o c0 es) = Announcements.init).
Proof.
  repeat match goal with |- _ /\ _ => split end.
  - intros CS view ctrl emit c0 es Hes. unfold Subscribe.trace.
    apply exec_unsubscribed; [apply subscribe_plain | reflexivity | reflexivity | exact Hes].
  - intros CS view ctrl emit c0 es Hes. unfold Form.trace.
    apply exec_unsubscribed; [apply form_plain | reflexivity | reflexivity | exact Hes].
  - intros CS view ctrl emit o c0 es Hes. unfold Reactions.trace.
    apply exec_unsubscribed; [apply reactions_plain | reflexivity | reflexivity | exact Hes].
  - intros CS view ctrl emit o c0 es Hes. unfold Comments.trace.
    apply exec_unsubscribed; [apply comments_plain | reflexivity | reflexivity | exact Hes].
  - intros CS view ctrl emit c0 es Hes. unfold Waitlist.trace.
    apply exec_unsubscribed; [apply waitlist_plain | reflexivity | reflexivity | exact Hes].
  - intros CS view ctrl emit o c0 es Hes. unfold Views.trace.
    apply exec_unsubscribed; [apply views_plain | reflexivity | reflexivity | exact Hes].
  - intros CS view ctrl emit c0 es Hes. unfold Feedback.trace.
    apply exec_unsubscribed; [apply feedback_plain | reflexivity | reflexivity | exact Hes].
  - intros CS view ctrl emit o c0 es Hes. unfold Poll.trace.
    apply exec_unsubscribed; [apply poll_plain | reflexivity | reflexivity | exact Hes].
  - intros CS view ctrl emit gv o c0 es Hes. unfold Announcements.trace.
    apply exec_unsubscribed; [apply announcements_plain | reflexivity | reflexivity | exact Hes].
Qed.

(** Witness of X3: an action call and a notification before the effect runs. *)
Lemma X3_witness :
  (Forall (fun e => e <> ERun) ([EAct Subscribe.reset; EPush [Examples.subscribe_st]] : list (Event Subscribe.Action)) /\
   subs (Subscribe.trace (fun s : Subscribe.St => s) (Examples.loads Examples.subscribe_st) false Examples.subscribe_st [EAct Subscribe.reset; EPush [Examples.subscribe_st]]) = [] /\
   sigs (Subscribe.trace (fun s : Subscribe.St => s) (Examples.loads Examples.subscribe_st) false Examples.subscribe_st [EAct Subscribe.reset; EPush [Examples.subscribe_st]]) = Subscribe.init) /\
  (Forall (fun e => e <> ERun) ([EAct Form.reset; EPush [Examples.form_st]] : list (Event Form.Action)) /\
   subs (Form.trace (fun s : Form.St => s) (Examples.loads Examples.form_st) false Examples.form_st [EAct Form.reset; EPush [Examples.form_st]]) = [] /\
   sigs (Form.trace (fun s : Form.St => s) (Examples.loads Examples.form_st) false Examples.form_st [EAct Form.reset; EPush [Examples.form_st]]) = Form.init) /\
  (Forall (fun e => e <> ERun) ([EAct Reactions.refresh; EPush [Examples.reactions_st]] : list (Event Reactions.Action)) /\
   subs (Reactions.trace (fun s : Reactions.St => s) (Examples.loads Examples.reactions_st) false (Reactions.mkOptions "my-post" None) Examples.reactions_st [EAct Reactions.refresh; EPush [Examples.reactions_st]]) = [] /\
   sigs (Reactions.trace (fun s : Reactions.St => s) (Examples.loads Examples.reactions_st) false (Reactions.mkOptions "my-post" None) Examples.reactions_st [EAct Reactions.refresh; EPush [Examples.reactions_st]]) = Reactions.init) /\
  (Forall (fun e => e <> ERun) ([EAct Comments.refresh; EPush [Examples.comments_st]] : list (Event Comments.Action)) /\
   subs (Comments.trace (fun s : Comments.St => s) (Examples.loads Examples.comments_st) false (Comments.mkOptions "my-post" None) Examples.comments_st [EAct Comments.refresh; EPush [Examples.comments_st]]) = [] /\
   sigs (Comments.trace (fun s : Comments.St => s) (Examples.loads Examples.comments_st) false (Comments.mkOptions "my-post" None) Examples.comments_st [EAct Comments.refresh; EPush [Examples.comments_st]]) = Comments.init) /\
  (Forall (fun e => e <> ERun) ([EAct Waitlist.reset; EPush [Examples.waitlist_st]] : list (Event Waitlist.Action)) /\
   subs (Waitlist.trace (fun s : Waitlist.St => s) (Examples.loads Examples.waitlist_st) false Examples.waitlist_st [EAct Waitlist.reset; EPush [Examples.waitlist_st]]) = [] /\
   sigs (Waitlist.trace (fun s : Waitlist.St => s) (Examples.loads Examples.waitlist_st) false Examples.waitlist_st [EAct Waitlist.reset; EPush [Examples.waitlist_st]]) = Waitlist.init) /\
  (Forall (fun e => e <> ERun) ([EAct Views.record; EPush [Examples.views_st]] : list (Event Views.Action)) /\
   subs (Views.trace (fun s : Views.St => s) (Examples.loads Examples.views_st) false (Views.mkOptions "/blog/my-post" None) Examples.views_st [EAct Views.record; EPush [Examples.views_st]]) = [] /\
   sigs (Views.trace (fun s : Views.St => s) (Examples.loads Examples.views_st) false (Views.mkOptions "/blog/my-post" None) Examples.views_st [EAct Views.record; EPush [Examples.views_st]]) = Views.init) /\
  (Forall (fun e => e <> ERun) ([EAct Feedback.reset; EPush [Examples.feedback_st]] : list (Event Feedback.Action)) /\
   subs (Feedback.trace (fun s : Feedback.St => s) (Examples.loads Examples.feedback_st) false Examples.feedback_st [EAct Feedback.reset; EPush [Examples.feedback_st]]) = [] /\
   sigs (Feedback.trace (fun s : Feedback.St => s) (Examples.loads Examples.feedback_st) false Examples.feedback_st [EAct Feedback.reset; EPush [Examples.feedback_st]]) = Feedback.init) /\
  (Forall (fun e => e <> ERun) ([EAct Poll.hasVoted; EPush [Examples.poll_st]] : list (Event Poll.Action)) /\
   subs (Poll.trace (fun s : Poll.St => s) (Examples.loads Examples.poll_st) false (Poll.mkOptions "favorite-framework" None) Examples.poll_st [EAct Poll.hasVoted; EPush [Examples.poll_st]]) = [] /\
   sigs (Poll.trace (fun s : Poll.St => s) (Examples.loads Examples.poll_st) false (Poll.mkOptions "favorite-framework" None) Examples.poll_st [EAct Poll.hasVoted; EPush [Examples.poll_st]]) = Poll.init) /\
  (Forall (fun e => e <> ERun) ([EAct Announcements.refresh; EPush [Examples.ann_c]] : list (Event Announcements.Action)) /\
   subs (Announcements.trace Examples.dismiss_view (Examples.loads Examples.ann_c) false Examples.visible (Announcements.mkOptions None) Examples.ann_c [EAct Announcements.refresh; EPush [Examples.ann_c]]) = [] /\
   sigs (Announcements.trace Examples.dismiss_view (Examples.loads Examples.ann_c) false Examples.visible (Announcements.mkOptions None) Examples.ann_c [EAct Announcements.refresh; EPush [Examples.ann_c]]) = Announcements.init).
Proof.
  repeat match goal with |- (_ /\ _) /\ _ => split end.
  - destruct X3_no_subscription_before_effect as (T1 & _ & _ & _ & _ & _ & _ & _ & _).
    assert (H : Forall (fun e => e <> ERun) ([EAct Subscribe.reset; EPush [Examples.subscribe_st]] : list (Event Subscribe.Action)))
      by (repeat (apply Forall_cons; [discriminate|]); apply Forall_nil).
    split; [exact H | exact (T1 Subscribe.St (fun s : Subscribe.St => s) (Examples.loads Examples.subscribe_st) false Examples.subscribe_st [EAct Subscribe.reset; EPush [Examples.subscribe_st]] H)].
  - destruct X3_no_subscription_before_effect as (_ & T2 & _ & _ & _ & _ & _ & _ & _).
    assert (H : Forall (fun e => e <> ERun) ([EAct Form.reset; EPush [Examples.form_st]] : list (Event Form.Action)))
      by (repeat (apply Forall_cons; [discriminate|]); apply Forall_nil).
    split; [exact H | exact (T2 Form.St (fun s : Form.St => s) (Examples.loads Examples.form_st) false Examples.form_st [EAct Form.reset; EPush [Examples.form_st]] H)].
  - destruct X3_no_subscription_before_effect as (_ & _ & T3 & _ & _ & _ & _ & _ & _).
    assert (H : Forall (fun e => e <> ERun) ([EAct Reactions.refresh; EPush [Examples.reactions_st]] : list (Event Reactions.Action)))
      by (repeat (apply Forall_cons; [discriminate|]); apply Forall_nil).
    split; [exact H | exact (T3 Reactions.St (fun s : Reactions.St => s) (Examples.loads Examples.reactions_st) false (Reactions.mkOptions "my-post" None) Examples.reactions_st [EAct Reactions.refresh; EPush [Examples.reactions_st]] H)].
  - destruct X3_no_subscription_before_effect as (_ & _ & _ & T4 & _ & _ & _ & _ & _).
    assert (H : Forall (fun e => e <> ERun) ([EAct Comments.refresh; EPush [Examples.comments_st]] : list (Event Comments.Action)))
      by (repeat (apply Forall_cons; [discriminate|]); apply Forall_nil).
    split; [exact H | exact (T4 Comments.St (fun s : Comments.St => s) (Examples.loads Examples.comments_st) false (Comments.mkOptions "my-post" None) Examples.comments_st [EAct Comments.refresh; EPush [Examples.comments_st]] H)].
  - destruct X3_no_subscription_before_effect as (_ & _ & _ & _ & T5 & _ & _ & _ & _).
    assert (H : Forall (fun e => e <> ERun) ([EAct Waitlist.reset; EPush [Examples.waitlist_st]] : list (Event Waitlist.Action)))
      by (repeat (apply Forall_cons; [discriminate|]); apply Forall_nil).
    split; [exact H | exact (T5 Waitlist.St (fun s : Waitlist.St => s) (Examples.loads Examples.waitlist_st) false Examples.waitlist_st [EAct Waitlist.reset; EPush [Examples.waitlist_st]] H)].
  - destruct X3_no_subscription_before_effect as (_ & _ & _ & _ & _ & T6 & _ & _ & _).
    assert (H : Forall (fun e => e <> ERun) ([EAct Views.record; EPush [Examples.views_st]] : list (Event Views.Action)))
      by (repeat (apply Forall_cons; [discriminate|]); apply Forall_nil).
    split; [exact H | exact (T6 Views.St (fun s : Views.St => s) (Examples.loads Examples.views_st) false (Views.mkOptions "/blog/my-post" None) Examples.views_st [EAct Views.record; EPush [Examples.views_st]] H)].
  - destruct X3_no_subscription_before_effect as (_ & _ & _ & _ & _ & _ & T7 & _ & _).
    assert (H : Forall (fun e => e <> ERun) ([EAct Feedback.reset; EPush [Examples.feedback_st]] : list (Event Feedback.Action)))
      by (repeat (apply Forall_cons; [discriminate|]); apply Forall_nil).
    split; [exact H | exact (T7 Feedback.St (fun s : Feedback.St => s) (Examples.loads Examples.feedback_st) false Examples.feedback_st [EAct Feedback.reset; EPush [Examples.feedback_st]] H)].
  - destruct X3_no_subscription_before_effect as (_ & _ & _ & _ & _ & _ & _ & T8 & _).
    assert (H : Forall (fun e => e <> ERun) ([EAct Poll.hasVoted; EPush [Examples.poll_st]] : list (Event Poll.Action)))
      by (repeat (apply Forall_cons; [discriminate|]); apply Forall_nil).
    split; [exact H | exact (T8 Poll.St (fun s : Poll.St => s) (Examples.loads Examples.poll_st) false (Poll.mkOptions "favorite-framework" None) Examples.poll_st [EAct Poll.hasVoted; EPush [Examples.poll_st]] H)].
  - destruct X3_no_subscription_before_effect as (_ & _ & _ & _ & _ & _ & _ & _ & T9).
    assert (H : Forall (fun e => e <> ERun) ([EAct Announcements.refresh; EPush [Examples.ann_c]] : list (Event Announcements.Action)))
      by (repeat (apply Forall_cons; [discriminate|]); apply Forall_nil).
    split; [exact H | exact (T9 Examples.DismissState Examples.dismiss_view (Examples.loads Examples.ann_c) false Examples.visible (Announcements.mkOptions None) Examples.ann_c [EAct Announcements.refresh; EPush [Examples.ann_c]] H)].
Defined.


Lemma subscribe_act_call (CS : Type) (view : CS -> Subscribe.St) ctrl emit (a : Subscribe.Action)
  (w : @World CS Subscribe.St Subscribe.Signals) :
  fst (run view ctrl emit w (Subscribe.act a)) = fst (call_ctl view ctrl (CallLog.subscribe_call a) w).
Proof.
  destruct a; cbn [Subscribe.act CallLog.subscribe_call];
    first [rewrite run_await_ret | rewrite run_call_ret | rewrite run_call_pass]; reflexivity.
Qed.

Lemma form_act_call (CS : Type) (view : CS -> Form.St) ctrl emit (a : Form.Action)
  (w : @World CS Form.St Form.Signals) :
  fst (run view ctrl emit w (Form.act a)) = fst (call_ctl view ctrl (CallLog.form_call a) w).
Proof.
  destruct a; cbn [Form.act CallLog.form_call];
    first [rewrite run_await_ret | rewrite run_call_ret | rewrite run_call_pass]; reflexivity.
Qed.

Lemma reactions_act_call (CS : Type) (view : CS -> Reactions.St) ctrl emit (a : Reactions.Action)
  (w : @World CS Reactions.St Reactions.Signals) :
  fst (run view ctrl emit w (Reactions.act a)) = fst (call_ctl view ctrl (CallLog.reactions_call a) w).
Proof.
  destruct a; cbn [Reactions.act CallLog.reactions_call];
    first [rewrite run_await_ret | rewrite run_call_ret | rewrite run_call_pass]; reflexivity.
Qed.

Lemma comments_act_call (CS : Type) (view : CS -> Comments.St) ctrl emit (a : Comments.Action)
  (w : @World CS Comments.St Comments.Signals) :
  fst (run view ctrl emit w (Comments.act a)) = fst (call_ctl view ctrl (CallLog.comments_call a) w).
Proof.
  destruct a; cbn [Comments.act CallLog.comments_call];
    first [rewrite run_await_ret | rewrite run_call_ret | rewrite run_call_pass]; reflexivity.
Qed.

Lemma waitlist_act_call (CS : Type) (view : CS -> Waitlist.St) ctrl emit (a : Waitlist.Action)
  (w : @World CS Waitlist.St Waitlist.Signals) :
  fst (run view ctrl emit w (Waitlist.act a)) = fst (call_ctl view ctrl (CallLog.waitlist_call a) w).
Proof.
  destruct a; cbn [Waitlist.act CallLog.waitlist_call];
    first [rewrite run_await_ret | rewrite run_call_ret | rewrite run_call_pass]; reflexivity.
Qed.

Lemma views_act_call (CS : Type) (view : CS -> Views.St) ctrl emit (a : Views.Action)
  (w : @World CS Views.St Views.Signals) :
  fst (run view ctrl emit w (Views.act a)) = fst (call_ctl view ctrl (CallLog.views_call a) w).
Proof.
  destruct a; cbn [Views.act CallLog.views_call];
    first [rewrite run_await_ret | rewrite run_call_ret | rewrite run_call_pass]; reflexivity.
Qed.

Lemma feedback_act_call (CS : Type) (view : CS -> Feedback.St) ctrl emit (a : Feedback.Action)
  (w : @World CS Feedback.St Feedback.Signals) :
  fst (run view ctrl emit w (Feedback.act a)) = fst (call_ctl view ctrl (CallLog.feedback_call a) w).
Proof.
  destruct a; cbn [Feedback.act CallLog.feedback_call];
    first [rewrite run_await_ret | rewrite run_call_ret | rewrite run_call_pass]; reflexivity.
Qed.

Lemma poll_act_call (CS : Type) (view : CS -> Poll.St) ctrl emit (a : Poll.Action)
  (w : @World CS Poll.St Poll.Signals) :
  fst (run view ctrl emit w (Poll.act a)) = fst (call_ctl view ctrl (CallLog.poll_call a) w).
Proof.
  destruct a; cbn [Poll.act CallLog.poll_call];
    first [rewrite run_await_ret | rewrite run_call_ret | rewrite run_call_pass]; reflexivity.
Qed.

Lemma announcements_act_call (CS : Type) (view : CS -> Announcements.St) ctrl emit (a : Announcements.Action)
  (w : @World CS Announcements.St Announcements.Signals) :
  fst (run view ctrl emit w (Announcements.act a)) = fst (call_ctl view ctrl (CallLog.announcements_call a) w).
Proof.
  destruct a; cbn [Announcements.act CallLog.announcements_call];
    first [rewrite run_await_ret | rewrite run_call_ret | rewrite run_call_pass]; reflexivity.
Qed.

(** X4: when an action method is called while the primitive is subscribed
    and the controller call it makes notifies states (for example [loading]
    then [success]), the signals afterwards hold the fields of the last of
    them, as the subscription callback reads them. *)
Theorem X4_action_notifications_reach_signals :
  (forall (CS : Type) (view : CS -> Subscribe.St) ctrl emit (c0 : CS) es
     (a : Subscribe.Action) (d : CS),
     subs (Subscribe.trace view ctrl emit c0 es) <> [] -> fst (ctrl (CallLog.subscribe_call a) (ctl (Subscribe.trace view ctrl emit c0 es))) <> [] ->
     sigs (Subscribe.trace view ctrl emit c0 (es ++ [EAct a])) =
     SpecAccessors.subscribe (view (last (fst (ctrl (CallLog.subscribe_call a) (ctl (Subscribe.trace view ctrl emit c0 es)))) d))) /\
  (forall (CS : Type) (view : CS -> Form.St) ctrl emit (c0 : CS) es
     (a : Form.Action) (d : CS),
     subs (Form.trace view ctrl emit c0 es) <> [] -> fst (ctrl (CallLog.form_call a) (ctl (Form.trace view ctrl emit c0 es))) <> [] ->
     sigs (Form.trace view ctrl emit c0 (es ++ [EAct a])) =
     SpecAccessors.form (view (last (fst (ctrl (CallLog.form_call a) (ctl (Form.trace view ctrl emit c0 es)))) d))) /\
  (forall (CS : Type) (view : CS -> Reactions.St) ctrl emit o (c0 : CS) es
     (a : Reactions.Action) (d : CS),
     subs (Reactions.trace view ctrl emit o c0 es) <> [] -> fst (ctrl (CallLog.reactions_call a) (ctl (Reactions.trace view ctrl emit o c0 es))) <> [] ->
     sigs (Reactions.trace view ctrl emit o c0 (es ++ [EAct a])) =
     SpecAccessors.reactions (view (last (fst (ctrl (CallLog.reactions_call a) (ctl (Reactions.trace view ctrl emit o c0 es)))) d))) /\
  (forall (CS : Type) (view : CS -> Comments.St) ctrl emit o (c0 : CS) es
     (a : Comments.Action) (d : CS),
     subs (Comments.trace view ctrl emit o c0 es) <> [] -> fst (ctrl (CallLog.comments_call a) (ctl (Comments.trace view ctrl emit o c0 es))) <> [] ->
     sigs (Comments.trace view ctrl emit o c0 (es ++ [EAct a])) =
     SpecAccessors.comments (view (last (fst (ctrl (CallLog.comments_call a) (ctl (Comments.trace view ctrl emit o c0 es)))) d))) /\
  (forall (CS : Type) (view : CS -> Waitlist.St) ctrl emit (c0 : CS) es
     (a : Waitlist.Action) (d : CS),
     subs (Waitlist.trace view ctrl emit c0 es) <> [] -> fst (ctrl (CallLog.waitlist_call a) (ctl (Waitlist.trace view ctrl emit c0 es))) <> [] ->
     sigs (Waitlist.trace view ctrl emit c0 (es ++ [EAct a])) =
     SpecAccessors.waitlist (view (last (fst (ctrl (CallLog.waitlist_call a) (ctl (Waitlist.trace view ctrl emit c0 es)))) d))) /\
  (forall (CS : Type) (view : CS -> Views.St) ctrl emit o (c0 : CS) es
     (a : Views.Action) (d : CS),
     subs (Views.trace view ctrl emit o c0 es) <> [] -> fst (ctrl (CallLog.views_call a) (ctl (Views.trace view ctrl emit o c0 es))) <> [] ->
     sigs (Views.trace view ctrl emit o c0 (es ++ [EAct a])) =
     SpecAccessors.views (view (last (fst (ctrl (CallLog.views_call a) (ctl (Views.trace view ctrl emit o c0 es)))) d))) /\
  (forall (CS : Type) (view : CS -> Feedback.St) ctrl emit (c0 : CS) es
     (a : Feedback.Action) (d : CS),
     subs (Feedback.trace view ctrl emit c0 es) <> [] -> fst (ctrl (CallLog.feedback_call a) (ctl (Feedback.trace view ctrl emit c0 es))) <> [] ->
     sigs (Feedback.trace view ctrl emit c0 (es ++ [EAct a])) =
     SpecAccessors.feedback (view (last (fst (ctrl (CallLog.feedback_call a) (ctl (Feedback.trace view ctrl emit c0 es)))) d))) /\
  (forall (CS : Type) (view : CS -> Poll.St) ctrl emit o (c0 : CS) es
     (a : Poll.Action) (d : CS),
     subs (Poll.trace view ctrl emit o c0 es) <> [] -> fst (ctrl (CallLog.poll_call a) (ctl (Poll.trace view ctrl emit o c0 es))) <> [] ->
     sigs (Poll.trace view ctrl emit o c0 (es ++ [EAct a])) =
     SpecAccessors.poll (view (last (fst (ctrl (CallLog.poll_call a) (ctl (Poll.trace view ctrl emit o c0 es)))) d))) /\
  (forall (CS : Type) (view : CS -> Announcements.St) ctrl emit gv o (c0 : CS) es
     (a : Announcements.Action) (d : CS),
     subs (Announcements.trace view ctrl emit gv o c0 es) <> [] -> fst (ctrl (CallLog.announcements_call a) (ctl (Announcements.trace view ctrl emit gv o c0 es))) <> [] ->
     sigs (Announcements.trace view ctrl emit gv o c0 (es ++ [EAct a])) =
     SpecAccessors.announcements_visible gv (last (fst (ctrl (CallLog.announcements_call a) (ctl (Announcements.trace view ctrl emit gv o c0 es)))) d) (view (last (fst (ctrl (CallLog.announcements_call a) (ctl (Announcements.trace view ctrl emit gv o c0 es)))) d))).
Proof.
  repeat match goal with |- _ /\ _ => split end.
  - intros CS view ctrl emit c0 es a d Hs Hne. unfold Subscribe.trace in *.
    apply reachable_act with (L := Subscribe.listener) (F := (fun _ st => SpecAccessors.subscribe st));
      [apply subscribe_wired | apply subscribe_plain | reflexivity | intro w; apply subscribe_act_call
      | exact Hs | exact Hne].
  - intros CS view ctrl emit c0 es a d Hs Hne. unfold Form.trace in *.
    apply reachable_act with (L := Form.listener) (F := (fun _ st => SpecAccessors.form st));
      [apply form_wired | apply form_plain | reflexivity | intro w; apply form_act_call
      | exact Hs | exact Hne].
  - intros CS view ctrl emit o c0 es a d Hs Hne. unfold Reactions.trace in *.
    apply reachable_act with (L := Reactions.listener) (F := (fun _ st => SpecAccessors.reactions st));
      [apply reactions_wired | apply reactions_plain | reflexivity | intro w; apply reactions_act_call
      | exact Hs | exact Hne].
  - intros CS view ctrl emit o c0 es a d Hs Hne. unfold Comments.trace in *.
    apply reachable_act with (L := Comments.listener) (F := (fun _ st => SpecAccessors.comments st));
      [apply comments_wired | apply comments_plain | reflexivity | intro w; apply comments_act_call
      | exact Hs | exact Hne].
  - intros CS view ctrl emit c0 es a d Hs Hne. unfold Waitlist.trace in *.
    apply reachable_act with (L := Waitlist.listener) (F := (fun _ st => SpecAccessors.waitlist st));
      [apply waitlist_wired | apply waitlist_plain | reflexivity | intro w; apply waitlist_act_call
      | exact Hs | exact Hne].
  - intros CS view ctrl emit o c0 es a d Hs Hne. unfold Views.trace in *.
    apply reachable_act with (L := Views.listener) (F := (fun _ st => SpecAccessors.views st));
      [apply views_wired | apply views_plain | reflexivity | intro w; apply views_act_call
      | exact Hs | exact Hne].
  - intros CS view ctrl emit c0 es a d Hs Hne. unfold Feedback.trace in *.
    apply reachable_act with (L := Feedback.listener) (F := (fun _ st => SpecAccessors.feedback st));
      [apply feedback_wired | apply feedback_plain | reflexivity | intro w; apply feedback_act_call
      | exact Hs | exact Hne].
  - intros CS view ctrl emit o c0 es a d Hs Hne. unfold Poll.trace in *.
    apply reachable_act with (L := Poll.listener) (F := (fun _ st => SpecAccessors.poll st));
      [apply poll_wired | apply poll_plain | reflexivity | intro w; apply poll_act_call
      | exact Hs | exact Hne].
  - intros CS view ctrl emit gv o c0 es a d Hs Hne. unfold Announcements.trace in *.
    apply reachable_act with (L := (Announcements.listener gv)) (F := (fun c st => SpecAccessors.announcements_visible gv c st));
      [apply announcements_wired | apply announcements_plain | reflexivity | intro w; apply announcements_act_call
      | exact Hs | exact Hne].
Qed.

(** Witness of X4: a controller that notifies one state on every call. *)
Lemma X4_witness :
  (subs (Subscribe.trace (fun s : Subscribe.St => s) (Examples.busy Examples.subscribe_st) false Examples.subscribe_st [ERun]) <> [] /\ fst (Examples.busy Examples.subscribe_st (CallLog.subscribe_call (Subscribe.subscribe "reader@example.com")) (ctl (Subscribe.trace (fun s : Subscribe.St => s) (Examples.busy Examples.subscribe_st) false Examples.subscribe_st [ERun]))) <> [] /\
   sigs (Subscribe.trace (fun s : Subscribe.St => s) (Examples.busy Examples.subscribe_st) false Examples.subscribe_st ([ERun] ++ [EAct (Subscribe.subscribe "reader@example.com")])) =
   SpecAccessors.subscribe ((fun s : Subscribe.St => s) (last (fst (Examples.busy Examples.subscribe_st (CallLog.subscribe_call (Subscribe.subscribe "reader@example.com")) (ctl (Subscribe.trace (fun s : Subscribe.St => s) (Examples.busy Examples.subscribe_st) false Examples.subscribe_st [ERun])))) Examples.subscribe_st))) /\
  (subs (Form.trace (fun s : Form.St => s) (Examples.busy Examples.form_st) false Examples.form_st [ERun]) <> [] /\ fst (Examples.busy Examples.form_st (CallLog.form_call (Form.submit [("message", JStr "hi")])) (ctl (Form.trace (fun s : Form.St => s) (Examples.busy Examples.form_st) false Examples.form_st [ERun]))) <> [] /\
   sigs (Form.trace (fun s : Form.St => s) (Examples.busy Examples.form_st) false Examples.form_st ([ERun] ++ [EAct (Form.submit [("message", JStr "hi")])])) =
   SpecAccessors.form ((fun s : Form.St => s) (last (fst (Examples.busy Examples.form_st (CallLog.form_call (Form.submit [("message", JStr "hi")])) (ctl (Form.trace (fun s : Form.St => s) (Examples.busy Examples.form_st) false Examples.form_st [ERun])))) Examples.form_st))) /\
  (subs (Reactions.trace (fun s : Reactions.St => s) (Examples.busy Examples.reactions_st) false (Reactions.mkOptions "my-post" None) Examples.reactions_st [ERun]) <> [] /\ fst (Examples.busy Examples.reactions_st (CallLog.reactions_call (Reactions.addReaction "like")) (ctl (Reactions.trace (fun s : Reactions.St => s) (Examples.busy Examples.reactions_st) false (Reactions.mkOptions "my-post" None) Examples.reactions_st [ERun]))) <> [] /\
   sigs (Reactions.trace (fun s : Reactions.St => s) (Examples.busy Examples.reactions_st) false (Reactions.mkOptions "my-post" None) Examples.reactions_st ([ERun] ++ [EAct (Reactions.addReaction "like")])) =
   SpecAccessors.reactions ((fun s : Reactions.St => s) (last (fst (Examples.busy Examples.reactions_st (CallLog.reactions_call (Reactions.addReaction "like")) (ctl (Reactions.trace (fun s : Reactions.St => s) (Examples.busy Examples.reactions_st) false (Reactions.mkOptions "my-post" None) Examples.reactions_st [ERun])))) Examples.reactions_st))) /\
  (subs (Comments.trace (fun s : Comments.St => s) (Examples.busy Examples.comments_st) false (Comments.mkOptions "my-post" None) Examples.comments_st [ERun]) <> [] /\ fst (Examples.busy Examples.comments_st (CallLog.comments_call (Comments.postComment "Ada" "Nice post" JUndef)) (ctl (Comments.trace (fun s : Comments.St => s) (Examples.busy Examples.comments_st) false (Comments.mkOptions "my-post" None) Examples.comments_st [ERun]))) <> [] /\
   sigs (Comments.trace (fun s : Comments.St => s) (Examples.busy Examples.comments_st) false (Comments.mkOptions "my-post" None) Examples.comments_st ([ERun] ++ [EAct (Comments.postComment "Ada" "Nice post" JUndef)])) =
   SpecAccessors.comments ((fun s : Comments.St => s) (last (fst (Examples.busy Examples.comments_st (CallLog.comments_call (Comments.postComment "Ada" "Nice post" JUndef)) (ctl (Comments.trace (fun s : Comments.St => s) (Examples.busy Examples.comments_st) false (Comments.mkOptions "my-post" None) Examples.comments_st [ERun])))) Examples.comments_st))) /\
  (subs (Waitlist.trace (fun s : Waitlist.St => s) (Examples.busy Examples.waitlist_st) false Examples.waitlist_st [ERun]) <> [] /\ fst (Examples.busy Examples.waitlist_st (CallLog.waitlist_call (Waitlist.join "reader@example.com" JUndef)) (ctl (Waitlist.trace (fun s : Waitlist.St => s) (Examples.busy Examples.waitlist_st) false Examples.waitlist_st [ERun]))) <> [] /\
   sigs (Waitlist.trace (fun s : Waitlist.St => s) (Examples.busy Examples.waitlist_st) false Examples.waitlist_st ([ERun] ++ [EAct (Waitlist.join "reader@example.com" JUndef)])) =
   SpecAccessors.waitlist ((fun s : Waitlist.St => s) (last (fst (Examples.busy Examples.waitlist_st (CallLog.waitlist_call (Waitlist.join "reader@example.com" JUndef)) (ctl (Waitlist.trace (fun s : Waitlist.St => s) (Examples.busy Examples.waitlist_st) false Examples.waitlist_st [ERun])))) Examples.waitlist_st))) /\
  (subs (Views.trace (fun s : Views.St => s) (Examples.busy Examples.views_st) false (Views.mkOptions "/blog/my-post" None) Examples.views_st [ERun]) <> [] /\ fst (Examples.busy Examples.views_st (CallLog.views_call Views.record) (ctl (Views.trace (fun s : Views.St => s) (Examples.busy Examples.views_st) false (Views.mkOptions "/blog/my-post" None) Examples.views_st [ERun]))) <> [] /\
   sigs (Views.trace (fun s : Views.St => s) (Examples.busy Examples.views_st) false (Views.mkOptions "/blog/my-post" None) Examples.views_st ([ERun] ++ [EAct Views.record])) =
   SpecAccessors.views ((fun s : Views.St => s) (last (fst (Examples.busy Examples.views_st (CallLog.views_call Views.record) (ctl (Views.trace (fun s : Views.St => s) (Examples.busy Examples.views_st) false (Views.mkOptions "/blog/my-post" None) Examples.views_st [ERun])))) Examples.views_st))) /\
  (subs (Feedback.trace (fun s : Feedback.St => s) (Examples.busy Examples.feedback_st) false Examples.feedback_st [ERun]) <> [] /\ fst (Examples.busy Examples.feedback_st (CallLog.feedback_call (Feedback.submit "bug" "It breaks" JUndef)) (ctl (Feedback.trace (fun s : Feedback.St => s) (Examples.busy Examples.feedback_st) false Examples.feedback_st [ERun]))) <> [] /\
   sigs (Feedback.trace (fun s : Feedback.St => s) (Examples.busy Examples.feedback_st) false Examples.feedback_st ([ERun] ++ [EAct (Feedback.submit "bug" "It breaks" JUndef)])) =
   SpecAccessors.feedback ((fun s : Feedback.St => s) (last (fst (Examples.busy Examples.feedback_st (CallLog.feedback_call (Feedback.submit "bug" "It breaks" JUndef)) (ctl (Feedback.trace (fun s : Feedback.St => s) (Examples.busy Examples.feedback_st) false Examples.feedback_st [ERun])))) Examples.feedback_st))) /\
  (subs (Poll.trace (fun s : Poll.St => s) (Examples.busy Examples.poll_st) false (Poll.mkOptions "favorite-framework" None) Examples.poll_st [ERun]) <> [] /\ fst (Examples.busy Examples.poll_st (CallLog.poll_call (Poll.vote ["solid"])) (ctl (Poll.trace (fun s : Poll.St => s) (Examples.busy Examples.poll_st) false (Poll.mkOptions "favorite-framework" None) Examples.poll_st [ERun]))) <> [] /\
   sigs (Poll.trace (fun s : Poll.St => s) (Examples.busy Examples.poll_st) false (Poll.mkOptions "favorite-framework" None) Examples.poll_st ([ERun] ++ [EAct (Poll.vote ["solid"])])) =
   SpecAccessors.poll ((fun s : Poll.St => s) (last (fst (Examples.busy Examples.poll_st (CallLog.poll_call (Poll.vote ["solid"])) (ctl (Poll.trace (fun s : Poll.St => s) (Examples.busy Examples.poll_st) false (Poll.mkOptions "favorite-framework" None) Examples.poll_st [ERun])))) Examples.poll_st))) /\
  (subs (Announcements.trace Examples.dismiss_view (Examples.busy Examples.ann_c) false Examples.visible (Announcements.mkOptions None) Examples.ann_c [ERun]) <> [] /\ fst (Examples.busy Examples.ann_c (CallLog.announcements_call (Announcements.dismiss 1%Z)) (ctl (Announcements.trace Examples.dismiss_view (Examples.busy Examples.ann_c) false Examples.visible (Announcements.mkOptions None) Examples.ann_c [ERun]))) <> [] /\
   sigs (Announcements.trace Examples.dismiss_view (Examples.busy Examples.ann_c) false Examples.visible (Announcements.mkOptions None) Examples.ann_c ([ERun] ++ [EAct (Announcements.dismiss 1%Z)])) =
   SpecAccessors.announcements_visible Examples.visible (last (fst (Examples.busy Examples.ann_c (CallLog.announcements_call (Announcements.dismiss 1%Z)) (ctl (Announcements.trace Examples.dismiss_view (Examples.busy Examples.ann_c) false Examples.visible (Announcements.mkOptions None) Examples.ann_c [ERun])))) Examples.ann_c) (Examples.dismiss_view (last (fst (Examples.busy Examples.ann_c (CallLog.announcements_call (Announcements.dismiss 1%Z)) (ctl (Announcements.trace Examples.dismiss_view (Examples.busy Examples.ann_c) false Examples.visible (Announcements.mkOptions None) Examples.ann_c [ERun])))) Examples.ann_c))).
Proof.
  repeat match goal with |- (_ /\ _) /\ _ => split end.
  - destruct X4_action_notifications_reach_signals as (T1 & _ & _ & _ & _ & _ & _ & _ & _).
    assert (H1 : subs (Subscribe.trace (fun s : Subscribe.St => s) (Examples.busy Examples.subscribe_st) false Examples.subscribe_st [ERun]) <> []) by (vm_compute; discriminate).
    assert (H2 : fst (Examples.busy Examples.subscribe_st (CallLog.subscribe_call (Subscribe.subscribe "reader@example.com")) (ctl (Subscribe.trace (fun s : Subscribe.St => s) (Examples.busy Examples.subscribe_st) false Examples.subscribe_st [ERun]))) <> []) by (vm_compute; discriminate).
    split; [exact H1 | split; [exact H2 | exact (T1 Subscribe.St (fun s : Subscribe.St => s) (Examples.busy Examples.subscribe_st) false Examples.subscribe_st [ERun] (Subscribe.subscribe "reader@example.com") Examples.subscribe_st H1 H2)]].
  - destruct X4_action_notifications_reach_signals as (_ & T2 & _ & _ & _ & _ & _ & _ & _).
    assert (H1 : subs (Form.trace (fun s : Form.St => s) (Examples.busy Examples.form_st) false Examples.form_st [ERun]) <> []) by (vm_compute; discriminate).
    assert (H2 : fst (Examples.busy Examples.form_st (CallLog.form_call (Form.submit [("message", JStr "hi")])) (ctl (Form.trace (fun s : Form.St => s) (Examples.busy Examples.form_st) false Examples.form_st [ERun]))) <> []) by (vm_compute; discriminate).
    split; [exact H1 | split; [exact H2 | exact (T2 Form.St (fun s : Form.St => s) (Examples.busy Examples.form_st) false Examples.form_st [ERun] (Form.submit [("message", JStr "hi")]) Examples.form_st H1 H2)]].
  - destruct X4_action_notifications_reach_signals as (_ & _ & T3 & _ & _ & _ & _ & _ & _).
    assert (H1 : subs (Reactions.trace (fun s : Reactions.St => s) (Examples.busy Examples.reactions_st) false (Reactions.mkOptions "my-post" None) Examples.reactions_st [ERun]) <> []) by (vm_compute; discriminate).
    assert (H2 : fst (Examples.busy Examples.reactions_st (CallLog.reactions_call (Reactions.addReaction "like")) (ctl (Reactions.trace (fun s : Reactions.St => s) (Examples.busy Examples.reactions_st) false (Reactions.mkOptions "my-post" None) Examples.reactions_st [ERun]))) <> []) by (vm_compute; discriminate).
    split; [exact H1 | split; [exact H2 | exact (T3 Reactions.St (fun s : Reactions.St => s) (Examples.busy Examples.reactions_st) false (Reactions.mkOptions "my-post" None) Examples.reactions_st [ERun] (Reactions.addReaction "like") Examples.reactions_st H1 H2)]].
  - destruct X4_action_notifications_reach_signals as (_ & _ & _ & T4 & _ & _ & _ & _ & _).
    assert (H1 : subs (Comments.trace (fun s : Comments.St => s) (Examples.busy Examples.comments_st) false (Comments.mkOptions "my-post" None) Examples.comments_st [ERun]) <> []) by (vm_compute; discriminate).
    assert (H2 : fst (Examples.busy Examples.comments_st (CallLog.comments_call (Comments.postComment "Ada" "Nice post" JUndef)) (ctl (Comments.trace (fun s : Comments.St => s) (Examples.busy Examples.comments_st) false (Comments.mkOptions "my-post" None) Examples.comments_st [ERun]))) <> []) by (vm_compute; discriminate).
    split; [exact H1 | split; [exact H2 | exact (T4 Comments.St (fun s : Comments.St => s) (Examples.busy Examples.comments_st) false (Comments.mkOptions "my-post" None) Examples.comments_st [ERun] (Comments.postComment "Ada" "Nice post" JUndef) Examples.comments_st H1 H2)]].
  - destruct X4_action_notifications_reach_signals as (_ & _ & _ & _ & T5 & _ & _ & _ & _).
    assert (H1 : subs (Waitlist.trace (fun s : Waitlist.St => s) (Examples.busy Examples.waitlist_st) false Examples.waitlist_st [ERun]) <> []) by (vm_compute; discriminate).
    assert (H2 : fst (Examples.busy Examples.waitlist_st (CallLog.waitlist_call (Waitlist.join "reader@example.com" JUndef)) (ctl (Waitlist.trace (fun s : Waitlist.St => s) (Examples.busy Examples.waitlist_st) false Examples.waitlist_st [ERun]))) <> []) by (vm_compute; discriminate).
    split; [exact H1 | split; [exact H2 | exact (T5 Waitlist.St (fun s : Waitlist.St => s) (Examples.busy Examples.waitlist_st) false Examples.waitlist_st [ERun] (Waitlist.join "reader@example.com" JUndef) Examples.waitlist_st H1 H2)]].
  - destruct X4_action_notifications_reach_signals as (_ & _ & _ & _ & _ & T6 & _ & _ & _).
    assert (H1 : subs (Views.trace (fun s : Views.St => s) (Examples.busy Examples.views_st) false (Views.mkOptions "/blog/my-post" None) Examples.views_st [ERun]) <> []) by (vm_compute; discriminate).
    assert (H2 : fst (Examples.busy Examples.views_st (CallLog.views_call Views.record) (ctl (Views.trace (fun s : Views.St => s) (Examples.busy Examples.views_st) false (Views.mkOptions "/blog/my-post" None) Examples.views_st [ERun]))) <> []) by (vm_compute; discriminate).
    split; [exact H1 | split; [exact H2 | exact (T6 Views.St (fun s : Views.St => s) (Examples.busy Examples.views_st) false (Views.mkOptions "/blog/my-post" None) Examples.views_st [ERun] Views.record Examples.views_st H1 H2)]].
  - destruct X4_action_notifications_reach_signals as (_ & _ & _ & _ & _ & _ & T7 & _ & _).
    assert (H1 : subs (Feedback.trace (fun s : Feedback.St => s) (Examples.busy Examples.feedback_st) false Examples.feedback_st [ERun]) <> []) by (vm_compute; discriminate).
    assert (H2 : fst (Examples.busy Examples.feedback_st (CallLog.feedback_call (Feedback.submit "bug" "It breaks" JUndef)) (ctl (Feedback.trace (fun s : Feedback.St => s) (Examples.busy Examples.feedback_st) false Examples.feedback_st [ERun]))) <> []) by (vm_compute; discriminate).
    split; [exact H1 | split; [exact H2 | exact (T7 Feedback.St (fun s : Feedback.St => s) (Examples.busy Examples.feedback_st) false Examples.feedback_st [ERun] (Feedback.submit "bug" "It breaks" JUndef) Examples.feedback_st H1 H2)]].
  - destruct X4_action_notifications_reach_signals as (_ & _ & _ & _ & _ & _ & _ & T8 & _).
    assert (H1 : subs (Poll.trace (fun s : Poll.St => s) (Examples.busy Examples.poll_st) false (Poll.mkOptions "favorite-framework" None) Examples.poll_st [ERun]) <> []) by (vm_compute; discriminate).
    assert (H2 : fst (Examples.busy Examples.poll_st (CallLog.poll_call (Poll.vote ["solid"])) (ctl (Poll.trace (fun s : Poll.St => s) (Examples.busy Examples.poll_st) false (Poll.mkOptions "favorite-framework" None) Examples.poll_st [ERun]))) <> []) by (vm_compute; discriminate).
    split; [exact H1 | split; [exact H2 | exact (T8 Poll.St (fun s : Poll.St => s) (Examples.busy Examples.poll_st) false (Poll.mkOptions "favorite-framework" None) Examples.poll_st [ERun] (Poll.vote ["solid"]) Examples.poll_st H1 H2)]].
  - destruct X4_action_notifications_reach_signals as (_ & _ & _ & _ & _ & _ & _ & _ & T9).
    assert (H1 : subs (Announcements.trace Examples.dismiss_view (Examples.busy Examples.ann_c) false Examples.visible (Announcements.mkOptions None) Examples.ann_c [ERun]) <> []) by (vm_compute; discriminate).
    assert (H2 : fst (Examples.busy Examples.ann_c (CallLog.announcements_call (Announcements.dismiss 1%Z)) (ctl (Announcements.trace Examples.dismiss_view (Examples.busy Examples.ann_c) false Examples.visible (Announcements.mkOptions None) Examples.ann_c [ERun]))) <> []) by (vm_compute; discriminate).
    split; [exact H1 | split; [exact H2 | exact (T9 Examples.DismissState Examples.dismiss_view (Examples.busy Examples.ann_c) false Examples.visible (Announcements.mkOptions None) Examples.ann_c [ERun] (Announcements.dismiss 1%Z) Examples.ann_c H1 H2)]].
Defined.

End Extras.

